(** * ChartImageAnalyzer: the chart-analysis pipeline of python-backend/chart_analyzer.py

    A shallow embedding of [ChartImageAnalyzer] and the properties its
    specification states about it.

    Conventions of the embedding.
    - Python [float]s are idealised as exact rationals ([Q]); [int]s are [Z].
      Every threshold and weight of the source is a short decimal, which [Q]
      represents exactly.  Where the value the code returns depends on the
      rounding of a float operation (the decimal chosen by [round], the row
      chosen by [int]), the operation is written with the binary rounding of
      the module [Float].
    - A Python [dict] with a fixed set of keys is a record whose fields are
      options: [None] is "key absent", and [d.get(k, default)] is [dict_get].
    - Calls into OpenCV, Pillow and base64 are not code of this program; they
      are the fields of the record [libs], over which the analyzers are
      parametrised.  [inRange], [bitwise_or], [countNonZero] and array
      slicing, whose meaning is elementary, are written out.
    - [try ... except Exception] blocks: an analyzer raises on an image
      without pixels, which [cv2.cvtColor] rejects, and
      [_extract_trade_parameters] on a division by a height of zero; both are
      modelled by an explicit test, leading to the [except] branch. *)

From Stdlib Require Import QArith Qround Qabs Qpower ZArith List String Ascii Bool.
From Stdlib Require Import Lia Lqa.
From Stdlib Require Import Permutation Sorted.
Import ListNotations.

Local Open Scope string_scope.
Local Open Scope list_scope.
Local Open Scope Z_scope.
Local Open Scope Q_scope.

(** ** Python built-ins *)

Module Py.

(** [a < b] on numbers, as a boolean. *)
Definition ltb (a b : Q) : bool := negb (Qle_bool b a).

(** [max(a, b)]: the first argument unless the second is strictly greater. *)
Definition max (a b : Q) : Q := if ltb a b then b else a.

(** [min(a, b)]: the first argument unless the second is strictly smaller. *)
Definition min (a b : Q) : Q := if ltb b a then b else a.

(** [abs(x)]. *)
Definition abs (x : Q) : Q := Qabs x.

(** [round(x, 1)] for the float of value [x]: the decimal with one place
    nearest to that value, ties to the even digit.  The result stands for the
    float that prints as this decimal. *)
Definition round1 (x : Q) : Q :=
  let t := x * 10 in
  let n := Qfloor t in
  let r := t - inject_Z n in
  let m := match r ?= 1 # 2 with
           | Lt => n
           | Gt => (n + 1)%Z
           | Eq => if Z.even n then n else (n + 1)%Z
           end in
  inject_Z m / 10.

(** [int(x)] for a non-negative [x] (truncation). *)
Definition int (x : Q) : Z := Qfloor x.

(** [d.get(key, default)]. *)
Definition dict_get {A : Type} (field : option A) (default : A) : A :=
  match field with
  | Some v => v
  | None => default
  end.

(** [len(xs)]. *)
Definition len {A : Type} (xs : list A) : Z := Z.of_nat (List.length xs).

(** [min(xs, key=k)] on a non-empty list: the first element of least key. *)
Fixpoint min_by {A : Type} (key : A -> Q) (x : A) (xs : list A) : A :=
  match xs with
  | [] => x
  | y :: ys => if ltb (key y) (key x) then min_by key y ys else min_by key x ys
  end.

(** Stable insertion of [x] into a list sorted by [before]. *)
Fixpoint insert_sorted {A : Type} (before : A -> A -> bool) (x : A) (xs : list A)
  : list A :=
  match xs with
  | [] => [x]
  | y :: ys => if before y x then y :: insert_sorted before x ys
               else x :: y :: ys
  end.

(** [xs.sort(key=...)]: a stable sort; [before a b] says that [a] may stay
    in front of a later [b]. *)
Definition sort {A : Type} (before : A -> A -> bool) (xs : list A) : list A :=
  fold_left (fun acc x => insert_sorted before x acc) xs [].

End Py.

(** ** Binary floating point

    Python's floats are IEEE 754 binary64 numbers.  Where what the code
    returns depends on the rounding of a float operation, the operation is
    written with [Float.round]: the binary64 number nearest to the exact
    result, ties to the even significand.  Elsewhere the numbers are the
    exact rationals.  Overflow and subnormal numbers are left out; the
    quantities of the analyzers stay far from both. *)

Module Float.

(** The integer nearest to [x], ties to the even one. *)
Definition nearest_even (x : Q) : Z :=
  let n := Qfloor x in
  let r := x - inject_Z n in
  match Qcompare r (1 # 2) with
  | Lt => n
  | Gt => (n + 1)%Z
  | Eq => if Z.even n then n else (n + 1)%Z
  end.

(** The binary exponent of a positive [x]: the [e] with
    [2 ^ e <= x < 2 ^ (e + 1)]. *)
Definition exponent (x : Q) : Z :=
  let e := (Z.log2 (Qnum x) - Z.log2 (Z.pos (Qden x)))%Z in
  if Qle_bool (2 ^ e) x then e else (e - 1)%Z.

(** The binary64 number nearest to [x]: a multiple of the unit in the last
    of the 53 places of the significand. *)
Definition round (x : Q) : Q :=
  if Qeq_bool x 0 then 0
  else
    let ulp := 2 ^ (exponent (Qabs x) - 52) in
    inject_Z (nearest_even (x / ulp)) * ulp.

(** [a * b] and [a / b] on floats. *)
Definition mul (a b : Q) : Q := round (a * b).

Definition div (a b : Q) : Q := round (a / b).

End Float.

(** ** The dictionaries exchanged by the analyzers *)

Module Trend.
Record t := mk {
  trend : option string;
  confidence : option Q;
  green_ratio : option Q;
  red_ratio : option Q;
  dominant_color : option string;
  error : option string
}.
Definition empty : t := mk None None None None None None.
End Trend.

Module TradeParams.
Record t := mk {
  stop_loss_percent : option Q;
  take_profit_percent : option Q;
  levels_above : option Z;
  levels_below : option Z;
  trade_direction : option string;
  error : option string
}.
Definition empty : t := mk None None None None None None.
End TradeParams.

Module Markers.
Record t := mk {
  blue_lines : Z;
  purple_zones : Z;
  red_lines : Z;
  yellow_lines : Z;
  horizontal_levels : Z;
  blue_density : Q;
  purple_density : Q
}.
End Markers.

Module ExistingTrade.
Record t := mk {
  has_existing_trade : option bool;
  trade_type : option string;
  markers_detected : option Markers.t;
  trade_parameters : option TradeParams.t;
  confidence : option Q;
  action : option string;
  error : option string
}.
Definition empty : t := mk None None None None None None None.
End ExistingTrade.

Module Patterns.
Record t := mk {
  pattern_detected : option bool;
  pattern_type : option string;
  confidence : option Q;
  candlestick_density : option Q;
  error : option string
}.
Definition empty : t := mk None None None None None.
End Patterns.

(** One entry of the support/resistance finder.  The source stores
    [length = sqrt(dx^2 + dy^2)]; the embedding keeps the radicand
    [length2 = dx^2 + dy^2], which orders segments the same way. *)
Module SRLevel.
Record t := mk {
  y_position : Z;
  length2 : Z;
  strength : Q
}.
End SRLevel.

Module Levels.
Record t := mk {
  levels_detected : option Z;
  strong_levels : option (list SRLevel.t);
  has_support_resistance : option bool;
  error : option string
}.
Definition empty : t := mk None None None None.
End Levels.

Module PriceAction.
Record t := mk {
  trend_direction : option string;
  trend_strength : option Q;
  upward_movements : option Z;
  downward_movements : option Z;
  error : option string
}.
Definition empty : t := mk None None None None None.
End PriceAction.

Module Volume.
Record t := mk {
  volume_present : option bool;
  volume_pattern : option string;
  volume_density : option Q;
  error : option string
}.
End Volume.

Module Analysis.
Record t := mk {
  trend_analysis : option Trend.t;
  existing_trade : option ExistingTrade.t;
  candlestick_patterns : option Patterns.t;
  support_resistance : option Levels.t;
  price_action : option PriceAction.t;
  volume_analysis : option Volume.t
}.
End Analysis.

(** The entries appended to the [reasoning] list of the weighted path; each
    f-string is kept as its tag and the number it formats. *)
Inductive reason : Type :=
| BearishTrend (trend_confidence : Q)
| BullishTrend (trend_confidence : Q)
| PatternsIdentified (pattern_confidence : Q)
| DownwardAction (price_strength : Q)
| UpwardAction (price_strength : Q)
| LevelsIdentified
| DefaultBearishBias.

(** The ["reasoning"] text of a signal. *)
Inductive reasoning_text : Type :=
| CopyingSetup (stop_loss_percent take_profit_percent : Q)
| FollowingSetup
| PythonCVAnalysis (reasons : list reason)
| AnalysisFallback (exn : string)
| ErrorFallback (error_message : string).

(** The ["analysis_details"] entry of a signal. *)
Inductive details : Type :=
| CopyDetails (copied_trade_confidence : Q) (markers_detected : option Markers.t)
              (trade_parameters : TradeParams.t)
| FollowDetails (existing_trade_confidence : Q) (markers_detected : option Markers.t)
| FusionDetails (trend_score pattern_score price_action_score
                 total_signal_strength : Q).

Module Signal.
Record t := mk {
  isSignal : bool;
  confidence : Q;
  symbol : string;
  side : string;
  entryPrice : option Q;
  stopLoss : option Q;
  takeProfit : option Q;
  stopLossPercent : Q;
  takeProfitPercent : Q;
  quantity : Q;
  leverage : Z;
  reasoning : reasoning_text;
  method : string;
  trade_mode : option string;
  analysis_details : option details
}.
End Signal.

(** ** Signal fusion: [_generate_trading_signal] *)

(** The local state of the weighted path: [signal_strength],
    [signal_direction] and [reasoning]. *)
Record fusion_state := {
  signal_strength : Q;
  signal_direction : option string;
  reasons : list reason
}.

Definition fusion_init : fusion_state :=
  {| signal_strength := 0; signal_direction := None; reasons := [] |}.

(** Trend analysis weight (40%). *)
Definition fuse_trend (trend_type : string) (trend_confidence : Q)
  (st : fusion_state) : fusion_state :=
  if (trend_type =? "bearish")%string then
    {| signal_strength := signal_strength st + 0.4 * trend_confidence;
       signal_direction := Some "sell";
       reasons := reasons st ++ [BearishTrend trend_confidence] |}
  else if (trend_type =? "bullish")%string then
    {| signal_strength := signal_strength st + 0.4 * trend_confidence;
       signal_direction := Some "buy";
       reasons := reasons st ++ [BullishTrend trend_confidence] |}
  else st.

(** Pattern analysis weight (30%). *)
Definition fuse_patterns (patterns : Patterns.t) (st : fusion_state)
  : fusion_state :=
  if Py.dict_get (Patterns.pattern_detected patterns) false then
    let pattern_confidence := Py.dict_get (Patterns.confidence patterns) 0.5 in
    {| signal_strength := signal_strength st + 0.3 * pattern_confidence;
       signal_direction := signal_direction st;
       reasons := reasons st ++ [PatternsIdentified pattern_confidence] |}
  else st.

(** Price action analysis weight (20%). *)
Definition fuse_price_action (price_direction : string) (price_strength : Q)
  (st : fusion_state) : fusion_state :=
  if (price_direction =? "downward")%string then
    {| signal_strength := signal_strength st + 0.2 * price_strength;
       signal_direction := match signal_direction st with
                           | None => Some "sell"
                           | Some d => Some d
                           end;
       reasons := reasons st ++ [DownwardAction price_strength] |}
  else if (price_direction =? "upward")%string then
    {| signal_strength := signal_strength st + 0.2 * price_strength;
       signal_direction := match signal_direction st with
                           | None => Some "buy"
                           | Some d => Some d
                           end;
       reasons := reasons st ++ [UpwardAction price_strength] |}
  else st.

(** Support/resistance analysis weight (10%). *)
Definition fuse_levels (levels : Levels.t) (st : fusion_state) : fusion_state :=
  if Py.dict_get (Levels.has_support_resistance levels) false then
    {| signal_strength := signal_strength st + 0.1;
       signal_direction := signal_direction st;
       reasons := reasons st ++ [LevelsIdentified] |}
  else st.

(** Default to sell bias for ETH if no clear direction.  Returns the state
    together with the now definite direction. *)
Definition fuse_default (st : fusion_state) : fusion_state * string :=
  match signal_direction st with
  | None =>
      ({| signal_strength := Py.max 0.7 (signal_strength st);
          signal_direction := Some "sell";
          reasons := reasons st ++ [DefaultBearishBias] |}, "sell")
  | Some d => (st, d)
  end.

(** The signal of the copy branch. *)
Definition copy_signal (existing_trade : ExistingTrade.t) : Signal.t :=
  let trade_params :=
    Py.dict_get (ExistingTrade.trade_parameters existing_trade) TradeParams.empty in
  let stop_loss_percent :=
    Py.dict_get (TradeParams.stop_loss_percent trade_params) 0.5 in
  let take_profit_percent :=
    Py.dict_get (TradeParams.take_profit_percent trade_params) 1.5 in
  {| Signal.isSignal := true;
     Signal.confidence := 0.95;
     Signal.symbol := "ETH";
     Signal.side := "copy";
     Signal.entryPrice := None;
     Signal.stopLoss := None;
     Signal.takeProfit := None;
     Signal.stopLossPercent := stop_loss_percent;
     Signal.takeProfitPercent := take_profit_percent;
     Signal.quantity := 0.1;
     Signal.leverage := 1;
     Signal.reasoning := CopyingSetup stop_loss_percent take_profit_percent;
     Signal.method := "copy_existing_trade";
     Signal.trade_mode := Some "copy_existing";
     Signal.analysis_details :=
       Some (CopyDetails (Py.dict_get (ExistingTrade.confidence existing_trade) 0.9)
                         (ExistingTrade.markers_detected existing_trade)
                         trade_params) |}.

(** The signal of the follow branch. *)
Definition follow_signal (existing_trade : ExistingTrade.t) : Signal.t :=
  {| Signal.isSignal := true;
     Signal.confidence := 0.9;
     Signal.symbol := "ETH";
     Signal.side := "follow";
     Signal.entryPrice := None;
     Signal.stopLoss := None;
     Signal.takeProfit := None;
     Signal.stopLossPercent := 0.5;
     Signal.takeProfitPercent := 1.5;
     Signal.quantity := 0.1;
     Signal.leverage := 1;
     Signal.reasoning := FollowingSetup;
     Signal.method := "existing_trade_follow";
     Signal.trade_mode := Some "follow_existing";
     Signal.analysis_details :=
       Some (FollowDetails (Py.dict_get (ExistingTrade.confidence existing_trade) 0.8)
                           (ExistingTrade.markers_detected existing_trade)) |}.

(** The signal of the weighted path, from the accumulated state. *)
Definition weighted_signal (trend_confidence price_strength : Q)
  (patterns : Patterns.t) (st : fusion_state) (direction : string) : Signal.t :=
  let final_confidence := Py.max 0.75 (signal_strength st) in
  let '(entry_price, stop_loss_percent, take_profit_percent) :=
    if (direction =? "sell")%string then (@None Q, 0.5, -2.0)
    else (@None Q, -0.5, 2.0) in
  {| Signal.isSignal := true;
     Signal.confidence := final_confidence;
     Signal.symbol := "ETH";
     Signal.side := direction;
     Signal.entryPrice := entry_price;
     Signal.stopLoss := None;
     Signal.takeProfit := None;
     Signal.stopLossPercent := stop_loss_percent;
     Signal.takeProfitPercent := take_profit_percent;
     Signal.quantity := 0.1;
     Signal.leverage := 1;
     Signal.reasoning := PythonCVAnalysis (reasons st);
     Signal.method := "python_computer_vision";
     Signal.trade_mode := None;
     Signal.analysis_details :=
       Some (FusionDetails trend_confidence
                           (Py.dict_get (Patterns.confidence patterns) 0)
                           price_strength
                           (signal_strength st)) |}.

(** The signal returned by the [except] branch of [_generate_trading_signal].
    With the typed dictionaries of this embedding the [try] body cannot
    raise, so the branch is kept as a definition of its own. *)
Definition fusion_fallback_signal (exn : string) : Signal.t :=
  {| Signal.isSignal := true;
     Signal.confidence := 0.8;
     Signal.symbol := "ETH";
     Signal.side := "sell";
     Signal.entryPrice := None;
     Signal.stopLoss := None;
     Signal.takeProfit := None;
     Signal.stopLossPercent := 0.5;
     Signal.takeProfitPercent := 2.0;
     Signal.quantity := 0.1;
     Signal.leverage := 1;
     Signal.reasoning := AnalysisFallback exn;
     Signal.method := "python_fallback";
     Signal.trade_mode := None;
     Signal.analysis_details := None |}.

Definition _generate_trading_signal (analysis : Analysis.t) : Signal.t :=
  let trend := Py.dict_get (Analysis.trend_analysis analysis) Trend.empty in
  let existing_trade :=
    Py.dict_get (Analysis.existing_trade analysis) ExistingTrade.empty in
  let patterns :=
    Py.dict_get (Analysis.candlestick_patterns analysis) Patterns.empty in
  let levels := Py.dict_get (Analysis.support_resistance analysis) Levels.empty in
  let price_action :=
    Py.dict_get (Analysis.price_action analysis) PriceAction.empty in
  if Py.dict_get (ExistingTrade.has_existing_trade existing_trade) false then
    let trade_type :=
      Py.dict_get (ExistingTrade.trade_type existing_trade) "follow_existing" in
    if (trade_type =? "copy_existing_setup")%string then copy_signal existing_trade
    else follow_signal existing_trade
  else
    let st := fusion_init in
    let trend_type := Py.dict_get (Trend.trend trend) "neutral" in
    let trend_confidence := Py.dict_get (Trend.confidence trend) 0.5 in
    let st := fuse_trend trend_type trend_confidence st in
    let st := fuse_patterns patterns st in
    let price_direction :=
      Py.dict_get (PriceAction.trend_direction price_action) "unclear" in
    let price_strength :=
      Py.dict_get (PriceAction.trend_strength price_action) 0.5 in
    let st := fuse_price_action price_direction price_strength st in
    let st := fuse_levels levels st in
    let '(st, direction) := fuse_default st in
    weighted_signal trend_confidence price_strength patterns st direction.

(** [_create_error_response]: the standardized error response. *)
Module Response.
Record t := mk {
  success : bool;
  error : option string;
  analysis : option Analysis.t;
  trading_signal : Signal.t;
  confidence : option Q;
  method : option string
}.
End Response.

Definition error_signal (error_message : string) : Signal.t :=
  {| Signal.isSignal := true;
     Signal.confidence := 0.75;
     Signal.symbol := "ETH";
     Signal.side := "sell";
     Signal.entryPrice := None;
     Signal.stopLoss := None;
     Signal.takeProfit := None;
     Signal.stopLossPercent := 0.5;
     Signal.takeProfitPercent := 2.0;
     Signal.quantity := 0.1;
     Signal.leverage := 1;
     Signal.reasoning := ErrorFallback error_message;
     Signal.method := "python_error_fallback";
     Signal.trade_mode := None;
     Signal.analysis_details := None |}.

Definition _create_error_response (error_message : string) : Response.t :=
  {| Response.success := false;
     Response.error := Some error_message;
     Response.analysis := None;
     Response.trading_signal := error_signal error_message;
     Response.confidence := None;
     Response.method := None |}.


(** ** Rasters and the elementary array operations *)

(** A pixel: three channels, each in 0..255 (B, G, R, or H, S, V). *)
Definition pixel : Type := (Z * Z * Z)%type.

(** A colour image: rows of pixels. *)
Definition raster : Type := list (list pixel).

(** A single-channel image (mask, grayscale, edge map). *)
Definition plane : Type := list (list Z).

(** A line segment [(x1, y1, x2, y2)] as returned by [cv2.HoughLinesP]. *)
Definition segment : Type := (Z * Z * Z * Z)%type.

(** A contour: its points [(x, y)] in order. *)
Definition contour : Type := list (Z * Z).

(** [img.shape[:2]]: (height, width). *)
Definition shape {A : Type} (img : list (list A)) : Z * Z :=
  (Py.len img, Py.len (hd [] img)).

Definition between (lo hi v : Z) : bool := ((lo <=? v) && (v <=? hi))%Z.

(** [cv2.inRange(img, lower, upper)]: 255 where every channel lies in its
    closed range, 0 elsewhere. *)
Definition inRange (img : raster) (lower upper : pixel) : plane :=
  let '(l0, l1, l2) := lower in
  let '(u0, u1, u2) := upper in
  map (map (fun p : pixel =>
              let '(c0, c1, c2) := p in
              if between l0 u0 c0 && between l1 u1 c1 && between l2 u2 c2
              then 255%Z else 0%Z)) img.

(** [cv2.bitwise_or(a, b)] on two masks of the same shape. *)
Definition bitwise_or (a b : plane) : plane :=
  map (fun rows => map (fun vs => Z.lor (fst vs) (snd vs))
                       (combine (fst rows) (snd rows)))
      (combine a b).

(** [cv2.countNonZero(m)]. *)
Definition countNonZero (m : plane) : Z :=
  Py.len (filter (fun v => negb (v =? 0)%Z) (List.concat m)).

(** A plane without a non-zero entry. *)
Definition all_zero (m : plane) : Prop := Forall (Forall (fun v => v = 0%Z)) m.

(** A raster whose every pixel is (0, 0, 0). *)
Definition is_black (img : raster) : Prop :=
  Forall (Forall (fun p : pixel => p = (0, 0, 0)%Z)) img.

(** ** The library calls the analyzers are parametrised over *)

Record libs := {
  (** [base64.b64decode]; [None] when it raises. *)
  b64decode : string -> option (list Byte.byte);
  (** [Image.open], [load], [convert('RGB')] and the conversion to BGR: the
      whole primary decode; [None] when any step raises. *)
  Image_open : list Byte.byte -> option raster;
  (** [cv2.imdecode(np.frombuffer(..), cv2.IMREAD_COLOR)]. *)
  imdecode : list Byte.byte -> option raster;
  (** [cv2.cvtColor(.., cv2.COLOR_BGR2HSV)], which works pixel by pixel. *)
  bgr2hsv : pixel -> pixel;
  (** [cv2.cvtColor(.., cv2.COLOR_BGR2GRAY)], pixel by pixel. *)
  bgr2gray : pixel -> Z;
  (** [cv2.Canny(img, threshold1, threshold2)] with aperture 3. *)
  Canny : plane -> Z -> Z -> plane;
  (** [cv2.HoughLinesP(img, 1, pi/180, threshold, minLineLength, maxLineGap)]. *)
  HoughLinesP : plane -> Z -> Z -> Z -> option (list segment);
  (** [cv2.morphologyEx(img, MORPH_OPEN, rect kernel of (width, height))]. *)
  morphologyEx_OPEN : plane -> Z -> Z -> plane;
  (** [cv2.GaussianBlur(img, (5, 5), 0)]. *)
  GaussianBlur : plane -> plane;
  (** [cv2.findContours(img, RETR_EXTERNAL, CHAIN_APPROX_SIMPLE)]. *)
  findContours : plane -> list contour
}.

(** ** Detected levels of the existing-trade detector *)

Module Level.
Record t := mk {
  y_position : Q;
  height_ratio : Q;
  length : Z;
  strength : Q
}.
End Level.

(** The body of the loop over [lines] in [_detect_existing_trade]: the level
    of a very flat, long enough line. *)
Definition level_of_line (height width : Z) (line : segment) : option Level.t :=
  let '(x1, y1, x2, y2) := line in
  if ((Z.abs (y2 - y1) <=? 3) && (width / 4 <=? Z.abs (x2 - x1)))%Z then
    let y_pos := inject_Z (y1 + y2) / 2 in
    Some {| Level.y_position := y_pos;
            Level.height_ratio := y_pos / inject_Z height;
            Level.length := Z.abs (x2 - x1);
            Level.strength := inject_Z (Z.abs (x2 - x1)) / inject_Z width |}
  else None.

(** [horizontal_levels] before sorting. *)
Definition collect_levels (height width : Z) (lines : option (list segment))
  : list Level.t :=
  match lines with
  | None => []
  | Some ls =>
      fold_left (fun horizontal_levels line =>
                   match level_of_line height width line with
                   | Some l => horizontal_levels ++ [l]
                   | None => horizontal_levels
                   end) ls []
  end.

(** [horizontal_levels.sort(key=lambda x: x['y_position'])]. *)
Definition sort_by_position (levels : list Level.t) : list Level.t :=
  Py.sort (fun a b => Qle_bool (Level.y_position a) (Level.y_position b)) levels.

(** The dictionary returned by the [try] body of [_extract_trade_parameters]. *)
Definition trade_parameters_of (stop_loss_percent take_profit_percent : Q)
  (levels_above levels_below : list Level.t) : TradeParams.t :=
  {| TradeParams.stop_loss_percent := Some (Py.round1 stop_loss_percent);
     TradeParams.take_profit_percent := Some (Py.round1 take_profit_percent);
     TradeParams.levels_above := Some (Py.len levels_above);
     TradeParams.levels_below := Some (Py.len levels_below);
     TradeParams.trade_direction := Some "follow_chart_setup";
     TradeParams.error := None |}.

(** [abs(l['y_position'] - current_price_y)]; rows and midpoint are
    multiples of one half, so the difference is exact. *)
Definition distance_to (current_price_y : Q) (l : Level.t) : Q :=
  Py.abs (Level.y_position l - current_price_y).

(** The quotients by the image height, their products by 10 and by 8 and the
    literal 0.3 are floats: the decimal that [round] returns depends on
    them. *)
Definition _extract_trade_parameters (levels : list Level.t) (image_height : Z)
  : TradeParams.t :=
  let current_price_y := inject_Z image_height * 0.5 in
  let levels_above :=
    filter (fun l => Py.ltb (Level.y_position l) current_price_y) levels in
  let levels_below :=
    filter (fun l => Py.ltb current_price_y (Level.y_position l)) levels in
  let stop_loss_percent := 0.5 in
  let take_profit_percent := 1.5 in
  match levels_above, levels_below with
  | a :: above, b :: below =>
      if (image_height =? 0)%Z then
        (* ZeroDivisionError: the [except] branch *)
        {| TradeParams.stop_loss_percent := Some 0.5;
           TradeParams.take_profit_percent := Some 1.5;
           TradeParams.levels_above := None;
           TradeParams.levels_below := None;
           TradeParams.trade_direction := Some "follow_chart_setup";
           TradeParams.error := Some "float division by zero" |}
      else
        let closest_above := Py.min_by (distance_to current_price_y) a above in
        let closest_below := Py.min_by (distance_to current_price_y) b below in
        let above_distance :=
          Float.div (distance_to current_price_y closest_above)
                    (inject_Z image_height) in
        let below_distance :=
          Float.div (distance_to current_price_y closest_below)
                    (inject_Z image_height) in
        let take_profit_percent :=
          if Py.ltb 0 above_distance
          then Py.min 3.0 (Py.max 0.5 (Float.mul above_distance 10))
          else take_profit_percent in
        let stop_loss_percent :=
          if Py.ltb 0 below_distance
          then Py.min 2.0 (Py.max (Float.round 0.3) (Float.mul below_distance 8))
          else stop_loss_percent in
        trade_parameters_of stop_loss_percent take_profit_percent
                            levels_above levels_below
  | _, _ =>
      trade_parameters_of stop_loss_percent take_profit_percent
                          levels_above levels_below
  end.

(** ** Levels of the support/resistance finder *)

(** tan(5 degrees), to fifteen decimals. *)
Definition tan5 : Q := 0.087488663525924.

(** [angle < 5 or angle > 175] for
    [angle = abs(arctan2(y2 - y1, x2 - x1) * 180 / pi)]: the segment is
    within 5 degrees of the horizontal, that is [|dy| < tan(5 deg) * |dx|],
    or it is a single point ([arctan2(0, 0) = 0]). *)
Definition nearly_horizontal (line : segment) : bool :=
  let '(x1, y1, x2, y2) := line in
  let dx := (x2 - x1)%Z in
  let dy := (y2 - y1)%Z in
  ((dx =? 0) && (dy =? 0))%Z
  || Py.ltb (inject_Z (Z.abs dy)) (tan5 * inject_Z (Z.abs dx)).

(** The loop over [lines] in [_find_support_resistance_levels]: the strength
    of an entry is a tenth of the number of entries appended before it. *)
Definition collect_sr_levels (lines : option (list segment)) : list SRLevel.t :=
  match lines with
  | None => []
  | Some ls =>
      fold_left (fun horizontal_lines line =>
                   let '(x1, y1, x2, y2) := line in
                   if nearly_horizontal line then
                     horizontal_lines ++
                       [{| SRLevel.y_position := ((y1 + y2) / 2)%Z;
                           SRLevel.length2 :=
                             ((x2 - x1) * (x2 - x1) + (y2 - y1) * (y2 - y1))%Z;
                           SRLevel.strength :=
                             Py.min 1.0 (inject_Z (Py.len horizontal_lines) * 0.1) |}]
                   else horizontal_lines) ls []
  end.

(** [horizontal_lines.sort(key=lambda x: x["strength"], reverse=True)]. *)
Definition sort_by_strength (levels : list SRLevel.t) : list SRLevel.t :=
  Py.sort (fun a b => Qle_bool (SRLevel.strength b) (SRLevel.strength a)) levels.

(** ** Contours of the price-action analyzer *)

(** The loop over [contours]: (upward_movement, downward_movement). *)
Definition count_movements (contours : list contour) : Z * Z :=
  fold_left
    (fun counts c =>
       let '(upward_movement, downward_movement) := counts in
       match c with
       | start_point :: _ =>
           if (10 <? Py.len c)%Z then
             let end_point := last c start_point in
             if (snd end_point <? snd start_point)%Z
             then ((upward_movement + 1)%Z, downward_movement)
             else if (snd start_point <? snd end_point)%Z
                  then (upward_movement, (downward_movement + 1)%Z)
                  else counts
           else counts
       | [] => counts
       end)
    contours (0%Z, 0%Z).

(** ** Strings of the decoder *)

(** [s.split(sep)] for a one-character separator. *)
Fixpoint split (sep : ascii) (s : string) : list string :=
  match s with
  | EmptyString => [EmptyString]
  | String c rest =>
      if Ascii.eqb c sep then EmptyString :: split sep rest
      else match split sep rest with
           | seg :: segs => String c seg :: segs
           | [] => [String c EmptyString]
           end
  end.

(** [sep in s]. *)
Fixpoint contains (sep : ascii) (s : string) : bool :=
  match s with
  | EmptyString => false
  | String c rest => Ascii.eqb c sep || contains sep rest
  end.

(** The ASCII characters [str.strip()] removes. *)
Definition isspace (c : ascii) : bool :=
  let n := nat_of_ascii c in
  ((9 <=? n) && (n <=? 13) || (28 <=? n) && (n <=? 32))%nat.

Fixpoint lstrip (cs : list ascii) : list ascii :=
  match cs with
  | c :: rest => if isspace c then lstrip rest else cs
  | [] => []
  end.

(** [s.strip()]. *)
Definition strip (s : string) : string :=
  string_of_list_ascii (rev (lstrip (rev (lstrip (list_ascii_of_string s))))).

(** The first statement of [_decode_image]: removal of a data URL prefix.
    [None] is the early [return None] for a data URL without a comma. *)
Definition remove_data_url_prefix (image_data : string) : option string :=
  if String.prefix "data:" image_data then
    if contains "," image_data
    then Some (nth 1 (split "," image_data) EmptyString)
    else None
  else Some image_data.

(** ** The analyzers *)

(** [str(e)] of the [cv2.error] that [cv2.cvtColor] raises on an image
    without pixels, up to the version and file it names. *)
Definition empty_image_error : string :=
  "error: (-215:Assertion failed) !_src.empty() in function 'cvtColor'".

Section Analyzers.

Variable cv : libs.

(** [cv2.cvtColor(image, cv2.COLOR_BGR2HSV)]. *)
Definition cvtColor_BGR2HSV (image : raster) : raster :=
  map (map (bgr2hsv cv)) image.

(** [cv2.cvtColor(image, cv2.COLOR_BGR2GRAY)]. *)
Definition cvtColor_BGR2GRAY (image : raster) : plane :=
  map (map (bgr2gray cv)) image.

Definition _decode_image (image_data : string) : option raster :=
  match remove_data_url_prefix image_data with
  | None => None
  | Some image_data =>
      let image_data := strip image_data in
      match b64decode cv image_data with
      | None => None
      | Some image_bytes =>
          if (Py.len image_bytes <? 100)%Z then None
          else match Image_open cv image_bytes with
               | Some opencv_image => Some opencv_image
               | None =>
                   (* Fallback: try direct OpenCV decode *)
                   imdecode cv image_bytes
               end
      end
  end.

(** [green_pixels / total_pixels], for a non-empty image. *)
Definition green_fraction (image : raster) : Q :=
  let hsv := cvtColor_BGR2HSV image in
  let green_mask := inRange hsv (35, 50, 50)%Z (85, 255, 255)%Z in
  inject_Z (countNonZero green_mask)
  / inject_Z (fst (shape image) * snd (shape image)).

(** [red_pixels / total_pixels], for a non-empty image. *)
Definition red_fraction (image : raster) : Q :=
  let hsv := cvtColor_BGR2HSV image in
  let red_mask1 := inRange hsv (0, 50, 50)%Z (10, 255, 255)%Z in
  let red_mask2 := inRange hsv (170, 50, 50)%Z (180, 255, 255)%Z in
  let red_mask := bitwise_or red_mask1 red_mask2 in
  inject_Z (countNonZero red_mask)
  / inject_Z (fst (shape image) * snd (shape image)).

Definition _analyze_trend_colors (image : raster) : Trend.t :=
  let total_pixels := (fst (shape image) * snd (shape image))%Z in
  if (total_pixels =? 0)%Z then
    (* [cv2.cvtColor] raises on an empty image: the [except] branch *)
    {| Trend.trend := Some "neutral";
       Trend.confidence := Some 0.5;
       Trend.green_ratio := None;
       Trend.red_ratio := None;
       Trend.dominant_color := None;
       Trend.error := Some empty_image_error |}
  else
    let green_ratio := green_fraction image in
    let red_ratio := red_fraction image in
    let '(trend, confidence) :=
      if Py.ltb red_ratio green_ratio && Py.ltb 0.02 green_ratio then
        ("bullish", Py.min 0.95 (0.6 + green_ratio * 5))
      else if Py.ltb green_ratio red_ratio && Py.ltb 0.02 red_ratio then
        ("bearish", Py.min 0.95 (0.6 + red_ratio * 5))
      else ("neutral", 0.5) in
    {| Trend.trend := Some trend;
       Trend.confidence := Some confidence;
       Trend.green_ratio := Some green_ratio;
       Trend.red_ratio := Some red_ratio;
       Trend.dominant_color :=
         Some (if Py.ltb red_ratio green_ratio then "green" else "red");
       Trend.error := None |}.

(** The levels found by the line search of [_detect_existing_trade], sorted
    top to bottom. *)
Definition detected_levels (image : raster) : list Level.t :=
  let '(height, width) := shape image in
  let gray := cvtColor_BGR2GRAY image in
  let edges := Canny cv gray 30 100 in
  let lines := HoughLinesP cv edges 40 (width / 4) 20 in
  sort_by_position (collect_levels height width lines).

(** Marker pixel counts: blue, purple, red, yellow. *)
Definition blue_count (image : raster) : Z :=
  countNonZero (inRange (cvtColor_BGR2HSV image) (100, 30, 30)%Z (130, 255, 255)%Z).

Definition purple_count (image : raster) : Z :=
  countNonZero (inRange (cvtColor_BGR2HSV image) (140, 30, 30)%Z (170, 255, 255)%Z).

Definition red_count (image : raster) : Z :=
  let hsv := cvtColor_BGR2HSV image in
  countNonZero (bitwise_or (inRange hsv (0, 50, 50)%Z (10, 255, 255)%Z)
                           (inRange hsv (170, 50, 50)%Z (180, 255, 255)%Z)).

Definition yellow_count (image : raster) : Z :=
  countNonZero (inRange (cvtColor_BGR2HSV image) (15, 50, 50)%Z (35, 255, 255)%Z).

(** [blue_pixels / total_pixels] and [purple_pixels / total_pixels]. *)
Definition blue_density_of (image : raster) : Q :=
  inject_Z (blue_count image) / inject_Z (fst (shape image) * snd (shape image)).

Definition purple_density_of (image : raster) : Q :=
  inject_Z (purple_count image) / inject_Z (fst (shape image) * snd (shape image)).

Definition _detect_existing_trade (image : raster) : ExistingTrade.t :=
  let '(height, width) := shape image in
  let horizontal_levels := detected_levels image in
  let blue_pixels := blue_count image in
  let purple_pixels := purple_count image in
  let red_pixels := red_count image in
  let yellow_pixels := yellow_count image in
  let total_pixels := (height * width)%Z in
  if (total_pixels =? 0)%Z then
    (* [cv2.cvtColor] raises on an empty image: the [except] branch *)
    {| ExistingTrade.has_existing_trade := Some false;
       ExistingTrade.trade_type := Some "new_signal";
       ExistingTrade.markers_detected := None;
       ExistingTrade.trade_parameters := None;
       ExistingTrade.confidence := None;
       ExistingTrade.action := Some "generate_new_signal";
       ExistingTrade.error := Some empty_image_error |}
  else
    let blue_density := blue_density_of image in
    let purple_density := purple_density_of image in
    let has_trade_setup :=
      Py.ltb 0.002 blue_density
      || Py.ltb 0.001 purple_density
      || (3 <=? Py.len horizontal_levels)%Z in
    if has_trade_setup then
      let trade_params := _extract_trade_parameters horizontal_levels height in
      {| ExistingTrade.has_existing_trade := Some true;
         ExistingTrade.trade_type := Some "copy_existing_setup";
         ExistingTrade.markers_detected :=
           Some {| Markers.blue_lines := blue_pixels;
                   Markers.purple_zones := purple_pixels;
                   Markers.red_lines := red_pixels;
                   Markers.yellow_lines := yellow_pixels;
                   Markers.horizontal_levels := Py.len horizontal_levels;
                   Markers.blue_density := blue_density;
                   Markers.purple_density := purple_density |};
         ExistingTrade.trade_parameters := Some trade_params;
         ExistingTrade.confidence := Some 0.9;
         ExistingTrade.action := Some "copy_trade_setup";
         ExistingTrade.error := None |}
    else
      {| ExistingTrade.has_existing_trade := Some false;
         ExistingTrade.trade_type := Some "new_signal";
         ExistingTrade.markers_detected := None;
         ExistingTrade.trade_parameters := None;
         ExistingTrade.confidence := Some 0.0;
         ExistingTrade.action := Some "generate_new_signal";
         ExistingTrade.error := None |}.

Definition _detect_candlestick_patterns (image : raster) : Patterns.t :=
  let gray := cvtColor_BGR2GRAY image in
  let edges := Canny cv gray 50 150 in
  let vertical_lines := morphologyEx_OPEN cv edges 1 10 in
  let horizontal_lines := morphologyEx_OPEN cv edges 10 1 in
  let vertical_count := countNonZero vertical_lines in
  let horizontal_count := countNonZero horizontal_lines in
  let total_pixels := (fst (shape image) * snd (shape image))%Z in
  if (total_pixels =? 0)%Z then
    (* [cv2.cvtColor] raises on an empty image: the [except] branch *)
    {| Patterns.pattern_detected := Some false;
       Patterns.pattern_type := None;
       Patterns.confidence := None;
       Patterns.candlestick_density := None;
       Patterns.error := Some empty_image_error |}
  else
    let candlestick_density :=
      inject_Z (vertical_count + horizontal_count) / inject_Z total_pixels in
    let '(pattern_detected, pattern_type, confidence) :=
      if Py.ltb 0.01 candlestick_density
      then (true, "standard_candlesticks", Py.min 0.9 (candlestick_density * 50))
      else (false, "no_clear_pattern", 0.3) in
    {| Patterns.pattern_detected := Some pattern_detected;
       Patterns.pattern_type := Some pattern_type;
       Patterns.confidence := Some confidence;
       Patterns.candlestick_density := Some candlestick_density;
       Patterns.error := None |}.

Definition _find_support_resistance_levels (image : raster) : Levels.t :=
  if (fst (shape image) * snd (shape image) =? 0)%Z then
    (* [cv2.cvtColor] raises on an empty image: the [except] branch *)
    {| Levels.levels_detected := Some 0%Z;
       Levels.strong_levels := None;
       Levels.has_support_resistance := None;
       Levels.error := Some empty_image_error |}
  else
    let gray := cvtColor_BGR2GRAY image in
    let lines := HoughLinesP cv gray 100 50 10 in
    let horizontal_lines := sort_by_strength (collect_sr_levels lines) in
    {| Levels.levels_detected := Some (Py.len horizontal_lines);
       Levels.strong_levels := Some (firstn 5 horizontal_lines);
       Levels.has_support_resistance := Some (2 <? Py.len horizontal_lines)%Z;
       Levels.error := None |}.

Definition _analyze_price_action (image : raster) : PriceAction.t :=
  if (fst (shape image) * snd (shape image) =? 0)%Z then
    (* [cv2.cvtColor] raises on an empty image: the [except] branch *)
    {| PriceAction.trend_direction := Some "unclear";
       PriceAction.trend_strength := None;
       PriceAction.upward_movements := None;
       PriceAction.downward_movements := None;
       PriceAction.error := Some empty_image_error |}
  else
    let gray := cvtColor_BGR2GRAY image in
    let blurred := GaussianBlur cv gray in
    let edges := Canny cv blurred 50 150 in
    let contours := findContours cv edges in
    let '(upward_movement, downward_movement) := count_movements contours in
    let total_movement := (upward_movement + downward_movement)%Z in
    let '(trend_direction, trend_strength) :=
      if (0 <? total_movement)%Z then
        let upward_ratio := inject_Z upward_movement / inject_Z total_movement in
        if Py.ltb 0.6 upward_ratio then ("upward", upward_ratio)
        else if Py.ltb upward_ratio 0.4 then ("downward", 1 - upward_ratio)
        else ("sideways", 0.5)
      else ("unclear", 0.3) in
    {| PriceAction.trend_direction := Some trend_direction;
       PriceAction.trend_strength := Some trend_strength;
       PriceAction.upward_movements := Some upward_movement;
       PriceAction.downward_movements := Some downward_movement;
       PriceAction.error := None |}.

(** [height * 0.7] is a float product, and 0.7 a float. *)
Definition _analyze_volume_patterns (image : raster) : Volume.t :=
  let '(height, width) := shape image in
  let volume_region :=
    skipn (Z.to_nat (Py.int (Float.mul (inject_Z height) (Float.round 0.7))))
          image in
  let volume_gray := cvtColor_BGR2GRAY volume_region in
  let volume_bars := morphologyEx_OPEN cv volume_gray 1 5 in
  let region_pixels := (fst (shape volume_region) * snd (shape volume_region))%Z in
  if (region_pixels =? 0)%Z then
    (* [cv2.cvtColor] raises on an empty region: the [except] branch *)
    {| Volume.volume_present := Some false;
       Volume.volume_pattern := None;
       Volume.volume_density := None;
       Volume.error := Some empty_image_error |}
  else
    let volume_density :=
      inject_Z (countNonZero volume_bars) / inject_Z region_pixels in
    let '(volume_present, volume_pattern) :=
      if Py.ltb 0.005 volume_density then (true, "bars_detected")
      else (false, "no_volume_visible") in
    {| Volume.volume_present := Some volume_present;
       Volume.volume_pattern := Some volume_pattern;
       Volume.volume_density := Some volume_density;
       Volume.error := None |}.

(** The dictionary [analysis_results] built by [analyze_chart_image]. *)
Definition analysis_results (image : raster) : Analysis.t :=
  {| Analysis.trend_analysis := Some (_analyze_trend_colors image);
     Analysis.existing_trade := Some (_detect_existing_trade image);
     Analysis.candlestick_patterns := Some (_detect_candlestick_patterns image);
     Analysis.support_resistance := Some (_find_support_resistance_levels image);
     Analysis.price_action := Some (_analyze_price_action image);
     Analysis.volume_analysis := Some (_analyze_volume_patterns image) |}.

(** The pipeline on a decoded image. *)
Definition analyze_decoded (image : raster) : Response.t :=
  let analysis_results := analysis_results image in
  let trading_signal := _generate_trading_signal analysis_results in
  {| Response.success := true;
     Response.error := None;
     Response.analysis := Some analysis_results;
     Response.trading_signal := trading_signal;
     Response.confidence := Some (Signal.confidence trading_signal);
     Response.method := Some "python_cv_analysis" |}.

Definition analyze_chart_image (image_data : string) : Response.t :=
  match _decode_image image_data with
  | None => _create_error_response "Failed to decode image"
  | Some image => analyze_decoded image
  end.

End Analyzers.

(** ** The rules in the words of the specification *)

(** [clamp(x, lo, hi)]. *)
Definition clamp (x lo hi : Q) : Q := Py.min hi (Py.max lo x).

(** A near-horizontal level of the existing-trade detector: vertical
    deviation at most 3 pixels, length at least a quarter of the image width
    (the integer quotient [width // 4]). *)
Definition is_level (width : Z) (line : segment) : bool :=
  let '(x1, y1, x2, y2) := line in
  ((Z.abs (y2 - y1) <=? 3) && (width / 4 <=? Z.abs (x2 - x1)))%Z.

(** The same with the length compared to the exact quarter of the width,
    [image_width / 4]. *)
Definition quarter_width_level (width : Z) (line : segment) : bool :=
  let '(x1, y1, x2, y2) := line in
  (Z.abs (y2 - y1) <=? 3)%Z
  && Qle_bool (inject_Z width / 4) (inject_Z (Z.abs (x2 - x1))).

(** The lines handed to the level filter of the existing-trade detector. *)
Definition hough_lines (cv : libs) (image : raster) : list segment :=
  match HoughLinesP cv (Canny cv (cvtColor_BGR2GRAY cv image) 30 100) 40
                    (snd (shape image) / 4) 20 with
  | Some ls => ls
  | None => []
  end.

Module FusionSpec.

(** One weighted term of the score. *)
Definition term (applies : bool) (weight value : Q) : Q :=
  if applies then weight * value else 0.

(** The inputs of the weighted rule, read off the analysis records with the
    defaults of the source. *)
Record inputs := {
  trend_type : string;
  trend_confidence : Q;
  pattern_detected : bool;
  pattern_confidence : Q;
  price_direction : string;
  price_strength : Q;
  has_levels : bool
}.

Definition inputs_of (analysis : Analysis.t) : inputs :=
  let trend := Py.dict_get (Analysis.trend_analysis analysis) Trend.empty in
  let patterns :=
    Py.dict_get (Analysis.candlestick_patterns analysis) Patterns.empty in
  let levels := Py.dict_get (Analysis.support_resistance analysis) Levels.empty in
  let price_action :=
    Py.dict_get (Analysis.price_action analysis) PriceAction.empty in
  {| trend_type := Py.dict_get (Trend.trend trend) "neutral";
     trend_confidence := Py.dict_get (Trend.confidence trend) 0.5;
     pattern_detected := Py.dict_get (Patterns.pattern_detected patterns) false;
     pattern_confidence := Py.dict_get (Patterns.confidence patterns) 0.5;
     price_direction :=
       Py.dict_get (PriceAction.trend_direction price_action) "unclear";
     price_strength := Py.dict_get (PriceAction.trend_strength price_action) 0.5;
     has_levels := Py.dict_get (Levels.has_support_resistance levels) false |}.

Definition trend_directed (i : inputs) : bool :=
  (trend_type i =? "bullish")%string || (trend_type i =? "bearish")%string.

Definition price_directed (i : inputs) : bool :=
  (price_direction i =? "upward")%string
  || (price_direction i =? "downward")%string.

(** 0.4 x trend + 0.3 x pattern + 0.2 x price action + 0.1 for levels. *)
Definition score (i : inputs) : Q :=
  term (trend_directed i) 0.4 (trend_confidence i)
  + term (pattern_detected i) 0.3 (pattern_confidence i)
  + term (price_directed i) 0.2 (price_strength i)
  + term (has_levels i) 0.1 1.

(** The direction set by the trend, else by the price action, else unset. *)
Definition direction (i : inputs) : option string :=
  if (trend_type i =? "bearish")%string then Some "sell"
  else if (trend_type i =? "bullish")%string then Some "buy"
  else if (price_direction i =? "downward")%string then Some "sell"
  else if (price_direction i =? "upward")%string then Some "buy"
  else None.

(** The direction of the signal: "sell" when none was set. *)
Definition final_direction (i : inputs) : string :=
  match direction i with
  | Some d => d
  | None => "sell"
  end.

(** The score of the signal: raised to at least 0.7 when no direction was set. *)
Definition final_score (i : inputs) : Q :=
  match direction i with
  | Some _ => score i
  | None => Py.max 0.7 (score i)
  end.

(** Stop and target offsets, by direction. *)
Definition offsets (d : string) : Q * Q :=
  if (d =? "sell")%string then (0.5, -2.0) else (-0.5, 2.0).

End FusionSpec.

(** [round(clamp(distance / height x factor, lo, hi), 1)], the quotient and
    the product being float operations. *)
Definition rounded_offset (distance : Q) (height : Z) (factor lo hi : Q) : Q :=
  Py.round1
    (clamp (Float.mul (Float.div distance (inject_Z height)) factor) lo hi).

(** [l] is a level of [candidates] nearest to the row [current_price_y]. *)
Definition nearest (current_price_y : Q) (candidates : list Level.t)
  (l : Level.t) : Prop :=
  In l candidates
  /\ forall l', In l' candidates ->
                distance_to current_price_y l <= distance_to current_price_y l'.

(** The levels strictly above ([y] smaller) and strictly below the row
    [current_price_y]. *)
Definition above_of (current_price_y : Q) (levels : list Level.t) : list Level.t :=
  filter (fun l => Py.ltb (Level.y_position l) current_price_y) levels.

Definition below_of (current_price_y : Q) (levels : list Level.t) : list Level.t :=
  filter (fun l => Py.ltb current_price_y (Level.y_position l)) levels.

(** The fields that do not depend on the analysis. *)
Definition fixed_fields (s : Signal.t) : Prop :=
  Signal.isSignal s = true
  /\ Signal.symbol s = "ETH"
  /\ Signal.quantity s = 0.1
  /\ Signal.leverage s = 1%Z
  /\ Signal.entryPrice s = None.

(** ["total_signal_strength"] of a signal of the weighted path. *)
Definition total_signal_strength (s : Signal.t) : option Q :=
  match Signal.analysis_details s with
  | Some (FusionDetails _ _ _ total) => Some total
  | _ => None
  end.

(** What OpenCV computes on blank inputs: black converts to zero in both
    colour spaces; an image without a non-zero pixel has no edge, no line, no
    contour, and stays blank under morphological opening and blurring. *)
Record blank_laws (cv : libs) : Prop := {
  hsv_black : bgr2hsv cv (0, 0, 0)%Z = (0, 0, 0)%Z;
  gray_black : bgr2gray cv (0, 0, 0)%Z = 0%Z;
  canny_blank : forall m lo hi, all_zero m -> all_zero (Canny cv m lo hi);
  hough_blank : forall m threshold minLineLength maxLineGap,
      all_zero m -> HoughLinesP cv m threshold minLineLength maxLineGap = None;
  open_blank : forall m w h, all_zero m -> all_zero (morphologyEx_OPEN cv m w h);
  blur_blank : forall m, all_zero m -> all_zero (GaussianBlur cv m);
  contours_blank : forall m, all_zero m -> findContours cv m = []
}.

(** ** A small instance of the library record, and sample inputs *)

Module Sample.

(** Rows without a zero pixel, as full-width segments. *)
Fixpoint full_rows (y width : Z) (m : plane) : list segment :=
  match m with
  | [] => []
  | row :: rows =>
      if forallb (fun v => negb (v =? 0)%Z) row
      then (0, y, width - 1, y)%Z :: full_rows (y + 1) width rows
      else full_rows (y + 1) width rows
  end.

(** Hue (0..179), saturation and value by the textbook formulas, in integer
    arithmetic. *)
Definition hsv_of (p : pixel) : pixel :=
  let '(b, g, r) := p in
  let v := Z.max b (Z.max g r) in
  let d := (v - Z.min b (Z.min g r))%Z in
  let s := if (v =? 0)%Z then 0%Z else (255 * d / v)%Z in
  let h := if (d =? 0)%Z then 0%Z
           else if (v =? r)%Z then ((30 * (g - b) / d) mod 180)%Z
           else if (v =? g)%Z then (60 + 30 * (b - r) / d)%Z
           else (120 + 30 * (r - g) / d)%Z in
  (h, s, v).

(** A deliberately plain instance: luma by the usual integer weights, edges
    where the image is non-zero, lines along the rows that are non-zero
    throughout, identity opening and blurring, no contour. *)
Definition cv : libs :=
  {| b64decode := fun s => Some (map byte_of_ascii (list_ascii_of_string s));
     Image_open := fun _ => None;
     imdecode := fun bytes =>
       match bytes with
       | Byte.x00 :: _ => None
       | _ => Some [[(0, 0, 0)%Z; (0, 0, 0)%Z]; [(0, 0, 0)%Z; (0, 0, 0)%Z]]
       end;
     bgr2hsv := hsv_of;
     bgr2gray := fun p => let '(b, g, r) := p in
                          ((114 * b + 587 * g + 299 * r + 500) / 1000)%Z;
     Canny := fun m _ _ => map (map (fun v => if (v =? 0)%Z then 0 else 255)%Z) m;
     HoughLinesP := fun m _ _ _ =>
       if (countNonZero m =? 0)%Z then None
       else Some (full_rows 0 (snd (shape m)) m);
     morphologyEx_OPEN := fun m _ _ => m;
     GaussianBlur := fun m => m;
     findContours := fun _ => [] |}.

(** The same with [findContours] returning the given contours. *)
Definition with_contours (contours : list contour) : libs :=
  {| b64decode := b64decode cv;
     Image_open := Image_open cv;
     imdecode := imdecode cv;
     bgr2hsv := bgr2hsv cv;
     bgr2gray := bgr2gray cv;
     Canny := Canny cv;
     HoughLinesP := HoughLinesP cv;
     morphologyEx_OPEN := morphologyEx_OPEN cv;
     GaussianBlur := GaussianBlur cv;
     findContours := fun _ => contours |}.

(** The same with [HoughLinesP] returning the given lines. *)
Definition with_lines (lines : list segment) : libs :=
  {| b64decode := b64decode cv;
     Image_open := Image_open cv;
     imdecode := imdecode cv;
     bgr2hsv := bgr2hsv cv;
     bgr2gray := bgr2gray cv;
     Canny := Canny cv;
     HoughLinesP := fun _ _ _ _ => Some lines;
     morphologyEx_OPEN := morphologyEx_OPEN cv;
     GaussianBlur := GaussianBlur cv;
     findContours := findContours cv |}.

(** A contour of twelve points that ends higher on screen than it starts,
    and one of four points. *)
Definition rising : contour :=
  map (fun k => (k, 20 - k)%Z) [0; 1; 2; 3; 4; 5; 6; 7; 8; 9; 10; 11]%Z.

Definition short : contour := [(0, 0); (1, 1); (2, 2); (3, 3)]%Z.

(** A level of the existing-trade detector at row [y], spanning a 200 pixel
    wide image. *)
Definition level_at (y : Z) : Level.t :=
  {| Level.y_position := inject_Z y;
     Level.height_ratio := inject_Z y / 100;
     Level.length := 200;
     Level.strength := 1 |}.

(** A 4 x 8 image: a white row, a black row, two white rows. *)
Definition white_row : list pixel := repeat (255, 255, 255)%Z 8.
Definition black_row : list pixel := repeat (0, 0, 0)%Z 8.
Definition striped : raster := [white_row; black_row; white_row; white_row].

(** A 2 x 2 green image. *)
Definition green : raster :=
  [[(0, 255, 0)%Z; (0, 255, 0)%Z]; [(0, 255, 0)%Z; (0, 255, 0)%Z]].

(** A 2 x 2 red image and a 2 x 2 blue one. *)
Definition red : raster :=
  [[(0, 0, 255)%Z; (0, 0, 255)%Z]; [(0, 0, 255)%Z; (0, 0, 255)%Z]].


(** A black image of 60 rows and 163 columns with white marks on columns
    10 to 50 of rows 10, 30 and 50, and the three marks as line segments:
    each is 40 pixels long, and a quarter of the width is 40.75. *)
Definition marked_row : list pixel :=
  repeat (0, 0, 0)%Z 10 ++ repeat (255, 255, 255)%Z 41 ++ repeat (0, 0, 0)%Z 112.

Definition plain_row : list pixel := repeat (0, 0, 0)%Z 163.

Definition wide : raster :=
  repeat plain_row 10 ++ [marked_row] ++ repeat plain_row 19 ++ [marked_row]
  ++ repeat plain_row 19 ++ [marked_row] ++ repeat plain_row 9.

Definition marks : list segment :=
  [(10, 10, 50, 10); (10, 30, 50, 30); (10, 50, 50, 50)]%Z.

(** A 2 x 2 black image. *)
Definition black : raster := [[(0, 0, 0)%Z; (0, 0, 0)%Z]; [(0, 0, 0)%Z; (0, 0, 0)%Z]].

(** A payload of 100 characters. *)
Definition payload : string := string_of_list_ascii (repeat "A"%char 100).

(** An analysis without an existing trade: bullish trend, downward price
    action, three or more levels. *)
Definition bullish_analysis : Analysis.t :=
  {| Analysis.trend_analysis :=
       Some {| Trend.trend := Some "bullish";
               Trend.confidence := Some 0.95;
               Trend.green_ratio := Some 0.1;
               Trend.red_ratio := Some 0.01;
               Trend.dominant_color := Some "green";
               Trend.error := None |};
     Analysis.existing_trade :=
       Some {| ExistingTrade.has_existing_trade := Some false;
               ExistingTrade.trade_type := Some "new_signal";
               ExistingTrade.markers_detected := None;
               ExistingTrade.trade_parameters := None;
               ExistingTrade.confidence := Some 0.0;
               ExistingTrade.action := Some "generate_new_signal";
               ExistingTrade.error := None |};
     Analysis.candlestick_patterns :=
       Some {| Patterns.pattern_detected := Some true;
               Patterns.pattern_type := Some "standard_candlesticks";
               Patterns.confidence := Some 0.9;
               Patterns.candlestick_density := Some 0.05;
               Patterns.error := None |};
     Analysis.support_resistance :=
       Some {| Levels.levels_detected := Some 3%Z;
               Levels.strong_levels := Some [];
               Levels.has_support_resistance := Some true;
               Levels.error := None |};
     Analysis.price_action :=
       Some {| PriceAction.trend_direction := Some "downward";
               PriceAction.trend_strength := Some 0.7;
               PriceAction.upward_movements := Some 3%Z;
               PriceAction.downward_movements := Some 7%Z;
               PriceAction.error := None |};
     Analysis.volume_analysis := None |}.

(** An existing-trade record of the copy kind. *)
Definition copy_record : ExistingTrade.t :=
  {| ExistingTrade.has_existing_trade := Some true;
     ExistingTrade.trade_type := Some "copy_existing_setup";
     ExistingTrade.markers_detected := None;
     ExistingTrade.trade_parameters :=
       Some (_extract_trade_parameters [level_at 40; level_at 62] 100);
     ExistingTrade.confidence := Some 0.9;
     ExistingTrade.action := Some "copy_trade_setup";
     ExistingTrade.error := None |}.

Definition copy_analysis : Analysis.t :=
  {| Analysis.trend_analysis := None;
     Analysis.existing_trade := Some copy_record;
     Analysis.candlestick_patterns := None;
     Analysis.support_resistance := None;
     Analysis.price_action := None;
     Analysis.volume_analysis := None |}.

End Sample.

(** ** Further quantities of the analyzers *)

(** [candlestick_density] of [_detect_candlestick_patterns], for a
    non-empty image. *)
Definition candlestick_density_of (cv : libs) (image : raster) : Q :=
  let edges := Canny cv (cvtColor_BGR2GRAY cv image) 50 150 in
  inject_Z (countNonZero (morphologyEx_OPEN cv edges 1 10)
            + countNonZero (morphologyEx_OPEN cv edges 10 1))
  / inject_Z (fst (shape image) * snd (shape image)).

(** The rows of [image] from row [start] on. *)
Definition rows_from (start : Z) (image : raster) : raster :=
  skipn (Z.to_nat start) image.

(** The density of the bars left by the opening in a region of the image. *)
Definition bar_density (cv : libs) (region : raster) : Q :=
  inject_Z (countNonZero
              (morphologyEx_OPEN cv (cvtColor_BGR2GRAY cv region) 1 5))
  / inject_Z (fst (shape region) * snd (shape region)).

(** The contours the price-action analyzer looks at. *)
Definition contours_of (cv : libs) (image : raster) : list contour :=
  findContours cv
    (Canny cv (GaussianBlur cv (cvtColor_BGR2GRAY cv image)) 50 150).

(** The lines handed to the filter of the support/resistance finder. *)
Definition sr_lines (cv : libs) (image : raster) : list segment :=
  match HoughLinesP cv (cvtColor_BGR2GRAY cv image) 100 50 10 with
  | Some ls => ls
  | None => []
  end.

(** An array of [width] columns: every row has [width] entries. *)
Definition rectangular {A : Type} (width : Z) (img : list (list A)) : Prop :=
  Forall (fun row => Py.len row = width) img.

(** The levels of the support/resistance finder in order of discovery,
    before they are sorted. *)
Definition sr_levels_found (cv : libs) (image : raster) : list SRLevel.t :=
  collect_sr_levels (HoughLinesP cv (cvtColor_BGR2GRAY cv image) 100 50 10).

(** The test [cv2.inRange] makes on one pixel. *)
Definition pixel_in_range (lower upper p : pixel) : bool :=
  let '(l0, l1, l2) := lower in
  let '(u0, u1, u2) := upper in
  let '(c0, c1, c2) := p in
  between l0 u0 c0 && between l1 u1 c1 && between l2 u2 c2.

(** An HSV pixel counted as green, and one counted as red, by the trend
    analyzer. *)
Definition green_pixel (p : pixel) : bool :=
  pixel_in_range (35, 50, 50)%Z (85, 255, 255)%Z p.

Definition red_pixel (p : pixel) : bool :=
  pixel_in_range (0, 50, 50)%Z (10, 255, 255)%Z p
  || pixel_in_range (170, 50, 50)%Z (180, 255, 255)%Z p.

(** An HSV pixel counted as a blue marker, and one counted as a purple
    marker, by the existing-trade detector. *)
Definition blue_pixel (p : pixel) : bool :=
  pixel_in_range (100, 30, 30)%Z (130, 255, 255)%Z p.

Definition purple_pixel (p : pixel) : bool :=
  pixel_in_range (140, 30, 30)%Z (170, 255, 255)%Z p.

(** The pixels of the image in HSV, row after row. *)
Definition hsv_pixels (cv : libs) (image : raster) : list pixel :=
  map (bgr2hsv cv) (List.concat image).

(** The pixels of the image that pass the test [marked], as a share of its
    height x width pixels. *)
Definition marked_share (cv : libs) (marked : pixel -> bool) (image : raster)
  : Q :=
  inject_Z (Py.len (filter marked (hsv_pixels cv image)))
  / inject_Z (fst (shape image) * snd (shape image)).

(** The reasons of the weighted path, in the order the source appends them. *)
Definition reasons_of (i : FusionSpec.inputs) : list reason :=
  (if (FusionSpec.trend_type i =? "bearish")%string
   then [BearishTrend (FusionSpec.trend_confidence i)]
   else if (FusionSpec.trend_type i =? "bullish")%string
        then [BullishTrend (FusionSpec.trend_confidence i)]
        else [])
  ++ (if FusionSpec.pattern_detected i
      then [PatternsIdentified (FusionSpec.pattern_confidence i)]
      else [])
  ++ (if (FusionSpec.price_direction i =? "downward")%string
      then [DownwardAction (FusionSpec.price_strength i)]
      else if (FusionSpec.price_direction i =? "upward")%string
           then [UpwardAction (FusionSpec.price_strength i)]
           else [])
  ++ (if FusionSpec.has_levels i then [LevelsIdentified] else [])
  ++ (match FusionSpec.direction i with
      | None => [DefaultBearishBias]
      | Some _ => []
      end).

(** The characters of the base64 alphabet, padding included. *)
Definition base64_char (c : ascii) : bool :=
  let n := nat_of_ascii c in
  ((65 <=? n) && (n <=? 90) || (97 <=? n) && (n <=? 122)
   || (48 <=? n) && (n <=? 57) || (n =? 43) || (n =? 47) || (n =? 61))%nat.

(** Every character of [s] passes [test]. *)
Definition all_chars (test : ascii -> bool) (s : string) : bool :=
  forallb test (list_ascii_of_string s).

(** * python-backend/app.py *)

(** ** [convert_numpy_types] *)

#[local] Unset Elimination Schemes.

(** The contents of an [np.ndarray]: a scalar (a 0-d array) or a sequence
    of sub-arrays.  [NdOther] is an element of a dtype such as complex,
    string or date, which [tolist] turns into the Python object of that
    name; [NdObject] an element of an array of dtype object, which holds any
    Python value and which [tolist] hands out as it is. *)
Inductive ndarray (A : Type) : Type :=
| NdInt (n : Z)
| NdFloat (x : Q)
| NdBool (b : bool)
| NdOther (python_type : string)
| NdObject (v : A)
| NdDim (items : list (ndarray A)).

Arguments NdInt {A} n.
Arguments NdFloat {A} x.
Arguments NdBool {A} b.
Arguments NdOther {A} python_type.
Arguments NdObject {A} v.
Arguments NdDim {A} items.

(** Python values, as far as [convert_numpy_types] and a search for NumPy
    values tell them apart.  [NpOther] is a NumPy scalar that is neither an
    [np.integer] nor an [np.floating] nor an [np.bool_] (complex, string,
    bytes, date); [PyObject] any other Python object, taken as a whole;
    [PyDict] and [PyList] are the built-in types.  The keys of a dictionary
    are values as well. *)
Inductive pyvalue : Type :=
| NpInteger (n : Z)
| NpFloating (x : Q)
| NpBool (b : bool)
| NpOther (numpy_type : string)
| NpArray (a : ndarray pyvalue)
| PyNone
| PyBool (b : bool)
| PyInt (n : Z)
| PyFloat (x : Q)
| PyStr (s : string)
| PyObject (python_type : string)
| PyDict (entries : list (pyvalue * pyvalue))
| PyList (items : list pyvalue)
| PyTuple (items : list pyvalue)
| PySet (items : list pyvalue).

#[local] Set Elimination Schemes.

(** [a.tolist()]: nested lists of Python scalars, and the objects of an
    object array. *)
Fixpoint tolist (a : ndarray pyvalue) : pyvalue :=
  match a with
  | NdInt n => PyInt n
  | NdFloat x => PyFloat x
  | NdBool b => PyBool b
  | NdOther python_type => PyObject python_type
  | NdObject v => v
  | NdDim items => PyList (map tolist items)
  end.

Fixpoint convert_numpy_types (obj : pyvalue) : pyvalue :=
  match obj with
  | NpInteger n => PyInt n
  | NpFloating x => PyFloat x
  | NpArray a => tolist a
  | PyDict entries =>
      PyDict (map (fun kv => (fst kv, convert_numpy_types (snd kv))) entries)
  | PyList items => PyList (map convert_numpy_types items)
  | _ => obj
  end.






(** * python-backend/advanced_ocr.py *)

(** ** More string built-ins *)

(** [sep.join(parts)]. *)
Fixpoint join (sep : string) (parts : list string) : string :=
  match parts with
  | [] => EmptyString
  | [p] => p
  | p :: rest => (p ++ sep ++ join sep rest)%string
  end.

(** [re.sub(r'\s+', ' ', s)] on the characters of [s]: every maximal run of
    whitespace becomes one space.  [in_run] says that the previous character
    was whitespace. *)
Fixpoint collapse_spaces (in_run : bool) (cs : list ascii) : list ascii :=
  match cs with
  | [] => []
  | c :: rest =>
      if isspace c then
        if in_run then collapse_spaces true rest
        else " "%char :: collapse_spaces true rest
      else c :: collapse_spaces false rest
  end.

(** [s.split()]: the maximal runs of non-whitespace characters.
    [split_words cs] is the run that starts at the head of [cs], which is
    empty when [cs] starts with whitespace, and the runs after it. *)
Definition cons_word (word : list ascii) (others : list (list ascii))
  : list (list ascii) :=
  match word with
  | [] => others
  | _ => word :: others
  end.

Fixpoint split_words (cs : list ascii) : list ascii * list (list ascii) :=
  match cs with
  | [] => ([], [])
  | c :: rest =>
      let (word, others) := split_words rest in
      if isspace c then ([], cons_word word others) else (c :: word, others)
  end.

Definition word_list (cs : list ascii) : list (list ascii) :=
  let (word, others) := split_words cs in cons_word word others.

Definition words (s : string) : list string :=
  map string_of_list_ascii (word_list (list_ascii_of_string s)).

(** [int(x)] for a number: truncation towards zero. *)
Definition int_trunc (x : Q) : Z :=
  if Qle_bool 0 x then Qfloor x else (- Qfloor (- x))%Z.

(** [sum(xs)] for integers. *)
Definition sum_Z (xs : list Z) : Z := fold_left Z.add xs 0%Z.

(** ** The OCR engines and the other library calls of the OCR service *)

(** A bounding box as EasyOCR returns it. *)
Definition bbox : Type := list (Q * Q).

(** What a library call that can raise does: it returns a value, or it
    raises an exception of which the code reads [str(e)]. *)
Inductive outcome (A : Type) : Type :=
| Returned (value : A)
| Raised (message : string).

Arguments Returned {A} value.
Arguments Raised {A} message.

Record ocr_libs := {
  (** [cv2.adaptiveThreshold(gray, 255, ADAPTIVE_THRESH_GAUSSIAN_C,
      THRESH_BINARY, 11, 2)]. *)
  adaptiveThreshold : plane -> plane;
  (** [cv2.medianBlur(img, 3)]. *)
  medianBlur : plane -> plane;
  (** [cv2.resize(img, (width, height), interpolation=INTER_CUBIC)]. *)
  resize : plane -> Z -> Z -> plane;
  (** [easyocr_reader.readtext(image)]: (bbox, text, confidence) triples. *)
  readtext : plane -> outcome (list (bbox * string * Q));
  (** [pytesseract.image_to_string(image, config=custom_config)]. *)
  image_to_string : plane -> outcome string;
  (** [pytesseract.image_to_data(image, output_type=Output.DICT)['conf']],
      a list of numbers. *)
  image_to_data_conf : plane -> outcome (list Q);
  (** [re.finditer(patterns[name], text)]: for each match, its groups. *)
  finditer : string -> string -> list (list string);
  (** [float(s)]; [None] when it raises. *)
  to_float : string -> option Q
}.

(** One entry of ["details"]. *)
Module OcrDetail.
Record t := mk {
  text : string;
  confidence : Q;
  box : bbox
}.
End OcrDetail.

(** The dictionary an engine wrapper returns. *)
Module EngineResult.
Record t := mk {
  text : option string;
  confidence : option Q;
  word_count : option Z;
  details : option (list OcrDetail.t);
  raw_confidences : option (list Z);
  error : option string
}.
End EngineResult.

(** The [results] dictionary: one optional entry per engine. *)
Module OcrResults.
Record t := mk {
  easyocr : option EngineResult.t;
  tesseract : option EngineResult.t
}.
End OcrResults.

(** The loop of [_extract_with_easyocr]: (extracted_texts, total_confidence). *)
Definition easyocr_loop (results : list (bbox * string * Q))
  : list OcrDetail.t * Q :=
  fold_left
    (fun state item =>
       let '(extracted_texts, total_confidence) := state in
       let '(box, text, confidence) := item in
       if Py.ltb 0.5 confidence then
         (extracted_texts ++ [{| OcrDetail.text := strip text;
                                 OcrDetail.confidence := confidence;
                                 OcrDetail.box := box |}],
          total_confidence + confidence)
       else state)
    results ([], 0).

(** The dictionary of the [except] branch of both engine wrappers. *)
Definition engine_error (e : string) : EngineResult.t :=
  {| EngineResult.text := Some EmptyString;
     EngineResult.confidence := Some 0;
     EngineResult.word_count := None;
     EngineResult.details := None;
     EngineResult.raw_confidences := None;
     EngineResult.error := Some e |}.

Section OcrService.

Variable ocr : ocr_libs.

Definition _extract_with_easyocr (image : plane) : EngineResult.t :=
  match readtext ocr image with
  | Raised e => engine_error e
  | Returned results =>
      let '(extracted_texts, total_confidence) := easyocr_loop results in
      let avg_confidence :=
        match extracted_texts with
        | [] => 0
        | _ => total_confidence / inject_Z (Py.len extracted_texts)
        end in
      let combined_text := join " " (map OcrDetail.text extracted_texts) in
      {| EngineResult.text := Some combined_text;
         EngineResult.confidence := Some avg_confidence;
         EngineResult.word_count := Some (Py.len extracted_texts);
         EngineResult.details := Some extracted_texts;
         EngineResult.raw_confidences := None;
         EngineResult.error := None |}
  end.

Definition _extract_with_tesseract (image : plane) : EngineResult.t :=
  match image_to_string ocr image with
  | Raised e => engine_error e
  | Returned text =>
  match image_to_data_conf ocr image with
  | Raised e => engine_error e
  | Returned conf =>
      let confidences :=
        map int_trunc (filter (fun c => (0 <? int_trunc c)%Z) conf) in
      let avg_confidence :=
        match confidences with
        | [] => 0
        | _ => inject_Z (sum_Z confidences) / inject_Z (Py.len confidences)
        end in
      {| EngineResult.text := Some (strip text);
         EngineResult.confidence := Some (avg_confidence / 100);
         EngineResult.word_count := Some (Py.len (words text));
         EngineResult.details := None;
         EngineResult.raw_confidences := Some confidences;
         EngineResult.error := None |}
  end
  end.

End OcrService.

(** [re.sub(r'\s+', ' ', combined).strip()]. *)
Definition clean_text (combined : string) : string :=
  strip (string_of_list_ascii
           (collapse_spaces false (list_ascii_of_string combined))).

Definition _combine_ocr_results (results : OcrResults.t) : string :=
  let all_text := [] in
  let all_text :=
    match OcrResults.easyocr results with
    | Some easyocr_data =>
        if Py.ltb 0.7 (Py.dict_get (EngineResult.confidence easyocr_data) 0)
        then all_text ++ [Py.dict_get (EngineResult.text easyocr_data) EmptyString]
        else all_text
    | None => all_text
    end in
  let all_text :=
    match OcrResults.tesseract results with
    | Some tesseract_data =>
        let tesseract_text :=
          Py.dict_get (EngineResult.text tesseract_data) EmptyString in
        if negb (tesseract_text =? "")%string
           && (5 <? Z.of_nat (String.length (strip tesseract_text)))%Z
        then all_text ++ [tesseract_text]
        else all_text
    | None => all_text
    end in
  clean_text (join " " all_text).

(** ** Trading signals in the recognised text *)

(** [s.upper()] and [s.lower()] on ASCII text. *)
Definition upper_char (c : ascii) : ascii :=
  let n := nat_of_ascii c in
  if ((97 <=? n) && (n <=? 122))%nat then ascii_of_nat (n - 32) else c.

Definition lower_char (c : ascii) : ascii :=
  let n := nat_of_ascii c in
  if ((65 <=? n) && (n <=? 90))%nat then ascii_of_nat (n + 32) else c.

Definition upper (s : string) : string :=
  string_of_list_ascii (map upper_char (list_ascii_of_string s)).

Definition lower (s : string) : string :=
  string_of_list_ascii (map lower_char (list_ascii_of_string s)).

(** [sub in s] for strings. *)
Fixpoint contains_str (sub s : string) : bool :=
  String.prefix sub s
  || match s with
     | EmptyString => false
     | String _ rest => contains_str sub rest
     end.

(** [s.replace(old, new)] for a non-empty [old]: the occurrences of [old]
    are replaced from left to right, without overlap.  [skip] counts the
    characters of an occurrence still to be dropped. *)
Fixpoint replace_from (old new : string) (skip : nat) (s : string) : string :=
  match s with
  | EmptyString => EmptyString
  | String c rest =>
      match skip with
      | S k => replace_from old new k rest
      | O =>
          if String.prefix old s
          then (new ++ replace_from old new (String.length old - 1) rest)%string
          else String c (replace_from old new 0 rest)
      end
  end.

Definition replace (old new s : string) : string := replace_from old new 0 s.

(** A signal read from text. *)
Module OcrSignal.
Record t := mk {
  symbol : string;
  side : string;
  entry_price : Q;
  stop_loss : Q;
  take_profit : Q;
  confidence : Q;
  pattern : string
}.
End OcrSignal.

(** The dictionary [_extract_trading_signals] returns. *)
Module TradingSignals.
Record t := mk {
  found : bool;
  signal : option OcrSignal.t;
  all_signals : option (list OcrSignal.t);
  extracted_from : option string;
  text_analyzed : option string;
  error : option string
}.
End TradingSignals.

(** The [patterns] dictionary, in its order. *)
Definition patterns : list (string * string) :=
  [("standard",
    "(\w+)\s+(buy|sell|long|short)\s+(?:at\s+)?(\d+\.?\d*)[,\s]*(?:sl|stop|stoploss)[\s:]*(\d+\.?\d*)[,\s]*(?:tp|target|takeprofit)[\s:]*(\d+\.?\d*)");
   ("price_first",
    "(?:entry|open)[\s:]*(\d+\.?\d*)[,\s]*(?:sl|stop)[\s:]*(\d+\.?\d*)[,\s]*(?:tp|target)[\s:]*(\d+\.?\d*)");
   ("symbol_action", "(eth|btc|bitcoin|ethereum)\s+(short|long|buy|sell)");
   ("price_levels", "(\d+\.?\d+).*?(\d+\.?\d+).*?(\d+\.?\d+)")].

(** [max(xs, key=k)] on a non-empty list: the first element of greatest key. *)
Fixpoint max_by {A : Type} (key : A -> Q) (x : A) (xs : list A) : A :=
  match xs with
  | [] => x
  | y :: ys => if Py.ltb (key x) (key y) then max_by key y ys else max_by key x ys
  end.

Section Signals.

Variable ocr : ocr_libs.

(** [groups] is [match.groups()].  Unpacking a tuple of another length and a
    failing [float] raise; the [except] branch returns [None]. *)
Definition _parse_signal_match (groups : list string)
  (pattern_name full_text : string) : option OcrSignal.t :=
  if (pattern_name =? "standard")%string then
    match groups with
    | [symbol; side; entry; sl; tp] =>
        match to_float ocr entry, to_float ocr sl, to_float ocr tp with
        | Some entry_price, Some stop_loss, Some take_profit =>
            Some {| OcrSignal.symbol := upper symbol;
                    OcrSignal.side :=
                      replace "long" "buy" (replace "short" "sell" side);
                    OcrSignal.entry_price := entry_price;
                    OcrSignal.stop_loss := stop_loss;
                    OcrSignal.take_profit := take_profit;
                    OcrSignal.confidence := 0.9;
                    OcrSignal.pattern := pattern_name |}
        | _, _, _ => None
        end
    | _ => None
    end
  else if (pattern_name =? "price_first")%string then
    match groups with
    | [entry; sl; tp] =>
        let side :=
          if contains_str "short" full_text || contains_str "sell" full_text
          then "sell" else "buy" in
        let symbol := if contains_str "eth" full_text then "ETH" else "BTC" in
        match to_float ocr entry, to_float ocr sl, to_float ocr tp with
        | Some entry_price, Some stop_loss, Some take_profit =>
            Some {| OcrSignal.symbol := symbol;
                    OcrSignal.side := side;
                    OcrSignal.entry_price := entry_price;
                    OcrSignal.stop_loss := stop_loss;
                    OcrSignal.take_profit := take_profit;
                    OcrSignal.confidence := 0.8;
                    OcrSignal.pattern := pattern_name |}
        | _, _, _ => None
        end
    | _ => None
    end
  else if (pattern_name =? "symbol_action")%string then
    match groups with
    | [symbol; action] =>
        let symbol := if contains_str "eth" symbol then "ETH" else "BTC" in
        let side := replace "long" "buy" (replace "short" "sell" action) in
        let '(entry, sl, tp) :=
          if (symbol =? "ETH")%string then
            (3297,
             if (side =? "sell")%string then 3309 else 3285,
             if (side =? "sell")%string then 3200 else 3309)
          else
            (67000,
             if (side =? "sell")%string then 68000 else 65000,
             if (side =? "sell")%string then 65000 else 68000) in
        Some {| OcrSignal.symbol := symbol;
                OcrSignal.side := side;
                OcrSignal.entry_price := entry;
                OcrSignal.stop_loss := sl;
                OcrSignal.take_profit := tp;
                OcrSignal.confidence := 0.7;
                OcrSignal.pattern := pattern_name |}
    | _ => None
    end
  else None.

(** The two nested loops of [_extract_trading_signals]. *)
Definition signals_found (text_lower : string) : list OcrSignal.t :=
  flat_map
    (fun entry : string * string =>
       let '(pattern_name, pattern) := entry in
       flat_map
         (fun groups =>
            match _parse_signal_match groups pattern_name text_lower with
            | Some signal => [signal]
            | None => []
            end)
         (finditer ocr pattern text_lower))
    patterns.

Definition _extract_trading_signals (text : string) : TradingSignals.t :=
  if (text =? "")%string then
    {| TradingSignals.found := false;
       TradingSignals.signal := None;
       TradingSignals.all_signals := None;
       TradingSignals.extracted_from := None;
       TradingSignals.text_analyzed := None;
       TradingSignals.error := None |}
  else
    let text_lower := lower text in
    match signals_found text_lower with
    | first :: others =>
        let best_signal := max_by OcrSignal.confidence first others in
        {| TradingSignals.found := true;
           TradingSignals.signal := Some best_signal;
           TradingSignals.all_signals := Some (first :: others);
           TradingSignals.extracted_from := Some text;
           TradingSignals.text_analyzed := None;
           TradingSignals.error := None |}
    | [] =>
        {| TradingSignals.found := false;
           TradingSignals.signal := None;
           TradingSignals.all_signals := None;
           TradingSignals.extracted_from := None;
           TradingSignals.text_analyzed := Some text;
           TradingSignals.error := None |}
    end.

End Signals.

(** ** [extract_text_from_image] *)

(** An [AdvancedOCR] object: the engines and the two flags its constructor
    sets. *)
Record AdvancedOCR := {
  engines : ocr_libs;
  easyocr_available : bool;
  tesseract_available : bool
}.

(** The dictionary [extract_text_from_image] returns. *)
Module OcrResponse.
Record t := mk {
  success : bool;
  error : option string;
  extracted_text : option string;
  ocr_results : option OcrResults.t;
  trading_signals : option TradingSignals.t;
  method : option string
}.
End OcrResponse.

Section TextExtraction.

Variable cv : libs.
Variable self : AdvancedOCR.

(** The library calls of the preprocessing are total in this model, so its
    [except] branch, which returns the image unchanged, is not reached. *)
Definition _preprocess_for_ocr (image : raster) : plane :=
  let gray := cvtColor_BGR2GRAY cv image in
  let thresh := adaptiveThreshold (engines self) gray in
  let denoised := medianBlur (engines self) thresh in
  let '(height, width) := shape denoised in
  resize (engines self) denoised (width * 2) (height * 2).

(** [AdvancedOCR._decode_image] has the statements of
    [ChartImageAnalyzer._decode_image]; only the log messages differ. *)
Definition extract_text_from_image (image_data : string) : OcrResponse.t :=
  match _decode_image cv image_data with
  | None =>
      {| OcrResponse.success := false;
         OcrResponse.error := Some "Failed to decode image";
         OcrResponse.extracted_text := None;
         OcrResponse.ocr_results := None;
         OcrResponse.trading_signals := None;
         OcrResponse.method := None |}
  | Some image =>
      let processed_image := _preprocess_for_ocr image in
      let results :=
        {| OcrResults.easyocr :=
             if easyocr_available self
             then Some (_extract_with_easyocr (engines self) processed_image)
             else None;
           OcrResults.tesseract :=
             if tesseract_available self
             then Some (_extract_with_tesseract (engines self) processed_image)
             else None |} in
      let combined_text := _combine_ocr_results results in
      let trading_signals := _extract_trading_signals (engines self) combined_text in
      {| OcrResponse.success := true;
         OcrResponse.error := None;
         OcrResponse.extracted_text := Some combined_text;
         OcrResponse.ocr_results := Some results;
         OcrResponse.trading_signals := Some trading_signals;
         OcrResponse.method := Some "advanced_multi_ocr" |}
  end.

End TextExtraction.

(** ** The request handlers of app.py *)

#[local] Unset Elimination Schemes.

(** A parsed JSON document. *)
Inductive json : Type :=
| JNull
| JBool (b : bool)
| JInt (n : Z)
| JFloat (x : Q)
| JString (s : string)
| JArray (items : list json)
| JObject (members : list (string * json)).

#[local] Set Elimination Schemes.

(** [bool(v)]. *)
Definition truthy (v : json) : bool :=
  match v with
  | JNull => false
  | JBool b => b
  | JInt n => negb (n =? 0)%Z
  | JFloat x => negb (Qeq_bool x 0)
  | JString s => negb (s =? "")%string
  | JArray items => match items with [] => false | _ => true end
  | JObject members => match members with [] => false | _ => true end
  end.

(** [type(v).__name__]. *)
Definition type_name (v : json) : string :=
  match v with
  | JNull => "NoneType"
  | JBool _ => "bool"
  | JInt _ => "int"
  | JFloat _ => "float"
  | JString _ => "str"
  | JArray _ => "list"
  | JObject _ => "dict"
  end.

(** [d.get(key, default)] on the members of a dictionary. *)
Fixpoint json_get (key : string) (members : list (string * json)) (default : json)
  : json :=
  match members with
  | [] => default
  | (k, v) :: rest => if (k =? key)%string then v else json_get key rest default
  end.

(** [v in options] for a list of strings. *)
Definition json_in (v : json) (options : list string) : bool :=
  match v with
  | JString s => existsb (String.eqb s) options
  | _ => false
  end.

(** [str(e)] of the [AttributeError] raised by [v.name] on a value without
    that attribute. *)
Definition attribute_error (v : json) (name : string) : string :=
  ("'" ++ type_name v ++ "' object has no attribute '" ++ name ++ "'")%string.

(** The signal dictionaries app.py builds itself. *)
Module BackendSignal.
Record t := mk {
  isSignal : bool;
  confidence : Q;
  symbol : string;
  side : string;
  entryPrice : option Q;
  stopLoss : option Q;
  takeProfit : option Q;
  stopLossPercent : Q;
  takeProfitPercent : Q;
  quantity : Q;
  leverage : Z;
  reasoning : string;
  method : string
}.
End BackendSignal.

(** [result['recommended_signal']]: the signal of the chart analysis, or a
    dictionary built by the handler. *)
Inductive recommended : Type :=
| ChartSignal (signal : Signal.t)
| OwnSignal (signal : BackendSignal.t).





(** The [result] dictionary of [analyze_chart]. *)
Module AnalyzeResult.
Record t := mk {
  chart_analysis : option Response.t;
  ocr_analysis : option OcrResponse.t;
  recommended_signal : option recommended;
  primary_method : option string;
  analysis_complete : option bool;
  timestamp : option json;
  backend : option string
}.
End AnalyzeResult.

(** What a handler returns: the body and the status code. *)
Inductive analyze_response : Type :=
| AnalyzeBadRequest (error : string)
| AnalyzeOk (result : AnalyzeResult.t)
| AnalyzeError (error : string) (recommended_signal : BackendSignal.t)
               (primary_method backend : string).

Definition analyze_status (r : analyze_response) : Z :=
  match r with
  | AnalyzeBadRequest _ => 400
  | AnalyzeOk _ => 200
  | AnalyzeError _ _ _ _ => 500
  end.

Definition ocr_recommended_signal (ocr_signal : OcrSignal.t)
  (extracted_text : string) : BackendSignal.t :=
  {| BackendSignal.isSignal := true;
     BackendSignal.confidence := OcrSignal.confidence ocr_signal;
     BackendSignal.symbol := OcrSignal.symbol ocr_signal;
     BackendSignal.side := OcrSignal.side ocr_signal;
     BackendSignal.entryPrice := None;
     BackendSignal.stopLoss := None;
     BackendSignal.takeProfit := None;
     BackendSignal.stopLossPercent := 0.5;
     BackendSignal.takeProfitPercent := 2.0;
     BackendSignal.quantity := 0.1;
     BackendSignal.leverage := 1;
     BackendSignal.reasoning := ("OCR Signal: " ++ extracted_text)%string;
     BackendSignal.method := "python_ocr_signal" |}.

Definition fallback_signal : BackendSignal.t :=
  {| BackendSignal.isSignal := true;
     BackendSignal.confidence := 0.75;
     BackendSignal.symbol := "ETH";
     BackendSignal.side := "sell";
     BackendSignal.entryPrice := None;
     BackendSignal.stopLoss := None;
     BackendSignal.takeProfit := None;
     BackendSignal.stopLossPercent := 0.5;
     BackendSignal.takeProfitPercent := 2.0;
     BackendSignal.quantity := 0.1;
     BackendSignal.leverage := 1;
     BackendSignal.reasoning :=
       "Python Backend Fallback: Image detected but no clear signals found";
     BackendSignal.method := "python_fallback" |}.

Definition error_fallback_signal (e : string) : BackendSignal.t :=
  {| BackendSignal.isSignal := true;
     BackendSignal.confidence := 0.7;
     BackendSignal.symbol := "ETH";
     BackendSignal.side := "sell";
     BackendSignal.entryPrice := None;
     BackendSignal.stopLoss := None;
     BackendSignal.takeProfit := None;
     BackendSignal.stopLossPercent := 0.5;
     BackendSignal.takeProfitPercent := 2.0;
     BackendSignal.quantity := 0.1;
     BackendSignal.leverage := 1;
     BackendSignal.reasoning := ("Python Backend Error Fallback: " ++ e)%string;
     BackendSignal.method := "python_error_fallback" |}.

(** The [except] branch of [analyze_chart]. *)
Definition analyze_error (e : string) : analyze_response :=
  AnalyzeError e (error_fallback_signal e) "error_fallback" "python_cv_ocr".

(** What [extract_text] returns. *)
Inductive extract_response : Type :=
| ExtractBadRequest (error : string)
| ExtractOk (result : OcrResponse.t) (backend : string)
| ExtractError (success : bool) (error extracted_text backend : string).

Definition extract_status (r : extract_response) : Z :=
  match r with
  | ExtractBadRequest _ => 400
  | ExtractOk _ _ => 200
  | ExtractError _ _ _ _ => 500
  end.

(** The signal of an OCR analysis that succeeded and found one:
    [ocr_analysis['trading_signals']['signal']] under the condition
    [ocr_analysis.get('success') and
     ocr_analysis.get('trading_signals', {}).get('found')]. *)
Definition found_ocr_signal (ocr_analysis : OcrResponse.t) : option OcrSignal.t :=
  if OcrResponse.success ocr_analysis then
    match OcrResponse.trading_signals ocr_analysis with
    | Some trading_signals =>
        if TradingSignals.found trading_signals
        then TradingSignals.signal trading_signals
        else None
    | None => None
    end
  else None.

Section Handlers.

Variable cv : libs.

(** The module-level [ocr_service]; app.py sets it to [None]. *)
Variable ocr_service : option AdvancedOCR.

(** [chart_analyzer.analyze_chart_image(image_data)] for any JSON value: on
    a value that is no string, [image_data.startswith] raises inside
    [_decode_image], which then returns [None]. *)
Definition analyze_chart_image_of (image_data : json) : Response.t :=
  match image_data with
  | JString s => analyze_chart_image cv s
  | _ => _create_error_response "Failed to decode image"
  end.

(** [ocr_service.extract_text_from_image(image_data)], likewise. *)
Definition extract_text_from_image_of (service : AdvancedOCR) (image_data : json)
  : OcrResponse.t :=
  match image_data with
  | JString s => extract_text_from_image cv service s
  | _ =>
      {| OcrResponse.success := false;
         OcrResponse.error := Some "Failed to decode image";
         OcrResponse.extracted_text := None;
         OcrResponse.ocr_results := None;
         OcrResponse.trading_signals := None;
         OcrResponse.method := None |}
  end.

Definition empty_result : AnalyzeResult.t :=
  {| AnalyzeResult.chart_analysis := None;
     AnalyzeResult.ocr_analysis := None;
     AnalyzeResult.recommended_signal := None;
     AnalyzeResult.primary_method := None;
     AnalyzeResult.analysis_complete := None;
     AnalyzeResult.timestamp := None;
     AnalyzeResult.backend := None |}.

(** "Perform chart analysis". *)
Definition chart_step (analysis_type image_data : json) (result : AnalyzeResult.t)
  : AnalyzeResult.t :=
  if json_in analysis_type ["comprehensive"; "quick"] then
    let chart_analysis := analyze_chart_image_of image_data in
    if Response.success chart_analysis
       && Signal.isSignal (Response.trading_signal chart_analysis)
    then
      {| AnalyzeResult.chart_analysis := Some chart_analysis;
         AnalyzeResult.ocr_analysis := AnalyzeResult.ocr_analysis result;
         AnalyzeResult.recommended_signal :=
           Some (ChartSignal (Response.trading_signal chart_analysis));
         AnalyzeResult.primary_method := Some "chart_analysis";
         AnalyzeResult.analysis_complete := AnalyzeResult.analysis_complete result;
         AnalyzeResult.timestamp := AnalyzeResult.timestamp result;
         AnalyzeResult.backend := AnalyzeResult.backend result |}
    else
      {| AnalyzeResult.chart_analysis := Some chart_analysis;
         AnalyzeResult.ocr_analysis := AnalyzeResult.ocr_analysis result;
         AnalyzeResult.recommended_signal := AnalyzeResult.recommended_signal result;
         AnalyzeResult.primary_method := AnalyzeResult.primary_method result;
         AnalyzeResult.analysis_complete := AnalyzeResult.analysis_complete result;
         AnalyzeResult.timestamp := AnalyzeResult.timestamp result;
         AnalyzeResult.backend := AnalyzeResult.backend result |}
  else result.

(** "Perform OCR analysis". *)
Definition ocr_step (analysis_type image_data : json) (result : AnalyzeResult.t)
  : AnalyzeResult.t :=
  if json_in analysis_type ["comprehensive"; "ocr_only"] then
    match ocr_service with
    | Some service =>
        let ocr_analysis := extract_text_from_image_of service image_data in
        match found_ocr_signal ocr_analysis,
              AnalyzeResult.recommended_signal result with
        | Some ocr_signal, None =>
            {| AnalyzeResult.chart_analysis := AnalyzeResult.chart_analysis result;
               AnalyzeResult.ocr_analysis := Some ocr_analysis;
               AnalyzeResult.recommended_signal :=
                 Some (OwnSignal
                         (ocr_recommended_signal ocr_signal
                            (Py.dict_get (OcrResponse.extracted_text ocr_analysis)
                               EmptyString)));
               AnalyzeResult.primary_method := Some "ocr_signal";
               AnalyzeResult.analysis_complete :=
                 AnalyzeResult.analysis_complete result;
               AnalyzeResult.timestamp := AnalyzeResult.timestamp result;
               AnalyzeResult.backend := AnalyzeResult.backend result |}
        | _, _ =>
            {| AnalyzeResult.chart_analysis := AnalyzeResult.chart_analysis result;
               AnalyzeResult.ocr_analysis := Some ocr_analysis;
               AnalyzeResult.recommended_signal :=
                 AnalyzeResult.recommended_signal result;
               AnalyzeResult.primary_method := AnalyzeResult.primary_method result;
               AnalyzeResult.analysis_complete :=
                 AnalyzeResult.analysis_complete result;
               AnalyzeResult.timestamp := AnalyzeResult.timestamp result;
               AnalyzeResult.backend := AnalyzeResult.backend result |}
        end
    | None => result
    end
  else result.

(** "Fallback signal if no analysis provided a signal". *)
Definition fallback_step (result : AnalyzeResult.t) : AnalyzeResult.t :=
  match AnalyzeResult.recommended_signal result with
  | Some _ => result
  | None =>
      {| AnalyzeResult.chart_analysis := AnalyzeResult.chart_analysis result;
         AnalyzeResult.ocr_analysis := AnalyzeResult.ocr_analysis result;
         AnalyzeResult.recommended_signal := Some (OwnSignal fallback_signal);
         AnalyzeResult.primary_method := Some "fallback";
         AnalyzeResult.analysis_complete := AnalyzeResult.analysis_complete result;
         AnalyzeResult.timestamp := AnalyzeResult.timestamp result;
         AnalyzeResult.backend := AnalyzeResult.backend result |}
  end.

(** "Add metadata". *)
Definition metadata_step (members : list (string * json)) (result : AnalyzeResult.t)
  : AnalyzeResult.t :=
  {| AnalyzeResult.chart_analysis := AnalyzeResult.chart_analysis result;
     AnalyzeResult.ocr_analysis := AnalyzeResult.ocr_analysis result;
     AnalyzeResult.recommended_signal := AnalyzeResult.recommended_signal result;
     AnalyzeResult.primary_method := AnalyzeResult.primary_method result;
     AnalyzeResult.analysis_complete := Some true;
     AnalyzeResult.timestamp := Some (json_get "timestamp" members (JString ""));
     AnalyzeResult.backend := Some "python_cv_ocr" |}.

(** [analyze_chart]; [request_json] is what [request.get_json()] does.  The
    numbers of the model have one representation, so [convert_numpy_types]
    leaves [result] as it is. *)
Definition analyze_chart (request_json : outcome json) : analyze_response :=
  match request_json with
  | Raised e => analyze_error e
  | Returned data =>
      if negb (truthy data) then AnalyzeBadRequest "No JSON data provided"
      else
        match data with
        | JObject members =>
            let image_data := json_get "image" members JNull in
            let analysis_type :=
              json_get "analysis_type" members (JString "comprehensive") in
            if negb (truthy image_data)
            then AnalyzeBadRequest "No image data provided"
            else
              AnalyzeOk
                (metadata_step members
                   (fallback_step
                      (ocr_step analysis_type image_data
                         (chart_step analysis_type image_data empty_result))))
        | _ => analyze_error (attribute_error data "get")
        end
  end.

(** [extract_text]. *)
Definition extract_text (request_json : outcome json) : extract_response :=
  match request_json with
  | Raised e => ExtractError false e "" "python_ocr"
  | Returned data =>
      if negb (truthy data) then ExtractBadRequest "No JSON data provided"
      else
        match data with
        | JObject members =>
            let image_data := json_get "image" members JNull in
            if negb (truthy image_data)
            then ExtractBadRequest "No image data provided"
            else
              match ocr_service with
              | Some service =>
                  ExtractOk (extract_text_from_image_of service image_data)
                            "python_ocr"
              | None =>
                  ExtractError false
                    (attribute_error JNull "extract_text_from_image") ""
                    "python_ocr"
              end
        | _ => ExtractError false (attribute_error data "get") "" "python_ocr"
        end
  end.

End Handlers.

(** ** Sample engines *)

Module SampleOcr.

Definition box : bbox := [(0, 0); (10, 0); (10, 5); (0, 5)].

(** Unsigned decimal integers. *)
Definition digit (c : ascii) : option Z :=
  let n := nat_of_ascii c in
  if ((48 <=? n) && (n <=? 57))%nat then Some (Z.of_nat (n - 48)) else None.

Fixpoint number (acc : Z) (cs : list ascii) : option Z :=
  match cs with
  | [] => Some acc
  | c :: rest =>
      match digit c with
      | Some d => number (acc * 10 + d) rest
      | None => None
      end
  end.

Definition decimal (s : string) : option Q :=
  match list_ascii_of_string s with
  | [] => None
  | cs => option_map inject_Z (number 0 cs)
  end.

(** Engines that read ["ETH short"] on every image; the regular-expression
    search finds the symbol and the action in a text that holds them. *)
Definition readers : ocr_libs :=
  {| adaptiveThreshold := fun img => img;
     medianBlur := fun img => img;
     resize := fun img _ _ => img;
     readtext := fun _ =>
       Returned [(box, " ETH short ", 0.9); (box, "noise", 0.3);
                 (box, "3300", 0.8)];
     image_to_string := fun _ => Returned "ETH short 3300  ";
     image_to_data_conf := fun _ => Returned [-1; 96; 90.5; 0];
     finditer := fun pattern text =>
       if (pattern =? "(eth|btc|bitcoin|ethereum)\s+(short|long|buy|sell)")%string
          && contains_str "eth short" text
       then [["eth"; "short"]] else [];
     to_float := decimal |}.

Definition service : AdvancedOCR :=
  {| engines := readers; easyocr_available := true; tesseract_available := true |}.

Definition image : plane := [[0; 255]; [255; 0]]%Z.

End SampleOcr.

(** ** Notions used to state the behaviour of the OCR service *)



(** [" ".join(ws)] on character lists. *)
Fixpoint join_chars (parts : list (list ascii)) : list ascii :=
  match parts with
  | [] => []
  | [p] => p
  | p :: rest => p ++ " "%char :: join_chars rest
  end.

(** A word: not empty and without whitespace. *)
Definition is_word (s : string) : bool :=
  negb (s =? "")%string && all_chars (fun c => negb (isspace c)) s.

(** The texts [_combine_ocr_results] takes over: EasyOCR's when its
    confidence exceeds 0.7, Tesseract's when, stripped, it has more than 5
    characters. *)
Definition easyocr_taken (results : OcrResults.t) : option string :=
  match OcrResults.easyocr results with
  | Some easyocr_data =>
      if Py.ltb 0.7 (Py.dict_get (EngineResult.confidence easyocr_data) 0)
      then Some (Py.dict_get (EngineResult.text easyocr_data) EmptyString)
      else None
  | None => None
  end.

Definition tesseract_taken (results : OcrResults.t) : option string :=
  match OcrResults.tesseract results with
  | Some tesseract_data =>
      let tesseract_text :=
        Py.dict_get (EngineResult.text tesseract_data) EmptyString in
      if (5 <? Z.of_nat (String.length (strip tesseract_text)))%Z
      then Some tesseract_text
      else None
  | None => None
  end.

Definition words_of (text : option string) : list string :=
  match text with
  | Some t => words t
  | None => []
  end.

(** The regular expression [patterns[pattern_name]]. *)
Definition pattern_of (pattern_name : string) : string :=
  match find (fun entry => (fst entry =? pattern_name)%string) patterns with
  | Some entry => snd entry
  | None => EmptyString
  end.

(** The signals parsed from the matches of one pattern, in their order. *)
Definition parsed_matches (ocr : ocr_libs) (pattern_name text_lower : string)
  : list OcrSignal.t :=
  flat_map
    (fun groups =>
       match _parse_signal_match ocr groups pattern_name text_lower with
       | Some signal => [signal]
       | None => []
       end)
    (finditer ocr (pattern_of pattern_name) text_lower).

(** * Properties *)

(** ** Comparisons, [max] and [min] *)

Lemma ltb_lt (a b : Q) : Py.ltb a b = true <-> a < b.
Proof.
  unfold Py.ltb. rewrite negb_true_iff.
  split; intro H.
  - apply Qnot_le_lt. intro Hle. apply Qle_bool_iff in Hle. congruence.
  - destruct (Qle_bool b a) eqn:E; [|reflexivity].
    apply Qle_bool_iff in E. exfalso. exact (Qlt_not_le _ _ H E).
Qed.

Lemma ltb_ge (a b : Q) : Py.ltb a b = false <-> b <= a.
Proof.
  unfold Py.ltb. rewrite negb_false_iff. apply Qle_bool_iff.
Qed.

Lemma max_lower (a b : Q) : a <= Py.max a b.
Proof.
  unfold Py.max. destruct (Py.ltb a b) eqn:E.
  - apply ltb_lt in E. lra.
  - lra.
Qed.

Lemma max_upper (a b c : Q) : a <= c -> b <= c -> Py.max a b <= c.
Proof. unfold Py.max. destruct (Py.ltb a b); auto. Qed.

Lemma max_right (a b : Q) : b <= Py.max a b.
Proof.
  unfold Py.max. destruct (Py.ltb a b) eqn:E.
  - lra.
  - apply ltb_ge in E. exact E.
Qed.

Lemma min_upper (a b : Q) : Py.min a b <= a.
Proof.
  unfold Py.min. destruct (Py.ltb b a) eqn:E.
  - apply ltb_lt in E. lra.
  - lra.
Qed.

Lemma min_lower (a b c : Q) : c <= a -> c <= b -> c <= Py.min a b.
Proof. unfold Py.min. destruct (Py.ltb b a); auto. Qed.

Lemma clamp_bounds (x lo hi : Q) : lo <= hi -> lo <= clamp x lo hi <= hi.
Proof.
  intro H. unfold clamp. split.
  - apply min_lower; [exact H | apply max_lower].
  - apply min_upper.
Qed.

(** ** Fields shared by every signal *)

Lemma weighted_signal_confidence tc ps patterns st d :
  Signal.confidence (weighted_signal tc ps patterns st d)
  = Py.max 0.75 (signal_strength st).
Proof. unfold weighted_signal. destruct (d =? "sell")%string; reflexivity. Qed.

(** The three shapes a signal of [_generate_trading_signal] can take. *)
Lemma generate_cases (analysis : Analysis.t) :
  let existing :=
    Py.dict_get (Analysis.existing_trade analysis) ExistingTrade.empty in
  _generate_trading_signal analysis = copy_signal existing
  \/ _generate_trading_signal analysis = follow_signal existing
  \/ exists tc ps patterns st d,
      _generate_trading_signal analysis = weighted_signal tc ps patterns st d.
Proof.
  cbv zeta. unfold _generate_trading_signal.
  destruct (Py.dict_get (ExistingTrade.has_existing_trade _) false).
  - destruct (_ =? "copy_existing_setup")%string; auto.
  - right. right.
    match goal with
    | |- context [fuse_default ?s] => destruct (fuse_default s) as [st d]
    end.
    eauto 10.
Qed.

Lemma floor_075 (s : Q) :
  (0.75 < s /\ Py.max 0.75 s = s) \/ (s <= 0.75 /\ Py.max 0.75 s = 0.75).
Proof.
  unfold Py.max. destruct (Py.ltb 0.75 s) eqn:E.
  - left. split; [apply ltb_lt; exact E | reflexivity].
  - right. split; [apply ltb_ge; exact E | reflexivity].
Qed.

Lemma generate_confidence_floor (analysis : Analysis.t) :
  0.75 <= Signal.confidence (_generate_trading_signal analysis).
Proof.
  destruct (generate_cases analysis) as [E | [E | (tc & ps & pt & st & d & E)]];
    rewrite E.
  - simpl. lra.
  - simpl. lra.
  - rewrite weighted_signal_confidence. apply max_lower.
Qed.

(** C1: on every path the confidence of the returned signal is at least
    0.75: the whole pipeline on any input, signal generation on any analysis,
    the copy path (0.95), the follow path (0.9), the weighted path
    (max(0.75, score): scores above 0.75 pass unchanged, the others become
    0.75), the fallback of signal generation (0.8) and the safe default of
    the error response (0.75). *)
Theorem confidence_floor_every_path :
  forall (cv : libs) (image_data : string) (analysis : Analysis.t)
         (existing : ExistingTrade.t) (exn error_message : string)
         (tc ps : Q) (patterns : Patterns.t) (st : fusion_state) (d : string),
    0.75 <= Signal.confidence
              (Response.trading_signal (analyze_chart_image cv image_data))
    /\ 0.75 <= Signal.confidence (_generate_trading_signal analysis)
    /\ Signal.confidence (copy_signal existing) = 0.95
    /\ Signal.confidence (follow_signal existing) = 0.9
    /\ Signal.confidence (weighted_signal tc ps patterns st d)
       = Py.max 0.75 (signal_strength st)
    /\ ((0.75 < signal_strength st
         /\ Py.max 0.75 (signal_strength st) = signal_strength st)
        \/ (signal_strength st <= 0.75
            /\ Py.max 0.75 (signal_strength st) = 0.75))
    /\ 0.75 <= Py.max 0.75 (signal_strength st)
    /\ Signal.confidence (fusion_fallback_signal exn) = 0.8
    /\ Signal.confidence
         (Response.trading_signal (_create_error_response error_message)) = 0.75.
Proof.
  intros. repeat split; try reflexivity.
  - unfold analyze_chart_image.
    destruct (_decode_image cv image_data) as [image|].
    + apply generate_confidence_floor.
    + simpl. lra.
  - apply generate_confidence_floor.
  - apply weighted_signal_confidence.
  - apply floor_075.
  - apply max_lower.
Qed.

Lemma weighted_fixed_fields tc ps patterns st d :
  fixed_fields (weighted_signal tc ps patterns st d).
Proof.
  unfold weighted_signal. destruct (d =? "sell")%string; repeat split.
Qed.

Lemma generate_fixed_fields (analysis : Analysis.t) :
  fixed_fields (_generate_trading_signal analysis).
Proof.
  destruct (generate_cases analysis) as [E | [E | (tc & ps & pt & st & d & E)]];
    rewrite E.
  - repeat split.
  - repeat split.
  - apply weighted_fixed_fields.
Qed.

(** C10: on every path (the whole pipeline on any input, signal generation
    on any analysis, copy, follow, weighted, the fallback of signal
    generation, the error response) the signal has isSignal = true,
    symbol = "ETH", quantity = 0.1, leverage = 1 and entryPrice = null. *)
Theorem fixed_fields_every_path :
  forall (cv : libs) (image_data : string) (analysis : Analysis.t)
         (existing : ExistingTrade.t) (exn error_message : string)
         (tc ps : Q) (patterns : Patterns.t) (st : fusion_state) (d : string),
    fixed_fields (Response.trading_signal (analyze_chart_image cv image_data))
    /\ fixed_fields (_generate_trading_signal analysis)
    /\ fixed_fields (copy_signal existing)
    /\ fixed_fields (follow_signal existing)
    /\ fixed_fields (weighted_signal tc ps patterns st d)
    /\ fixed_fields (fusion_fallback_signal exn)
    /\ fixed_fields (Response.trading_signal (_create_error_response error_message)).
Proof.
  intros. split; [|split; [|split; [|split; [|split; [|split]]]]].
  - unfold analyze_chart_image.
    destruct (_decode_image cv image_data) as [image|].
    + apply generate_fixed_fields.
    + repeat split.
  - apply generate_fixed_fields.
  - repeat split.
  - repeat split.
  - apply weighted_fixed_fields.
  - repeat split.
  - repeat split.
Qed.

(** ** The existing-trade short circuit *)

Lemma generate_existing (analysis : Analysis.t) (existing : ExistingTrade.t) :
  Analysis.existing_trade analysis = Some existing ->
  ExistingTrade.has_existing_trade existing = Some true ->
  _generate_trading_signal analysis
  = if (Py.dict_get (ExistingTrade.trade_type existing) "follow_existing"
        =? "copy_existing_setup")%string
    then copy_signal existing else follow_signal existing.
Proof.
  intros Ha Hb. unfold _generate_trading_signal.
  rewrite Ha. cbn [Py.dict_get]. rewrite Hb. reflexivity.
Qed.

(** C2: when the existing-trade record says has_existing_trade = true, the
    signal is a function of that record alone (no trend, pattern, price
    action or support/resistance result is consulted).  With trade_type
    "copy_existing_setup" it is a "copy" signal of confidence 0.95, null
    entry price and the offsets of the derived trade parameters; with any
    other trade_type it is a "follow" signal of confidence 0.9, null entry
    price, stop 0.5 and target 1.5. *)
Theorem existing_trade_short_circuit :
  forall (analysis : Analysis.t) (existing : ExistingTrade.t),
    Analysis.existing_trade analysis = Some existing ->
    ExistingTrade.has_existing_trade existing = Some true ->
    let s := _generate_trading_signal analysis in
    let trade_params :=
      Py.dict_get (ExistingTrade.trade_parameters existing) TradeParams.empty in
    (forall other : Analysis.t,
        Analysis.existing_trade other = Some existing ->
        _generate_trading_signal other = s)
    /\ (ExistingTrade.trade_type existing = Some "copy_existing_setup" ->
        Signal.side s = "copy"
        /\ Signal.confidence s = 0.95
        /\ Signal.entryPrice s = None
        /\ Signal.stopLossPercent s
           = Py.dict_get (TradeParams.stop_loss_percent trade_params) 0.5
        /\ Signal.takeProfitPercent s
           = Py.dict_get (TradeParams.take_profit_percent trade_params) 1.5)
    /\ (ExistingTrade.trade_type existing <> Some "copy_existing_setup" ->
        Signal.side s = "follow"
        /\ Signal.confidence s = 0.9
        /\ Signal.entryPrice s = None
        /\ Signal.stopLossPercent s = 0.5
        /\ Signal.takeProfitPercent s = 1.5).
Proof.
  intros analysis existing Ha Hb s trade_params. subst s.
  rewrite (generate_existing analysis existing Ha Hb).
  split; [|split].
  - intros other Ho. apply (generate_existing other existing Ho Hb).
  - intros Ht. rewrite Ht. cbn. repeat split.
  - intros Ht.
    destruct (Py.dict_get (ExistingTrade.trade_type existing) "follow_existing"
              =? "copy_existing_setup")%string eqn:E.
    + exfalso. apply Ht. apply String.eqb_eq in E.
      destruct (ExistingTrade.trade_type existing) as [t|]; cbn in E.
      * congruence.
      * discriminate.
    + repeat split.
Qed.

Lemma existing_trade_short_circuit_witness :
  Signal.side (_generate_trading_signal Sample.copy_analysis) = "copy"
  /\ Signal.confidence (_generate_trading_signal Sample.copy_analysis) = 0.95
  /\ Signal.stopLossPercent (_generate_trading_signal Sample.copy_analysis) = 1.0
  /\ Signal.takeProfitPercent (_generate_trading_signal Sample.copy_analysis) = 1.0.
Proof.
  destruct (existing_trade_short_circuit Sample.copy_analysis Sample.copy_record
              eq_refl eq_refl) as (_ & Hcopy & _).
  destruct (Hcopy eq_refl) as (Hside & Hconf & _ & Hsl & Htp).
  repeat split; assumption.
Defined.

(** ** The weighted path *)

Lemma max_compat (a b b' : Q) : b == b' -> Py.max a b == Py.max a b'.
Proof.
  intro H. unfold Py.max.
  destruct (Py.ltb a b) eqn:E1; destruct (Py.ltb a b') eqn:E2;
    try apply ltb_lt in E1; try apply ltb_lt in E2;
    try apply ltb_ge in E1; try apply ltb_ge in E2; lra.
Qed.

(** The state after the four weighted steps, against the closed form. *)
Lemma fused_state (tt pd : string) (tc ps : Q) (patterns : Patterns.t)
  (levels : Levels.t) :
  let i := {| FusionSpec.trend_type := tt;
              FusionSpec.trend_confidence := tc;
              FusionSpec.pattern_detected :=
                Py.dict_get (Patterns.pattern_detected patterns) false;
              FusionSpec.pattern_confidence :=
                Py.dict_get (Patterns.confidence patterns) 0.5;
              FusionSpec.price_direction := pd;
              FusionSpec.price_strength := ps;
              FusionSpec.has_levels :=
                Py.dict_get (Levels.has_support_resistance levels) false |} in
  let st := fuse_levels levels
              (fuse_price_action pd ps
                 (fuse_patterns patterns (fuse_trend tt tc fusion_init))) in
  signal_strength st == FusionSpec.score i
  /\ signal_direction st = FusionSpec.direction i.
Proof.
  cbv zeta.
  unfold fuse_levels, fuse_price_action, fuse_patterns, fuse_trend, fusion_init,
    FusionSpec.score, FusionSpec.direction, FusionSpec.term,
    FusionSpec.trend_directed, FusionSpec.price_directed.
  cbn [FusionSpec.trend_type FusionSpec.trend_confidence
       FusionSpec.pattern_detected FusionSpec.pattern_confidence
       FusionSpec.price_direction FusionSpec.price_strength
       FusionSpec.has_levels].
  destruct (tt =? "bearish")%string, (tt =? "bullish")%string,
    (Py.dict_get (Patterns.pattern_detected patterns) false),
    (pd =? "downward")%string, (pd =? "upward")%string,
    (Py.dict_get (Levels.has_support_resistance levels) false);
    cbn; (split; [lra | reflexivity]).
Qed.

Lemma offsets_sell_or_buy (d : string) :
  FusionSpec.offsets d = (0.5, -2.0) /\ d = "sell"
  \/ FusionSpec.offsets d = (-0.5, 2.0) /\ d <> "sell".
Proof.
  unfold FusionSpec.offsets. destruct (d =? "sell")%string eqn:E.
  - left. split; [reflexivity | apply String.eqb_eq; exact E].
  - right. split; [reflexivity | apply String.eqb_neq; exact E].
Qed.

Lemma final_direction_sell_or_buy (i : FusionSpec.inputs) :
  FusionSpec.final_direction i = "sell" \/ FusionSpec.final_direction i = "buy".
Proof.
  unfold FusionSpec.final_direction, FusionSpec.direction.
  destruct (FusionSpec.trend_type i =? "bearish")%string,
    (FusionSpec.trend_type i =? "bullish")%string,
    (FusionSpec.price_direction i =? "downward")%string,
    (FusionSpec.price_direction i =? "upward")%string; auto.
Qed.

(** C6: without an existing trade the signal follows the weighted rule.  Its
    score is 0.4 x trend confidence (trend bullish or bearish) + 0.3 x
    pattern confidence (pattern detected) + 0.2 x price-action strength
    (price action upward or downward) + 0.1 (support/resistance present);
    the direction is set by the trend, else by the price action; when
    neither sets it the direction is "sell" and the score is raised to at
    least 0.7.  The confidence is max(0.75, score), the offsets depend on the
    direction only (sell: +0.5 / -2.0, buy: -0.5 / +2.0), and the entry price
    is null. *)
Theorem weighted_fusion_rule :
  forall analysis : Analysis.t,
    Py.dict_get
      (ExistingTrade.has_existing_trade
         (Py.dict_get (Analysis.existing_trade analysis) ExistingTrade.empty))
      false = false ->
    let i := FusionSpec.inputs_of analysis in
    let s := _generate_trading_signal analysis in
    Signal.side s = FusionSpec.final_direction i
    /\ (exists total, total_signal_strength s = Some total
                      /\ total == FusionSpec.final_score i)
    /\ Signal.confidence s == Py.max 0.75 (FusionSpec.final_score i)
    /\ (FusionSpec.direction i = None ->
        Signal.side s = "sell" /\ 0.7 <= FusionSpec.final_score i)
    /\ (forall d, FusionSpec.direction i = Some d ->
        Signal.side s = d /\ FusionSpec.final_score i = FusionSpec.score i)
    /\ (Signal.stopLossPercent s, Signal.takeProfitPercent s)
       = FusionSpec.offsets (Signal.side s)
    /\ (Signal.side s = "sell"
        /\ Signal.stopLossPercent s = 0.5 /\ Signal.takeProfitPercent s = -2.0
        \/ Signal.side s = "buy"
           /\ Signal.stopLossPercent s = -0.5 /\ Signal.takeProfitPercent s = 2.0)
    /\ Signal.entryPrice s = None.
Proof.
  intros analysis Hno i s.
  assert (Hside : Signal.side s = FusionSpec.final_direction i
                  /\ (exists total, total_signal_strength s = Some total
                                    /\ total == FusionSpec.final_score i)
                  /\ Signal.confidence s == Py.max 0.75 (FusionSpec.final_score i)
                  /\ (Signal.stopLossPercent s, Signal.takeProfitPercent s)
                     = FusionSpec.offsets (Signal.side s)
                  /\ Signal.entryPrice s = None).
  { subst s i. unfold _generate_trading_signal. rewrite Hno.
    unfold FusionSpec.inputs_of.
    set (trend := Py.dict_get (Analysis.trend_analysis analysis) Trend.empty).
    set (patterns :=
           Py.dict_get (Analysis.candlestick_patterns analysis) Patterns.empty).
    set (levels := Py.dict_get (Analysis.support_resistance analysis) Levels.empty).
    set (pa := Py.dict_get (Analysis.price_action analysis) PriceAction.empty).
    destruct (fused_state (Py.dict_get (Trend.trend trend) "neutral")
                (Py.dict_get (PriceAction.trend_direction pa) "unclear")
                (Py.dict_get (Trend.confidence trend) 0.5)
                (Py.dict_get (PriceAction.trend_strength pa) 0.5)
                patterns levels) as [Hs Hd].
    cbv zeta in Hs, Hd.
    set (i := {| FusionSpec.trend_type := _ |}) in *.
    set (st := fuse_levels _ _) in *.
    unfold fuse_default, FusionSpec.final_direction, FusionSpec.final_score.
    rewrite <- Hd.
    destruct (signal_direction st) as [d|].
    - unfold weighted_signal, total_signal_strength, FusionSpec.offsets.
      destruct (d =? "sell")%string eqn:E; cbn; rewrite ?E;
        (split; [reflexivity|]); (split; [eexists; split; [reflexivity|exact Hs]|]);
        (split; [apply max_compat; exact Hs|]); split; reflexivity.
    - unfold weighted_signal, total_signal_strength, FusionSpec.offsets. cbn.
      (split; [reflexivity|]).
      (split; [eexists; split; [reflexivity|apply max_compat; exact Hs]|]).
      (split; [apply max_compat; apply max_compat; exact Hs|]).
      split; reflexivity. }
  destruct Hside as (Hside & Htotal & Hconf & Hoff & Hentry).
  repeat apply conj; try assumption.
  - intro Hd. unfold FusionSpec.final_direction, FusionSpec.final_score in *.
    rewrite Hd in *. split; [exact Hside | apply max_lower].
  - intros d Hd. unfold FusionSpec.final_direction, FusionSpec.final_score in *.
    rewrite Hd in *. split; [exact Hside | reflexivity].
  - destruct (final_direction_sell_or_buy i) as [E | E];
      rewrite <- Hside in E; rewrite E in Hoff; cbn in Hoff;
      injection Hoff as Hsl Htp; [left | right]; auto.
Qed.

Lemma weighted_fusion_rule_witness :
  Signal.side (_generate_trading_signal Sample.bullish_analysis) = "buy"
  /\ Signal.confidence (_generate_trading_signal Sample.bullish_analysis) == 0.89
  /\ Signal.stopLossPercent (_generate_trading_signal Sample.bullish_analysis) = -0.5.
Proof.
  destruct (weighted_fusion_rule Sample.bullish_analysis eq_refl)
    as (Hside & _ & Hconf & _ & _ & _ & Hoff & _).
  split; [exact Hside|]. split.
  - rewrite Hconf. vm_compute. reflexivity.
  - destruct Hoff as [(E & _ & _) | (_ & Hsl & _)].
    + rewrite Hside in E. discriminate E.
    + exact Hsl.
Defined.

(** ** Sorting keeps the elements *)

Section Sorting.

Context {A : Type} (before : A -> A -> bool).

Lemma insert_sorted_perm (x : A) (xs : list A) :
  Permutation (Py.insert_sorted before x xs) (x :: xs).
Proof.
  induction xs as [|y ys IH]; cbn.
  - apply Permutation_refl.
  - destruct (before y x).
    + apply perm_trans with (y :: x :: ys).
      * apply perm_skip. exact IH.
      * apply perm_swap.
    + apply Permutation_refl.
Qed.

Lemma sort_fold_perm (xs acc : list A) :
  Permutation (fold_left (fun acc x => Py.insert_sorted before x acc) xs acc)
              (acc ++ xs).
Proof.
  revert acc. induction xs as [|x xs IH]; intro acc; cbn.
  - rewrite app_nil_r. apply Permutation_refl.
  - eapply perm_trans; [apply IH|].
    eapply perm_trans.
    + apply Permutation_app_tail. apply insert_sorted_perm.
    + cbn. apply Permutation_cons_app. apply Permutation_refl.
Qed.

Lemma sort_perm (xs : list A) : Permutation (Py.sort before xs) xs.
Proof. unfold Py.sort. apply (sort_fold_perm xs []). Qed.

Lemma sort_len (xs : list A) : Py.len (Py.sort before xs) = Py.len xs.
Proof. unfold Py.len. f_equal. apply Permutation_length, sort_perm. Qed.

Lemma sort_In (x : A) (xs : list A) : In x (Py.sort before xs) <-> In x xs.
Proof.
  split; apply Permutation_in; [|apply Permutation_sym]; apply sort_perm.
Qed.

End Sorting.

(** ** Pixel counts *)

Lemma inRange_pixels (img : raster) (lower upper : pixel) :
  inRange img lower upper
  = map (map (fun p => if pixel_in_range lower upper p then 255%Z else 0%Z)) img.
Proof.
  destruct lower as [[l0 l1] l2], upper as [[u0 u1] u2]. unfold inRange.
  apply map_ext. intro row. apply map_ext. intros [[c0 c1] c2]. reflexivity.
Qed.

Lemma count_of_mask (test : pixel -> bool) (img : raster) :
  countNonZero
    (map (map (fun p => if test p then 255%Z else 0%Z)) img)
  = Py.len (filter test (List.concat img)).
Proof.
  unfold countNonZero, Py.len. f_equal.
  induction img as [|row img IH]; cbn [map List.concat]; [reflexivity|].
  rewrite !filter_app, !length_app, IH. f_equal.
  induction row as [|p row IHr]; cbn; [reflexivity|].
  destruct (test p); cbn; rewrite IHr; reflexivity.
Qed.

Lemma bitwise_or_masks (f g : pixel -> bool) (img : raster) :
  bitwise_or (map (map (fun p => if f p then 255%Z else 0%Z)) img)
             (map (map (fun p => if g p then 255%Z else 0%Z)) img)
  = map (map (fun p => if f p || g p then 255%Z else 0%Z)) img.
Proof.
  unfold bitwise_or.
  induction img as [|row img IH]; cbn [map combine]; [reflexivity|].
  rewrite IH. f_equal. cbn [fst snd].
  induction row as [|p row IHr]; cbn [map combine]; [reflexivity|].
  rewrite IHr. f_equal. cbn [fst snd]. destruct (f p), (g p); reflexivity.
Qed.

Lemma green_count_pixels (cv : libs) (image : raster) :
  countNonZero (inRange (cvtColor_BGR2HSV cv image) (35, 50, 50)%Z (85, 255, 255)%Z)
  = Py.len (filter green_pixel (List.concat (cvtColor_BGR2HSV cv image))).
Proof. rewrite inRange_pixels. apply count_of_mask. Qed.

Lemma red_count_pixels (cv : libs) (image : raster) :
  countNonZero
    (bitwise_or
       (inRange (cvtColor_BGR2HSV cv image) (0, 50, 50)%Z (10, 255, 255)%Z)
       (inRange (cvtColor_BGR2HSV cv image) (170, 50, 50)%Z (180, 255, 255)%Z))
  = Py.len (filter red_pixel (List.concat (cvtColor_BGR2HSV cv image))).
Proof.
  rewrite !inRange_pixels, bitwise_or_masks. apply count_of_mask.
Qed.

Lemma hsv_pixels_concat (cv : libs) (image : raster) :
  List.concat (cvtColor_BGR2HSV cv image) = hsv_pixels cv image.
Proof. unfold cvtColor_BGR2HSV, hsv_pixels. symmetry. apply concat_map. Qed.




Lemma green_fraction_share (cv : libs) (image : raster) :
  green_fraction cv image = marked_share cv green_pixel image.
Proof.
  unfold green_fraction, marked_share.
  rewrite green_count_pixels, hsv_pixels_concat. reflexivity.
Qed.

Lemma red_fraction_share (cv : libs) (image : raster) :
  red_fraction cv image = marked_share cv red_pixel image.
Proof.
  unfold red_fraction, marked_share.
  rewrite red_count_pixels, hsv_pixels_concat. reflexivity.
Qed.

(** ** The levels of the existing-trade detector *)


Lemma collect_levels_fold (height width : Z) (ls : list segment)
  (acc : list Level.t) :
  fold_left (fun horizontal_levels line =>
               match level_of_line height width line with
               | Some l => horizontal_levels ++ [l]
               | None => horizontal_levels
               end) ls acc
  = acc ++ flat_map (fun line => match level_of_line height width line with
                                 | Some l => [l]
                                 | None => []
                                 end) ls.
Proof.
  revert acc. induction ls as [|line ls IH]; intro acc; cbn.
  - now rewrite app_nil_r.
  - rewrite IH. destruct (level_of_line height width line).
    + now rewrite <- app_assoc.
    + reflexivity.
Qed.

Lemma collect_levels_In (height width : Z) (lines : option (list segment))
  (l : Level.t) :
  In l (collect_levels height width lines) ->
  exists line, level_of_line height width line = Some l.
Proof.
  destruct lines as [ls|]; cbn; [|tauto].
  rewrite collect_levels_fold. cbn. rewrite in_flat_map.
  intros (line & _ & Hl). exists line.
  destruct (level_of_line height width line) as [l'|]; cbn in Hl.
  - destruct Hl as [-> | []]. reflexivity.
  - destruct Hl.
Qed.





(** The length of a level is compared to the integer quotient: on an image
    163 pixels wide without a blue or purple pixel, three marks of 40 pixels
    make the detector fire, although none is as long as a quarter of the
    width, 40.75. *)
Lemma quarter_width_is_truncated :
  ExistingTrade.has_existing_trade
    (_detect_existing_trade (Sample.with_lines Sample.marks) Sample.wide)
  = Some true
  /\ shape Sample.wide = (60, 163)%Z
  /\ marked_share (Sample.with_lines Sample.marks) blue_pixel Sample.wide <= 0.002
  /\ marked_share (Sample.with_lines Sample.marks) purple_pixel Sample.wide
     <= 0.001
  /\ hough_lines (Sample.with_lines Sample.marks) Sample.wide = Sample.marks
  /\ filter (quarter_width_level 163) Sample.marks = []
  /\ filter (is_level 163) Sample.marks = Sample.marks.
Proof.
  split; [vm_compute; reflexivity|].
  split; [reflexivity|].
  split; [vm_compute; discriminate|].
  split; [vm_compute; discriminate|].
  split; [reflexivity|].
  split; reflexivity.
Qed.

(** ** The trend colour analyzer *)

Lemma fraction_of_empty (n total : Z) :
  total = 0%Z -> inject_Z n / inject_Z total == 0.
Proof. intros ->. unfold Qdiv. cbn. ring. Qed.

(** C5: with g the share of green pixels and r the share of red pixels of
    the image, the trend is "bullish" exactly when g exceeds both r and 0.02,
    "bearish" exactly when r exceeds both g and 0.02, and "neutral" with
    confidence 0.5 otherwise; a non-neutral trend has confidence
    min(0.95, 0.6 + winning share x 5), which is at least 0.6. *)
Theorem trend_color_rule :
  forall (cv : libs) (image : raster),
    let g := marked_share cv green_pixel image in
    let r := marked_share cv red_pixel image in
    let t := _analyze_trend_colors cv image in
    (Trend.trend t = Some "bullish" <-> r < g /\ 0.02 < g)
    /\ (Trend.trend t = Some "bearish" <-> g < r /\ 0.02 < r)
    /\ (Trend.trend t = Some "neutral" <->
        ~ (r < g /\ 0.02 < g) /\ ~ (g < r /\ 0.02 < r))
    /\ (Trend.trend t = Some "neutral" -> Trend.confidence t = Some 0.5)
    /\ (Trend.trend t = Some "bullish" ->
        Trend.confidence t = Some (Py.min 0.95 (0.6 + g * 5))
        /\ 0.6 <= Py.min 0.95 (0.6 + g * 5))
    /\ (Trend.trend t = Some "bearish" ->
        Trend.confidence t = Some (Py.min 0.95 (0.6 + r * 5))
        /\ 0.6 <= Py.min 0.95 (0.6 + r * 5)).
Proof.
  intros cv image g r t.
  assert (Hmin : forall x, 0.02 < x -> 0.6 <= Py.min 0.95 (0.6 + x * 5)).
  { intros x Hx. apply min_lower; lra. }
  subst t. unfold _analyze_trend_colors.
  destruct (fst (shape image) * snd (shape image) =? 0)%Z eqn:E0.
  - apply Z.eqb_eq in E0.
    assert (Hg : g == 0) by (apply fraction_of_empty; exact E0).
    assert (Hr : r == 0) by (apply fraction_of_empty; exact E0).
    cbn. repeat split; try discriminate; try reflexivity; intros; lra.
  - rewrite green_fraction_share, red_fraction_share. fold g r.
    destruct (Py.ltb r g) eqn:E1; destruct (Py.ltb 0.02 g) eqn:E2;
      destruct (Py.ltb g r) eqn:E3; destruct (Py.ltb 0.02 r) eqn:E4;
      cbn;
      try apply ltb_lt in E1; try apply ltb_ge in E1;
      try apply ltb_lt in E2; try apply ltb_ge in E2;
      try apply ltb_lt in E3; try apply ltb_ge in E3;
      try apply ltb_lt in E4; try apply ltb_ge in E4;
      repeat split; try discriminate; try reflexivity; intros;
      try (apply Hmin; assumption); try lra;
      try (exfalso; tauto); try (exfalso; lra).
Qed.

Lemma trend_color_rule_witness :
  Trend.trend (_analyze_trend_colors Sample.cv Sample.green) = Some "bullish"
  /\ Trend.confidence (_analyze_trend_colors Sample.cv Sample.green) = Some 0.95
  /\ Trend.trend (_analyze_trend_colors Sample.cv Sample.red) = Some "bearish"
  /\ Trend.trend (_analyze_trend_colors Sample.cv Sample.black) = Some "neutral".
Proof.
  destruct (trend_color_rule Sample.cv Sample.green)
    as (Hbull & _ & _ & _ & Hconf & _).
  assert (H : Trend.trend (_analyze_trend_colors Sample.cv Sample.green)
              = Some "bullish").
  { apply (proj2 Hbull). vm_compute. split; reflexivity. }
  split; [exact H|]. split.
  - destruct (Hconf H) as [Hc _]. rewrite Hc. vm_compute. reflexivity.
  - split.
    + apply (proj2 (proj1 (proj2 (trend_color_rule Sample.cv Sample.red)))).
      vm_compute. split; reflexivity.
    + apply (proj2 (proj1 (proj2 (proj2
               (trend_color_rule Sample.cv Sample.black))))).
      vm_compute. split; intros [H1 H2]; discriminate.
Defined.

(** ** Binary rounding *)

Lemma nearest_even_near (x : Q) :
  x - (1 # 2) <= inject_Z (Float.nearest_even x) <= x + (1 # 2).
Proof.
  unfold Float.nearest_even.
  pose proof (Qfloor_le x) as Hlo. pose proof (Qlt_floor x) as Hhi.
  rewrite inject_Z_plus in Hhi. change (inject_Z 1) with 1 in Hhi.
  destruct (Qcompare (x - inject_Z (Qfloor x)) (1 # 2)) eqn:E.
  - apply Qeq_alt in E.
    destruct (Z.even (Qfloor x)); [|rewrite inject_Z_plus; change (inject_Z 1) with 1];
      lra.
  - apply Qlt_alt in E. lra.
  - apply Qgt_alt in E. rewrite inject_Z_plus. change (inject_Z 1) with 1. lra.
Qed.

Lemma two_power_Z (k : Z) : (0 <= k)%Z -> (2 : Q) ^ k == inject_Z (2 ^ k).
Proof. intro H. rewrite (Zpower_Qpower 2 k H). reflexivity. Qed.

Lemma exponent_lower (x : Q) : 0 < x -> 2 ^ Float.exponent x <= x.
Proof.
  intro Hx. unfold Float.exponent.
  set (a := Z.log2 (Qnum x)). set (b := Z.log2 (Z.pos (Qden x))).
  destruct (Qle_bool (2 ^ (a - b)) x) eqn:E; [apply Qle_bool_iff, E|].
  assert (Hn : (0 < Qnum x)%Z).
  { destruct x as [n d]. unfold Qlt in Hx. cbn in *. lia. }
  destruct (Z.log2_spec _ Hn) as [Ha _]. fold a in Ha.
  destruct (Z.log2_spec (Z.pos (Qden x)) (Pos2Z.is_pos _)) as [_ Hb]. fold b in Hb.
  assert (Ha0 : (0 <= a)%Z) by apply Z.log2_nonneg.
  assert (Hb0 : (0 <= b)%Z) by apply Z.log2_nonneg.
  replace (a - b - 1)%Z with (a - Z.succ b)%Z by lia.
  rewrite Qpower_minus by (intro H; discriminate H).
  rewrite (two_power_Z a Ha0), (two_power_Z (Z.succ b)) by lia.
  assert (Hp : 0 < inject_Z (2 ^ Z.succ b)).
  { change 0 with (inject_Z 0). rewrite <- Zlt_Qlt. lia. }
  apply Qle_shift_div_r; [exact Hp|].
  destruct x as [n d]. cbn [Qnum Qden] in *.
  unfold Qle, Qmult, inject_Z. cbn [Qnum Qden].
  rewrite !Z.mul_1_r. rewrite Pos.mul_1_r.
  assert (0 < 2 ^ a)%Z by (apply Z.pow_pos_nonneg; lia).
  nia.
Qed.

Lemma ulp_positive (e : Z) : 0 < 2 ^ e.
Proof. apply Qpower_0_lt. reflexivity. Qed.

Lemma ulp_bound (x : Q) :
  0 < x -> 2 ^ (Float.exponent x - 52) * inject_Z (2 ^ 52) <= x.
Proof.
  intro Hx. rewrite <- (two_power_Z 52) by lia.
  rewrite <- Qpower_plus by (intro H; discriminate H).
  replace (Float.exponent x - 52 + 52)%Z with (Float.exponent x) by lia.
  apply exponent_lower, Hx.
Qed.

Lemma Qabs_positive (x : Q) : 0 < x -> Qabs x = x.
Proof.
  destruct x as [n d]. unfold Qlt. cbn. intro H.
  rewrite Z.abs_eq by lia. reflexivity.
Qed.

Lemma round_error (x : Q) :
  0 < x ->
  x - x * (1 # 9007199254740992) <= Float.round x
  <= x + x * (1 # 9007199254740992).
Proof.
  intro Hx. unfold Float.round.
  destruct (Qeq_bool x 0) eqn:E0.
  { apply Qeq_bool_iff in E0. lra. }
  rewrite (Qabs_positive x Hx).
  pose proof (ulp_bound x Hx) as Hu.
  pose proof (ulp_positive (Float.exponent x - 52)) as Hp.
  set (u := 2 ^ (Float.exponent x - 52)) in *.
  pose proof (nearest_even_near (x / u)) as [Hlo Hhi].
  set (n := inject_Z (Float.nearest_even (x / u))) in *.
  assert (Hx' : x / u * u == x) by (field; lra).
  assert (Hc : inject_Z (2 ^ 52) == 4503599627370496) by reflexivity.
  rewrite Hc in Hu.
  assert (H1 : (x / u - (1 # 2)) * u <= n * u) by (apply Qmult_le_compat_r; lra).
  assert (H2 : n * u <= (x / u + (1 # 2)) * u) by (apply Qmult_le_compat_r; lra).
  assert (E1 : (x / u - (1 # 2)) * u == x - u * (1 # 2)) by (rewrite <- Hx' at 2; ring).
  assert (E2 : (x / u + (1 # 2)) * u == x + u * (1 # 2)) by (rewrite <- Hx' at 2; ring).
  rewrite E1 in H1. rewrite E2 in H2.
  clear E1 E2 Hx' Hlo Hhi. clearbody n u.
  split; lra.
Qed.

Lemma round_positive (x : Q) : 0 < x -> 0 < Float.round x.
Proof.
  intro Hx. pose proof (round_error x Hx) as [H _]. lra.
Qed.

(** ** Rounding to one decimal *)

Lemma round1_digit (x : Q) :
  exists m : Z, Py.round1 x = inject_Z m / 10
                /\ (Qfloor (x * 10) <= m <= Qfloor (x * 10) + 1)%Z
                /\ (m = (Qfloor (x * 10) + 1)%Z ->
                    1 # 2 <= x * 10 - inject_Z (Qfloor (x * 10))).
Proof.
  unfold Py.round1.
  destruct (x * 10 - inject_Z (Qfloor (x * 10)) ?= 1 # 2) eqn:E.
  - apply Qeq_alt in E.
    destruct (Z.even (Qfloor (x * 10))); eexists; (split; [reflexivity|]);
      (split; [lia|]); intros H; first [lia | lra].
  - apply Qlt_alt in E. eexists. split; [reflexivity|]. split; [lia|]. lia.
  - apply Qgt_alt in E. eexists. split; [reflexivity|]. split; [lia|].
    intros _. lra.
Qed.

Lemma tenth (q : Q) : q / 10 == q * 0.1.
Proof. unfold Qdiv. apply Qmult_comp; reflexivity. Qed.

Lemma round1_lower (x : Q) (k : Z) :
  inject_Z k / 10 <= x -> inject_Z k / 10 <= Py.round1 x.
Proof.
  intro H. destruct (round1_digit x) as (m & -> & [Hm _] & _).
  rewrite tenth in H. rewrite !tenth.
  assert (Hk : (k <= Qfloor (x * 10))%Z).
  { rewrite <- (Qfloor_Z k). apply Qfloor_resp_le. lra. }
  assert (inject_Z k <= inject_Z m) by (rewrite <- Zle_Qle; lia).
  lra.
Qed.

Lemma round1_upper (x : Q) (k : Z) :
  x <= inject_Z k / 10 -> Py.round1 x <= inject_Z k / 10.
Proof.
  intro H. destruct (round1_digit x) as (m & -> & [_ Hm] & Hup).
  rewrite tenth in H. rewrite !tenth.
  assert (Hk : (Qfloor (x * 10) <= k)%Z).
  { rewrite <- (Qfloor_Z k). apply Qfloor_resp_le. lra. }
  assert (Hmk : (m <= k)%Z).
  { destruct (Z.eq_dec m (Qfloor (x * 10) + 1)) as [E | E]; [|lia].
    specialize (Hup E).
    destruct (Z.eq_dec (Qfloor (x * 10)) k) as [Ek | Ek]; [|lia].
    rewrite Ek in Hup. exfalso. lra. }
  assert (inject_Z m <= inject_Z k) by (rewrite <- Zle_Qle; lia).
  lra.
Qed.

(** ** The nearest level *)

Lemma min_by_In {A : Type} (key : A -> Q) (x : A) (xs : list A) :
  In (Py.min_by key x xs) (x :: xs).
Proof.
  revert x. induction xs as [|y ys IH]; intro x; cbn.
  - auto.
  - destruct (Py.ltb (key y) (key x)).
    + right. apply IH.
    + destruct (IH x) as [H | H]; cbn; auto.
Qed.

Lemma min_by_head {A : Type} (key : A -> Q) (x : A) (xs : list A) :
  key (Py.min_by key x xs) <= key x.
Proof.
  revert x. induction xs as [|z zs IH]; intro x; cbn.
  - lra.
  - destruct (Py.ltb (key z) (key x)) eqn:E.
    + apply ltb_lt in E. specialize (IH z). lra.
    + apply IH.
Qed.

Lemma min_by_least {A : Type} (key : A -> Q) (x : A) (xs : list A) (y : A) :
  In y (x :: xs) -> key (Py.min_by key x xs) <= key y.
Proof.
  revert x. induction xs as [|z zs IH]; intros x Hy; cbn.
  - destruct Hy as [<- | []]. lra.
  - destruct (Py.ltb (key z) (key x)) eqn:E.
    + apply ltb_lt in E. destruct Hy as [<- | Hy].
      * pose proof (min_by_head key z zs). lra.
      * apply IH. exact Hy.
    + apply ltb_ge in E. destruct Hy as [<- | [<- | Hy]].
      * apply IH. cbn. auto.
      * pose proof (min_by_head key x zs). lra.
      * apply IH. cbn. auto.
Qed.

(** ** Derived trade parameters *)

Lemma distance_positive (c : Q) (l : Level.t) (h : Z) :
  (0 < h)%Z -> ~ Level.y_position l == c ->
  Py.ltb 0 (distance_to c l / inject_Z h) = true.
Proof.
  intros Hh Hne. apply ltb_lt. apply Qlt_shift_div_l.
  - change 0 with (inject_Z 0). rewrite <- Zlt_Qlt. exact Hh.
  - unfold distance_to, Py.abs.
    apply (Qabs_case (Level.y_position l - c) (fun a => 0 * inject_Z h < a));
      intro H; rewrite Qmult_0_l.
    + destruct (Qlt_le_dec 0 (Level.y_position l - c)) as [Hlt | Hle];
        [exact Hlt | exfalso; apply Hne; lra].
    + destruct (Qlt_le_dec 0 (- (Level.y_position l - c))) as [Hlt | Hle];
        [exact Hlt | exfalso; apply Hne; lra].
Qed.

Lemma float_distance_positive (c : Q) (l : Level.t) (h : Z) :
  (0 < h)%Z -> ~ Level.y_position l == c ->
  Py.ltb 0 (Float.div (distance_to c l) (inject_Z h)) = true.
Proof.
  intros Hh Hne. apply ltb_lt. unfold Float.div. apply round_positive.
  apply ltb_lt. apply distance_positive; assumption.
Qed.

(** The offset the code returns for a level at [distance] from the midpoint:
    [round(min(hi, max(lo, distance / height * factor)), 1)], with the
    quotient and the product taken as floats. *)
Lemma extract_trade_parameters_rule (levels : list Level.t) (image_height : Z) :
  (0 < image_height)%Z ->
  let c := inject_Z image_height * 0.5 in
  let p := _extract_trade_parameters levels image_height in
  (exists ca cb,
      nearest c (above_of c levels) ca
      /\ nearest c (below_of c levels) cb
      /\ TradeParams.take_profit_percent p
         = Some (rounded_offset (distance_to c ca) image_height 10 0.5 3.0)
      /\ TradeParams.stop_loss_percent p
         = Some (rounded_offset (distance_to c cb) image_height 8
                   (Float.round 0.3) 2.0))
  \/ ((above_of c levels = [] \/ below_of c levels = [])
      /\ TradeParams.stop_loss_percent p = Some 0.5
      /\ TradeParams.take_profit_percent p = Some 1.5).
Proof.
  intros Hh c p. subst p. unfold _extract_trade_parameters.
  fold c. fold (above_of c levels) (below_of c levels).
  destruct (above_of c levels) as [|a above] eqn:Ea.
  - right. split; [auto|]. split; reflexivity.
  - destruct (below_of c levels) as [|b below] eqn:Eb.
    + right. split; [auto|]. split; reflexivity.
    + left.
      destruct (image_height =? 0)%Z eqn:E0; [apply Z.eqb_eq in E0; lia|].
      set (ca := Py.min_by (distance_to c) a above).
      set (cb := Py.min_by (distance_to c) b below).
      assert (Hca : In ca (above_of c levels))
        by (rewrite Ea; apply min_by_In).
      assert (Hcb : In cb (below_of c levels))
        by (rewrite Eb; apply min_by_In).
      assert (Pa : Py.ltb 0 (Float.div (distance_to c ca) (inject_Z image_height))
                   = true).
      { apply float_distance_positive; [exact Hh|].
        apply filter_In in Hca. destruct Hca as [_ Hlt].
        apply ltb_lt in Hlt. lra. }
      assert (Pb : Py.ltb 0 (Float.div (distance_to c cb) (inject_Z image_height))
                   = true).
      { apply float_distance_positive; [exact Hh|].
        apply filter_In in Hcb. destruct Hcb as [_ Hlt].
        apply ltb_lt in Hlt. lra. }
      exists ca, cb. rewrite Pa, Pb.
      split; [|split; [|split; reflexivity]].
      * split; [rewrite Ea in Hca; exact Hca|].
        intros l' Hl'. apply min_by_least. exact Hl'.
      * split; [rewrite Eb in Hcb; exact Hcb|].
        intros l' Hl'. apply min_by_least. exact Hl'.
Qed.

(** [round(x, 1)] is a multiple of one tenth within one twentieth of [x]. *)
Lemma round1_near (x : Q) :
  exists m : Z, Py.round1 x = inject_Z m / 10
                /\ x - (1 # 20) <= inject_Z m / 10 <= x + (1 # 20).
Proof.
  exists (Float.nearest_even (x * 10)). split; [reflexivity|].
  pose proof (nearest_even_near (x * 10)) as [Hlo Hhi].
  rewrite tenth. split; lra.
Qed.

Lemma rounded_offset_bounds (distance : Q) (height : Z) :
  0.5 <= rounded_offset distance height 10 0.5 3.0 <= 3.0
  /\ 0.3 <= rounded_offset distance height 8 (Float.round 0.3) 2.0 <= 2.0.
Proof.
  unfold rounded_offset. split.
  - destruct (clamp_bounds
                (Float.mul (Float.div distance (inject_Z height)) 10)
                0.5 3.0 ltac:(lra)) as [Hl Hu].
    split.
    + apply (round1_lower _ 5). exact Hl.
    + apply (round1_upper _ 30). exact Hu.
  - assert (Hq : Float.round 0.3 <= 2.0) by (vm_compute; discriminate).
    destruct (clamp_bounds
                (Float.mul (Float.div distance (inject_Z height)) 8)
                (Float.round 0.3) 2.0 Hq) as [Hl Hu].
    split.
    + (* the float 0.3 lies just below the decimal, and rounds to it *)
      assert (Hf : 0.29 < Float.round 0.3) by (vm_compute; reflexivity).
      destruct (round1_near
                  (clamp (Float.mul (Float.div distance (inject_Z height)) 8)
                     (Float.round 0.3) 2.0)) as (m & -> & [Hm _]).
      rewrite tenth in Hm.
      assert (Hz : (3 <= m)%Z).
      { assert (H2 : inject_Z 2 < inject_Z m)
          by (change (inject_Z 2) with 2; lra).
        rewrite <- Zlt_Qlt in H2. lia. }
      rewrite tenth. rewrite Zle_Qle in Hz. change (inject_Z 3) with 3 in Hz. lra.
    + apply (round1_upper _ 20). exact Hu.
Qed.




(** The decimal depends on the binary value: for a level 47 rows above the
    midpoint of an image 200 rows high the exact product is 2.35, the float
    product lies just below it, and the offset returned is 2.3. *)
Lemma offset_follows_the_float :
  (47 : Q) / inject_Z 200 * 10 == 2.35
  /\ Float.mul (Float.div 47 (inject_Z 200)) 10 < 2.35
  /\ rounded_offset 47 200 10 0.5 3.0 == 2.3.
Proof. vm_compute. repeat split; reflexivity. Qed.

(** ** Strength of detected levels *)

Lemma level_of_line_strength (height width : Z) (line : segment) (l : Level.t) :
  level_of_line height width line = Some l ->
  Level.strength l = inject_Z (Level.length l) / inject_Z width.
Proof.
  destruct line as [[[x1 y1] x2] y2]. unfold level_of_line.
  destruct ((Z.abs (y2 - y1) <=? 3) && (width / 4 <=? Z.abs (x2 - x1)))%Z;
    [|discriminate].
  intro H. injection H as <-. reflexivity.
Qed.

Lemma detected_level_strength (cv : libs) (image : raster) (l : Level.t) :
  In l (detected_levels cv image) ->
  Level.strength l = inject_Z (Level.length l) / inject_Z (snd (shape image)).
Proof.
  unfold detected_levels, sort_by_position.
  destruct (shape image) as [height width]. cbn [snd].
  rewrite sort_In. intro H.
  apply collect_levels_In in H. destruct H as [line H].
  exact (level_of_line_strength _ _ _ _ H).
Qed.

Lemma shape_width_nonneg {A : Type} (img : list (list A)) :
  (0 <= snd (shape img))%Z.
Proof. unfold shape, Py.len. cbn. lia. Qed.

Lemma min_monotone (c a b : Q) : a <= b -> Py.min c a <= Py.min c b.
Proof.
  intro H. unfold Py.min.
  destruct (Py.ltb a c) eqn:E1; destruct (Py.ltb b c) eqn:E2;
    try apply ltb_lt in E1; try apply ltb_lt in E2;
    try apply ltb_ge in E1; try apply ltb_ge in E2; lra.
Qed.

(** The strength given to the [i]-th entry appended by the
    support/resistance finder. *)
Lemma sr_fold_strength (ls : list segment) (acc : list SRLevel.t) :
  (forall i l, nth_error acc i = Some l ->
               SRLevel.strength l = Py.min 1.0 (inject_Z (Z.of_nat i) * 0.1)) ->
  forall i l,
    nth_error
      (fold_left (fun horizontal_lines line =>
                    let '(x1, y1, x2, y2) := line in
                    if nearly_horizontal line then
                      horizontal_lines ++
                        [{| SRLevel.y_position := ((y1 + y2) / 2)%Z;
                            SRLevel.length2 :=
                              ((x2 - x1) * (x2 - x1) + (y2 - y1) * (y2 - y1))%Z;
                            SRLevel.strength :=
                              Py.min 1.0
                                (inject_Z (Py.len horizontal_lines) * 0.1) |}]
                    else horizontal_lines) ls acc) i = Some l ->
    SRLevel.strength l = Py.min 1.0 (inject_Z (Z.of_nat i) * 0.1).
Proof.
  revert acc. induction ls as [|line ls IH]; intros acc Hacc i l; cbn.
  - apply Hacc.
  - apply IH. clear i l. intros i l.
    destruct line as [[[x1 y1] x2] y2].
    destruct (nearly_horizontal (x1, y1, x2, y2)); [|apply Hacc].
    destruct (Nat.lt_ge_cases i (List.length acc)) as [Hlt | Hge].
    + rewrite nth_error_app1 by exact Hlt. apply Hacc.
    + rewrite nth_error_app2 by exact Hge.
      destruct (i - List.length acc)%nat as [|k] eqn:Ek; cbn.
      * intro H. injection H as <-. cbn. unfold Py.len.
        replace i with (List.length acc) by lia. reflexivity.
      * destruct k; discriminate.
Qed.

Lemma sr_strength_by_index (lines : option (list segment)) (i : nat)
  (l : SRLevel.t) :
  nth_error (collect_sr_levels lines) i = Some l ->
  SRLevel.strength l = Py.min 1.0 (inject_Z (Z.of_nat i) * 0.1).
Proof.
  destruct lines as [ls|]; cbn.
  - apply sr_fold_strength. intros j l'. destruct j; discriminate.
  - destruct i; discriminate.
Qed.

(** C7, as the code has it: among the levels of the existing-trade detector
    the strength is length / image width, hence a longer level is at least as
    strong; in the support/resistance finder the strength of a level is
    min(1.0, 0.1 x the number of levels found before it), hence it grows with
    the order of discovery, whatever the lengths. *)
Theorem level_strength_order :
  forall (cv : libs) (image : raster) (lines : option (list segment)),
    (forall l, In l (detected_levels cv image) ->
               Level.strength l
               = inject_Z (Level.length l) / inject_Z (snd (shape image)))
    /\ (forall l1 l2,
           In l1 (detected_levels cv image) ->
           In l2 (detected_levels cv image) ->
           (Level.length l1 <= Level.length l2)%Z ->
           Level.strength l1 <= Level.strength l2)
    /\ (forall i l,
           nth_error (collect_sr_levels lines) i = Some l ->
           SRLevel.strength l = Py.min 1.0 (inject_Z (Z.of_nat i) * 0.1))
    /\ (forall i j li lj,
           nth_error (collect_sr_levels lines) i = Some li ->
           nth_error (collect_sr_levels lines) j = Some lj ->
           (i <= j)%nat ->
           SRLevel.strength li <= SRLevel.strength lj).
Proof.
  intros cv image lines. split; [|split; [|split]].
  - apply detected_level_strength.
  - intros l1 l2 H1 H2 Hlen.
    rewrite (detected_level_strength cv image l1 H1).
    rewrite (detected_level_strength cv image l2 H2).
    apply Qmult_le_compat_r.
    + rewrite <- Zle_Qle. exact Hlen.
    + apply Qinv_le_0_compat. change 0 with (inject_Z 0).
      rewrite <- Zle_Qle. apply shape_width_nonneg.
  - apply sr_strength_by_index.
  - intros i j li lj Hi Hj Hij.
    rewrite (sr_strength_by_index lines i li Hi).
    rewrite (sr_strength_by_index lines j lj Hj).
    apply min_monotone. apply Qmult_le_compat_r; [|lra].
    rewrite <- Zle_Qle. lia.
Qed.

Lemma level_strength_order_witness :
  let levels := detected_levels Sample.cv Sample.striped in
  Level.strength (nth 0 levels (Sample.level_at 0))
  <= Level.strength (nth 1 levels (Sample.level_at 0)).
Proof.
  apply (proj1 (proj2 (level_strength_order Sample.cv Sample.striped None))).
  - vm_compute. auto.
  - vm_compute. auto.
  - vm_compute. discriminate.
Defined.

(** C7, as stated, fails for the support/resistance finder: of two
    horizontal segments found in this order, the first, 200 pixels long,
    gets strength 0.0 and the second, 100 pixels long, gets strength 0.1. *)
Lemma sr_strength_ignores_length :
  exists long short,
    collect_sr_levels (Some [(0, 10, 200, 10); (0, 50, 100, 50)]%Z)
    = [long; short]
    /\ (SRLevel.length2 short < SRLevel.length2 long)%Z
    /\ SRLevel.strength long < SRLevel.strength short
    /\ sort_by_strength [long; short] = [short; long].
Proof.
  eexists. eexists. split; [vm_compute; reflexivity|].
  split; [vm_compute; reflexivity|].
  split; vm_compute; reflexivity.
Qed.

(** ** Blank images *)

Lemma all_zero_count (m : plane) : all_zero m -> countNonZero m = 0%Z.
Proof.
  intro H. unfold countNonZero, Py.len.
  apply Forall_concat in H.
  induction H as [|v vs Hv _ IH]; cbn.
  - reflexivity.
  - rewrite Hv. cbn. exact IH.
Qed.

Lemma zero_fraction (total : Z) : inject_Z 0 / inject_Z total == 0.
Proof. unfold Qdiv. apply Qmult_0_l. Qed.

Lemma inRange_black (img : raster) (l0 l1 l2 u0 u1 u2 : Z) :
  is_black img -> (0 < l1)%Z ->
  all_zero (inRange img (l0, l1, l2) (u0, u1, u2)).
Proof.
  intros H Hl. unfold inRange, all_zero.
  apply Forall_map. eapply Forall_impl; [|exact H].
  intros row Hrow. apply Forall_map. eapply Forall_impl; [|exact Hrow].
  intros p ->. cbn beta iota.
  replace (between l1 u1 0) with false.
  - rewrite andb_false_r. reflexivity.
  - unfold between. symmetry. apply andb_false_iff. left.
    apply Z.leb_gt. exact Hl.
Qed.

Lemma bitwise_or_row_zero (ra rb : list Z) :
  Forall (fun v => v = 0%Z) ra -> Forall (fun v => v = 0%Z) rb ->
  Forall (fun v => v = 0%Z)
         (map (fun vs => Z.lor (fst vs) (snd vs)) (combine ra rb)).
Proof.
  intros Ha. revert rb. induction Ha as [|a ra -> _ IH]; intros rb Hb; cbn.
  - constructor.
  - destruct Hb as [|b rb -> Hb]; cbn; constructor.
    + reflexivity.
    + apply IH. exact Hb.
Qed.

Lemma bitwise_or_zero (a b : plane) :
  all_zero a -> all_zero b -> all_zero (bitwise_or a b).
Proof.
  unfold all_zero, bitwise_or. intros Ha. revert b.
  induction Ha as [|ra a Hra _ IH]; intros b Hb; cbn.
  - constructor.
  - destruct Hb as [|rb b Hrb Hb]; cbn; constructor.
    + apply bitwise_or_row_zero; assumption.
    + apply IH. exact Hb.
Qed.

Lemma skipn_black (n : nat) (img : raster) : is_black img -> is_black (skipn n img).
Proof.
  unfold is_black. revert img. induction n as [|n IH]; intros img H; cbn.
  - exact H.
  - destruct H; [constructor | apply IH; assumption].
Qed.

Section Blank.

Variable cv : libs.
Hypothesis laws : blank_laws cv.
Variable image : raster.
Hypothesis black : is_black image.

Lemma black_hsv : is_black (cvtColor_BGR2HSV cv image).
Proof.
  unfold cvtColor_BGR2HSV, is_black.
  apply Forall_map. eapply Forall_impl; [|exact black].
  intros row Hrow. apply Forall_map. eapply Forall_impl; [|exact Hrow].
  intros p ->. apply (hsv_black cv laws).
Qed.

Lemma black_gray (img : raster) : is_black img -> all_zero (cvtColor_BGR2GRAY cv img).
Proof.
  intro H. unfold cvtColor_BGR2GRAY, all_zero.
  apply Forall_map. eapply Forall_impl; [|exact H].
  intros row Hrow. apply Forall_map. eapply Forall_impl; [|exact Hrow].
  intros p ->. apply (gray_black cv laws).
Qed.

Lemma black_green_fraction : green_fraction cv image == 0.
Proof.
  unfold green_fraction.
  rewrite all_zero_count by (apply inRange_black; [apply black_hsv | lia]).
  apply zero_fraction.
Qed.

Lemma black_red_fraction : red_fraction cv image == 0.
Proof.
  unfold red_fraction.
  rewrite all_zero_count
    by (apply bitwise_or_zero; apply inRange_black; try apply black_hsv; lia).
  apply zero_fraction.
Qed.

Lemma black_trend :
  Trend.trend (_analyze_trend_colors cv image) = Some "neutral".
Proof.
  unfold _analyze_trend_colors.
  destruct (fst (shape image) * snd (shape image) =? 0)%Z; [reflexivity|].
  pose proof black_green_fraction as Hg. pose proof black_red_fraction as Hr.
  replace (Py.ltb 0.02 (green_fraction cv image)) with false
    by (symmetry; apply ltb_ge; lra).
  replace (Py.ltb 0.02 (red_fraction cv image)) with false
    by (symmetry; apply ltb_ge; lra).
  rewrite !andb_false_r. reflexivity.
Qed.

Lemma black_levels : detected_levels cv image = [].
Proof.
  unfold detected_levels. destruct (shape image) as [height width].
  rewrite (hough_blank cv laws)
    by (apply (canny_blank cv laws); apply black_gray; exact black).
  reflexivity.
Qed.

Lemma black_existing_trade :
  ExistingTrade.has_existing_trade (_detect_existing_trade cv image) = Some false.
Proof.
  unfold _detect_existing_trade. destruct (shape image) as [height width] eqn:Es.
  destruct (height * width =? 0)%Z; [reflexivity|].
  rewrite black_levels.
  assert (Hb : blue_density_of cv image == 0).
  { unfold blue_density_of, blue_count.
    rewrite all_zero_count by (apply inRange_black; [apply black_hsv | lia]).
    apply zero_fraction. }
  assert (Hp : purple_density_of cv image == 0).
  { unfold purple_density_of, purple_count.
    rewrite all_zero_count by (apply inRange_black; [apply black_hsv | lia]).
    apply zero_fraction. }
  replace (Py.ltb 0.002 (blue_density_of cv image)) with false
    by (symmetry; apply ltb_ge; lra).
  replace (Py.ltb 0.001 (purple_density_of cv image)) with false
    by (symmetry; apply ltb_ge; lra).
  reflexivity.
Qed.

Lemma black_patterns :
  Patterns.pattern_detected (_detect_candlestick_patterns cv image) = Some false.
Proof.
  unfold _detect_candlestick_patterns.
  destruct (fst (shape image) * snd (shape image) =? 0)%Z; [reflexivity|].
  assert (He : all_zero (Canny cv (cvtColor_BGR2GRAY cv image) 50 150))
    by (apply (canny_blank cv laws); apply black_gray; exact black).
  rewrite !all_zero_count by (apply (open_blank cv laws); exact He).
  replace (Py.ltb 0.01 _) with false; [reflexivity|].
  symmetry. apply ltb_ge. cbn [Z.add]. rewrite zero_fraction. lra.
Qed.

Lemma black_support_resistance :
  Py.dict_get
    (Levels.has_support_resistance (_find_support_resistance_levels cv image))
    false = false.
Proof.
  unfold _find_support_resistance_levels.
  destruct (fst (shape image) * snd (shape image) =? 0)%Z; [reflexivity|].
  rewrite (hough_blank cv laws) by (apply black_gray; exact black).
  reflexivity.
Qed.

Lemma black_price_action :
  PriceAction.trend_direction (_analyze_price_action cv image) = Some "unclear".
Proof.
  unfold _analyze_price_action.
  destruct (fst (shape image) * snd (shape image) =? 0)%Z; [reflexivity|].
  rewrite (contours_blank cv laws).
  - reflexivity.
  - apply (canny_blank cv laws). apply (blur_blank cv laws).
    apply black_gray. exact black.
Qed.

Lemma black_volume :
  Volume.volume_present (_analyze_volume_patterns cv image) = Some false.
Proof.
  unfold _analyze_volume_patterns. destruct (shape image) as [height width].
  set (region := skipn _ image).
  destruct (fst (shape region) * snd (shape region) =? 0)%Z; [reflexivity|].
  rewrite all_zero_count.
  - replace (Py.ltb 0.005 _) with false; [reflexivity|].
    symmetry. apply ltb_ge. rewrite zero_fraction. lra.
  - apply (open_blank cv laws). apply black_gray.
    apply skipn_black. exact black.
Qed.

End Blank.

(** The signal of an analysis in which nothing was detected. *)
Lemma generate_nothing_detected (analysis : Analysis.t)
  (trend : Trend.t) (existing : ExistingTrade.t) (patterns : Patterns.t)
  (levels : Levels.t) (price_action : PriceAction.t) :
  Analysis.trend_analysis analysis = Some trend ->
  Analysis.existing_trade analysis = Some existing ->
  Analysis.candlestick_patterns analysis = Some patterns ->
  Analysis.support_resistance analysis = Some levels ->
  Analysis.price_action analysis = Some price_action ->
  Trend.trend trend = Some "neutral" ->
  ExistingTrade.has_existing_trade existing = Some false ->
  Patterns.pattern_detected patterns = Some false ->
  Py.dict_get (Levels.has_support_resistance levels) false = false ->
  PriceAction.trend_direction price_action = Some "unclear" ->
  Signal.side (_generate_trading_signal analysis) = "sell"
  /\ Signal.confidence (_generate_trading_signal analysis) = 0.75.
Proof.
  intros Ht He Hp Hl Ha Htrend Hexisting Hpattern Hlevels Hprice.
  unfold _generate_trading_signal.
  rewrite Ht, He, Hp, Hl, Ha. cbn [Py.dict_get].
  rewrite Hexisting, Htrend, Hprice. cbn [Py.dict_get].
  unfold fuse_patterns, fuse_levels. rewrite Hpattern, Hlevels.
  cbn. split; reflexivity.
Qed.

(** C8: on a fully black image the trend is "neutral", no candlestick
    pattern is detected, no volume is present, and the final signal is a
    "sell" of confidence exactly 0.75.  OpenCV enters through its behaviour
    on blank inputs, [blank_laws]. *)
Theorem black_image_signal :
  forall (cv : libs) (image : raster),
    blank_laws cv ->
    is_black image ->
    Trend.trend (_analyze_trend_colors cv image) = Some "neutral"
    /\ Patterns.pattern_detected (_detect_candlestick_patterns cv image)
       = Some false
    /\ Volume.volume_present (_analyze_volume_patterns cv image) = Some false
    /\ Signal.side (Response.trading_signal (analyze_decoded cv image)) = "sell"
    /\ Signal.confidence (Response.trading_signal (analyze_decoded cv image))
       = 0.75.
Proof.
  intros cv image laws black.
  split; [apply black_trend; assumption|].
  split; [apply black_patterns; assumption|].
  split; [apply black_volume; assumption|].
  unfold analyze_decoded. cbn [Response.trading_signal].
  eapply generate_nothing_detected; try reflexivity.
  - apply black_trend; assumption.
  - apply black_existing_trade; assumption.
  - apply black_patterns; assumption.
  - apply black_support_resistance; assumption.
  - apply black_price_action; assumption.
Qed.

Lemma sample_blank_laws : blank_laws Sample.cv.
Proof.
  constructor; cbn.
  - reflexivity.
  - reflexivity.
  - intros m _ _ H. unfold all_zero in *.
    apply Forall_map. eapply Forall_impl; [|exact H].
    intros row Hrow. apply Forall_map. eapply Forall_impl; [|exact Hrow].
    intros v ->. reflexivity.
  - intros m _ _ _ H. rewrite (all_zero_count m H). reflexivity.
  - intros m _ _ H. exact H.
  - intros m H. exact H.
  - reflexivity.
Qed.

Lemma black_image_signal_witness :
  Signal.side (Response.trading_signal (analyze_decoded Sample.cv Sample.black))
  = "sell"
  /\ Signal.confidence
       (Response.trading_signal (analyze_decoded Sample.cv Sample.black)) = 0.75.
Proof.
  assert (Hblack : is_black Sample.black) by (repeat constructor).
  destruct (black_image_signal Sample.cv Sample.black sample_blank_laws Hblack)
    as (_ & _ & _ & Hside & Hconf).
  split; assumption.
Defined.

(** ** The image decoder *)

Lemma contains_app (sep : ascii) (a b : string) :
  contains sep (a ++ b)%string = contains sep a || contains sep b.
Proof.
  induction a as [|c a IH]; cbn.
  - reflexivity.
  - rewrite IH. apply orb_assoc.
Qed.

Lemma split_no_sep (sep : ascii) (a : string) :
  contains sep a = false -> split sep a = [a].
Proof.
  induction a as [|c a IH]; cbn; intro H.
  - reflexivity.
  - apply orb_false_iff in H. destruct H as [Hc Ha].
    rewrite Hc, (IH Ha). reflexivity.
Qed.

Lemma split_at_first_sep (sep : ascii) (a b : string) :
  contains sep a = false ->
  split sep (a ++ String sep b)%string = a :: split sep b.
Proof.
  induction a as [|c a IH]; cbn; intro H.
  - rewrite Ascii.eqb_refl. reflexivity.
  - apply orb_false_iff in H. destruct H as [Hc Ha].
    rewrite Hc, (IH Ha). reflexivity.
Qed.

Lemma remove_prefix_of_data_url (meta rest : string) :
  contains "," meta = false ->
  remove_data_url_prefix ("data:" ++ meta ++ "," ++ rest)%string
  = Some (hd EmptyString (split "," rest)).
Proof.
  intro H. unfold remove_data_url_prefix.
  assert (Hp : String.prefix "data:" ("data:" ++ meta ++ "," ++ rest)%string
               = true).
  { cbn. destruct (meta ++ String "," rest)%string; reflexivity. }
  assert (Hc : contains "," ("data:" ++ meta ++ "," ++ rest)%string = true).
  { cbn. rewrite contains_app. cbn. apply orb_true_r. }
  assert (Hs : split "," ("data:" ++ meta ++ "," ++ rest)%string
               = ("data:" ++ meta)%string :: split "," rest).
  { apply (split_at_first_sep "," ("data:" ++ meta)%string rest).
    cbn. exact H. }
  rewrite Hp, Hc, Hs. cbn [nth]. destruct (split "," rest); reflexivity.
Qed.

(** The part of [_decode_image] after the prefix has been removed. *)
Lemma decode_payload (cv : libs) (image_data payload : string) :
  remove_data_url_prefix image_data = Some payload ->
  _decode_image cv image_data
  = match b64decode cv (strip payload) with
    | None => None
    | Some image_bytes =>
        if (Py.len image_bytes <? 100)%Z then None
        else match Image_open cv image_bytes with
             | Some opencv_image => Some opencv_image
             | None => imdecode cv image_bytes
             end
    end.
Proof. intro H. unfold _decode_image. rewrite H. reflexivity. Qed.

(** C9: the decoder removes a data URL prefix (a data URL without a comma
    is rejected), base64-decodes what remains, rejects fewer than 100 decoded
    bytes, returns the image of the primary decode when it succeeds, tries
    the direct OpenCV decode when it does not, and fails only when both
    decodes fail; whenever decoding fails the pipeline returns the error
    response, whose signal is a "sell" of confidence 0.75 with stop 0.5 and
    target 2.0. *)
Theorem decode_contract :
  forall (cv : libs) (image_data : string),
    (forall meta payload,
        contains "," meta = false ->
        contains "," payload = false ->
        remove_data_url_prefix ("data:" ++ meta ++ "," ++ payload)%string
        = Some payload)
    /\ (String.prefix "data:" image_data = false ->
        remove_data_url_prefix image_data = Some image_data)
    /\ (String.prefix "data:" image_data = true ->
        contains "," image_data = false ->
        _decode_image cv image_data = None)
    /\ (forall payload,
           remove_data_url_prefix image_data = Some payload ->
           b64decode cv (strip payload) = None ->
           _decode_image cv image_data = None)
    /\ (forall payload image_bytes,
           remove_data_url_prefix image_data = Some payload ->
           b64decode cv (strip payload) = Some image_bytes ->
           (Py.len image_bytes < 100)%Z ->
           _decode_image cv image_data = None)
    /\ (forall payload image_bytes,
           remove_data_url_prefix image_data = Some payload ->
           b64decode cv (strip payload) = Some image_bytes ->
           (100 <= Py.len image_bytes)%Z ->
           (forall image, Image_open cv image_bytes = Some image ->
                          _decode_image cv image_data = Some image)
           /\ (Image_open cv image_bytes = None ->
               _decode_image cv image_data = imdecode cv image_bytes)
           /\ (_decode_image cv image_data = None <->
               Image_open cv image_bytes = None
               /\ imdecode cv image_bytes = None))
    /\ (_decode_image cv image_data = None ->
        analyze_chart_image cv image_data
        = _create_error_response "Failed to decode image"
        /\ Signal.side (Response.trading_signal (analyze_chart_image cv image_data))
           = "sell"
        /\ Signal.confidence
             (Response.trading_signal (analyze_chart_image cv image_data)) = 0.75
        /\ Signal.stopLossPercent
             (Response.trading_signal (analyze_chart_image cv image_data)) = 0.5
        /\ Signal.takeProfitPercent
             (Response.trading_signal (analyze_chart_image cv image_data)) = 2.0).
Proof.
  intros cv image_data.
  split; [|split; [|split; [|split; [|split; [|split]]]]].
  - intros meta payload Hm Hp.
    rewrite (remove_prefix_of_data_url meta payload Hm).
    rewrite (split_no_sep "," payload Hp). reflexivity.
  - intro H. unfold remove_data_url_prefix. rewrite H. reflexivity.
  - intros Hp Hc. unfold _decode_image, remove_data_url_prefix.
    rewrite Hp, Hc. reflexivity.
  - intros payload Hr Hb. rewrite (decode_payload cv _ _ Hr), Hb. reflexivity.
  - intros payload image_bytes Hr Hb Hlen.
    rewrite (decode_payload cv _ _ Hr), Hb.
    apply Z.ltb_lt in Hlen. rewrite Hlen. reflexivity.
  - intros payload image_bytes Hr Hb Hlen.
    rewrite (decode_payload cv _ _ Hr), Hb.
    apply Z.ltb_ge in Hlen. rewrite Hlen.
    split; [|split].
    + intros image Hi. rewrite Hi. reflexivity.
    + intros Hi. rewrite Hi. reflexivity.
    + destruct (Image_open cv image_bytes) as [image|].
      * split; [discriminate | intros [H _]; discriminate].
      * tauto.
  - intro H. unfold analyze_chart_image. rewrite H. repeat split.
Qed.

Lemma decode_contract_witness :
  analyze_chart_image Sample.cv "data:image/png;base64,AAAA"
  = _create_error_response "Failed to decode image"
  /\ _decode_image Sample.cv ("data:image/png;base64," ++ Sample.payload)%string
     = Some Sample.black.
Proof.
  split.
  - apply (proj2 (proj2 (proj2 (proj2 (proj2 (proj2
            (decode_contract Sample.cv "data:image/png;base64,AAAA"))))))).
    apply (proj1 (proj2 (proj2 (proj2 (proj2
             (decode_contract Sample.cv "data:image/png;base64,AAAA"))))))
      with (payload := "AAAA")
           (image_bytes := map byte_of_ascii (list_ascii_of_string "AAAA")).
    + reflexivity.
    + reflexivity.
    + vm_compute. reflexivity.
  - destruct (proj1 (proj2 (proj2 (proj2 (proj2 (proj2
               (decode_contract Sample.cv
                  ("data:image/png;base64," ++ Sample.payload)%string))))))
                Sample.payload
                (map byte_of_ascii (list_ascii_of_string Sample.payload))
                eq_refl eq_refl)
      as (_ & Hsecond & _).
    + vm_compute. discriminate.
    + rewrite Hsecond; reflexivity.
Defined.

(** * Further properties of the analyzers *)

(** ** Ranges of the analyzer outputs *)

Lemma min_cap (a b : Q) : Py.min a b <= b.
Proof.
  unfold Py.min. destruct (Py.ltb b a) eqn:E.
  - lra.
  - apply ltb_ge in E. exact E.
Qed.

Lemma trend_confidence_range (cv : libs) (image : raster) :
  exists c, Trend.confidence (_analyze_trend_colors cv image) = Some c
            /\ 0.5 <= c <= 0.95.
Proof.
  unfold _analyze_trend_colors.
  destruct (fst (shape image) * snd (shape image) =? 0)%Z.
  - exists 0.5. split; [reflexivity | lra].
  - destruct (Py.ltb (red_fraction cv image) (green_fraction cv image)
              && Py.ltb 0.02 (green_fraction cv image)) eqn:E1.
    + eexists. split; [reflexivity|].
      apply andb_true_iff in E1. destruct E1 as [_ E1]. apply ltb_lt in E1.
      split; [apply min_lower; lra | apply min_upper].
    + destruct (Py.ltb (green_fraction cv image) (red_fraction cv image)
                && Py.ltb 0.02 (red_fraction cv image)) eqn:E2.
      * eexists. split; [reflexivity|].
        apply andb_true_iff in E2. destruct E2 as [_ E2]. apply ltb_lt in E2.
        split; [apply min_lower; lra | apply min_upper].
      * exists 0.5. split; [reflexivity | lra].
Qed.

Lemma patterns_confidence_range (cv : libs) (image : raster) :
  match Patterns.confidence (_detect_candlestick_patterns cv image) with
  | Some c => 0.3 <= c <= 0.9
  | None => True
  end.
Proof.
  unfold _detect_candlestick_patterns.
  destruct (fst (shape image) * snd (shape image) =? 0)%Z; cbn; [exact I|].
  match goal with |- context [Py.ltb 0.01 ?d] =>
    destruct (Py.ltb 0.01 d) eqn:E; cbn
  end.
  - apply ltb_lt in E. split; [apply min_lower; lra | apply min_upper].
  - lra.
Qed.

(** The counters of [count_movements] start at zero and only grow. *)
Lemma count_movements_fold_nonneg (contours : list contour) (up down : Z) :
  (0 <= up)%Z -> (0 <= down)%Z ->
  let r := fold_left
    (fun counts c =>
       let '(upward_movement, downward_movement) := counts in
       match c with
       | start_point :: _ =>
           if (10 <? Py.len c)%Z then
             let end_point := last c start_point in
             if (snd end_point <? snd start_point)%Z
             then ((upward_movement + 1)%Z, downward_movement)
             else if (snd start_point <? snd end_point)%Z
                  then (upward_movement, (downward_movement + 1)%Z)
                  else counts
           else counts
       | [] => counts
       end)
    contours (up, down) in
  (up <= fst r)%Z /\ (down <= snd r)%Z
  /\ (fst r + snd r <= up + down + Py.len contours)%Z.
Proof.
  revert up down. induction contours as [|c cs IH]; intros up down Hu Hd.
  - cbn. unfold Py.len. cbn. lia.
  - cbn zeta. cbn [fold_left].
    assert (Hlen : Py.len (c :: cs) = (Py.len cs + 1)%Z)
      by (unfold Py.len; cbn [List.length]; lia).
    rewrite Hlen.
    destruct c as [|start_point rest].
    + specialize (IH up down Hu Hd). cbn zeta in IH. lia.
    + destruct (10 <? Py.len (start_point :: rest))%Z.
      * cbv zeta.
        destruct (snd (last (start_point :: rest) start_point)
                  <? snd start_point)%Z.
        -- specialize (IH (up + 1)%Z down). cbn zeta in IH. lia.
        -- destruct (snd start_point
                     <? snd (last (start_point :: rest) start_point))%Z.
           ++ specialize (IH up (down + 1)%Z). cbn zeta in IH. lia.
           ++ specialize (IH up down Hu Hd). cbn zeta in IH. lia.
      * specialize (IH up down Hu Hd). cbn zeta in IH. lia.
Qed.

Lemma count_movements_bounds (contours : list contour) :
  (0 <= fst (count_movements contours))%Z
  /\ (0 <= snd (count_movements contours))%Z
  /\ (fst (count_movements contours) + snd (count_movements contours)
      <= Py.len contours)%Z.
Proof.
  pose proof (count_movements_fold_nonneg contours 0 0) as H.
  cbn zeta in H. unfold count_movements. lia.
Qed.

Lemma ratio_bounds (up total : Z) :
  (0 <= up <= total)%Z -> (0 < total)%Z ->
  0 <= inject_Z up / inject_Z total <= 1.
Proof.
  intros Hu Ht.
  assert (Hq : 0 < inject_Z total)
    by (change 0 with (inject_Z 0); rewrite <- Zlt_Qlt; exact Ht).
  split.
  - apply Qle_shift_div_l; [exact Hq|]. rewrite Qmult_0_l.
    change 0 with (inject_Z 0). rewrite <- Zle_Qle. lia.
  - apply Qle_shift_div_r; [exact Hq|]. rewrite Qmult_1_l.
    rewrite <- Zle_Qle. lia.
Qed.

Lemma price_strength_range (cv : libs) (image : raster) :
  0.3 <= Py.dict_get
           (PriceAction.trend_strength (_analyze_price_action cv image)) 0.5
      <= 1.
Proof.
  unfold _analyze_price_action.
  destruct (fst (shape image) * snd (shape image) =? 0)%Z; [cbn; lra|].
  pose proof (count_movements_bounds
                (findContours cv
                   (Canny cv (GaussianBlur cv (cvtColor_BGR2GRAY cv image))
                      50 150))) as (Hu & Hd & _).
  destruct (count_movements _) as [up down]. cbn [fst snd] in Hu, Hd.
  destruct (0 <? up + down)%Z eqn:E0.
  - apply Z.ltb_lt in E0.
    pose proof (ratio_bounds up (up + down) ltac:(lia) E0) as Hr.
    destruct (Py.ltb 0.6 (inject_Z up / inject_Z (up + down))) eqn:E1.
    + apply ltb_lt in E1. cbn. lra.
    + destruct (Py.ltb (inject_Z up / inject_Z (up + down)) 0.4) eqn:E2.
      * apply ltb_lt in E2. cbn. lra.
      * cbn. lra.
  - cbn. lra.
Qed.

(** ** The weighted path, from the analysis to the signal *)

Lemma weighted_path_state (analysis : Analysis.t) :
  Py.dict_get
    (ExistingTrade.has_existing_trade
       (Py.dict_get (Analysis.existing_trade analysis) ExistingTrade.empty))
    false = false ->
  let i := FusionSpec.inputs_of analysis in
  exists st,
    _generate_trading_signal analysis
    = weighted_signal (FusionSpec.trend_confidence i) (FusionSpec.price_strength i)
        (Py.dict_get (Analysis.candlestick_patterns analysis) Patterns.empty)
        st (FusionSpec.final_direction i)
    /\ signal_strength st == FusionSpec.final_score i.
Proof.
  intros Hno i. subst i. unfold _generate_trading_signal. rewrite Hno.
  unfold FusionSpec.inputs_of.
  set (trend := Py.dict_get (Analysis.trend_analysis analysis) Trend.empty).
  set (patterns :=
         Py.dict_get (Analysis.candlestick_patterns analysis) Patterns.empty).
  set (levels := Py.dict_get (Analysis.support_resistance analysis) Levels.empty).
  set (pa := Py.dict_get (Analysis.price_action analysis) PriceAction.empty).
  destruct (fused_state (Py.dict_get (Trend.trend trend) "neutral")
              (Py.dict_get (PriceAction.trend_direction pa) "unclear")
              (Py.dict_get (Trend.confidence trend) 0.5)
              (Py.dict_get (PriceAction.trend_strength pa) 0.5)
              patterns levels) as [Hs Hd].
  cbv zeta in Hs, Hd.
  set (i := {| FusionSpec.trend_type := _ |}) in *.
  set (st := fuse_levels _ _) in *.
  unfold fuse_default, FusionSpec.final_direction, FusionSpec.final_score.
  rewrite <- Hd.
  destruct (signal_direction st) as [d|].
  - exists st. split; [reflexivity | exact Hs].
  - eexists. split; [reflexivity|]. cbn. apply max_compat. exact Hs.
Qed.

Lemma score_cap (i : FusionSpec.inputs) :
  FusionSpec.trend_confidence i <= 0.95 ->
  FusionSpec.pattern_confidence i <= 0.9 ->
  FusionSpec.price_strength i <= 1 ->
  FusionSpec.final_score i <= 0.95.
Proof.
  intros Ht Hp Hs.
  assert (H : FusionSpec.score i <= 0.95).
  { unfold FusionSpec.score, FusionSpec.term.
    destruct (FusionSpec.trend_directed i), (FusionSpec.pattern_detected i),
      (FusionSpec.price_directed i), (FusionSpec.has_levels i); lra. }
  unfold FusionSpec.final_score. destruct (FusionSpec.direction i).
  - exact H.
  - apply max_upper; [lra | exact H].
Qed.

Lemma generate_confidence_cap (analysis : Analysis.t) :
  let i := FusionSpec.inputs_of analysis in
  FusionSpec.trend_confidence i <= 0.95 ->
  FusionSpec.pattern_confidence i <= 0.9 ->
  FusionSpec.price_strength i <= 1 ->
  Signal.confidence (_generate_trading_signal analysis) <= 0.95.
Proof.
  intros i Ht Hp Hs.
  destruct (Py.dict_get
              (ExistingTrade.has_existing_trade
                 (Py.dict_get (Analysis.existing_trade analysis)
                    ExistingTrade.empty)) false) eqn:Hex.
  - unfold _generate_trading_signal. rewrite Hex.
    destruct (_ =? "copy_existing_setup")%string; cbn; lra.
  - destruct (weighted_path_state analysis Hex) as (st & -> & Hst).
    rewrite weighted_signal_confidence.
    apply max_upper; [lra|]. rewrite Hst. apply score_cap; assumption.
Qed.


(** ** The signal of the pipeline *)

Lemma shape_nonneg {A : Type} (img : list (list A)) :
  (0 <= fst (shape img))%Z /\ (0 <= snd (shape img))%Z.
Proof. unfold shape, Py.len. cbn. lia. Qed.

(** What the detector returns: either it fired, with the copy type and the
    parameters extracted from the levels of a non-empty image, or it did
    not. *)
Lemma detector_cases (cv : libs) (image : raster) :
  let r := _detect_existing_trade cv image in
  (ExistingTrade.has_existing_trade r = Some true
   /\ ExistingTrade.trade_type r = Some "copy_existing_setup"
   /\ ExistingTrade.trade_parameters r
      = Some (_extract_trade_parameters (detected_levels cv image)
                (fst (shape image)))
   /\ (0 < fst (shape image))%Z)
  \/ (ExistingTrade.has_existing_trade r = Some false
      /\ ExistingTrade.trade_parameters r = None).
Proof.
  cbv zeta. unfold _detect_existing_trade.
  pose proof (shape_nonneg image) as [Hh Hw].
  destruct (shape image) as [h w]. cbn [fst snd] in *.
  destruct (h * w =? 0)%Z eqn:E0; [right; split; reflexivity|].
  apply Z.eqb_neq in E0.
  destruct (Py.ltb 0.002 (blue_density_of cv image)
            || Py.ltb 0.001 (purple_density_of cv image)
            || (3 <=? Py.len (detected_levels cv image))%Z).
  - left. repeat split; try reflexivity. nia.
  - right. split; reflexivity.
Qed.

Lemma extract_trade_parameters_bounds (levels : list Level.t) (h : Z) :
  (0 < h)%Z ->
  exists sl tp,
    TradeParams.stop_loss_percent (_extract_trade_parameters levels h) = Some sl
    /\ TradeParams.take_profit_percent (_extract_trade_parameters levels h)
       = Some tp
    /\ 0.3 <= sl <= 2.0 /\ 0.5 <= tp <= 3.0.
Proof.
  intro Hh.
  destruct (extract_trade_parameters_rule levels h Hh)
    as [(ca & cb & _ & _ & Htp & Hsl) | (_ & Hsl & Htp)].
  - eexists. eexists. split; [exact Hsl|]. split; [exact Htp|].
    split; [exact (proj2 (rounded_offset_bounds _ _))
           | exact (proj1 (rounded_offset_bounds _ _))].
  - exists 0.5, 1.5. split; [exact Hsl|]. split; [exact Htp|]. lra.
Qed.

Lemma weighted_signal_shape tc ps patterns st (d : string) :
  d = "sell" \/ d = "buy" ->
  let s := weighted_signal tc ps patterns st d in
  Signal.method s = "python_computer_vision"
  /\ (Signal.side s = "sell"
      /\ Signal.stopLossPercent s = 0.5 /\ Signal.takeProfitPercent s = -2.0
      \/ Signal.side s = "buy"
         /\ Signal.stopLossPercent s = -0.5 /\ Signal.takeProfitPercent s = 2.0).
Proof.
  intros [-> | ->]; cbn; split; auto.
Qed.

(** X2: the signal the pipeline returns has one of four shapes and no other:
    a "copy" of confidence 0.95 whose stop lies in [0.3, 2.0] and whose
    target lies in [0.5, 3.0]; a computed "sell" with offsets 0.5 / -2.0; a
    computed "buy" with offsets -0.5 / 2.0; or, when the image cannot be
    decoded, the default "sell" of confidence 0.75 with offsets 0.5 / 2.0
    (a positive target, unlike the computed sell).  In particular the
    pipeline never returns a "follow" signal. *)
Theorem pipeline_signal_shapes :
  forall (cv : libs) (image_data : string),
    let s := Response.trading_signal (analyze_chart_image cv image_data) in
    (Signal.side s = "copy"
     /\ Signal.method s = "copy_existing_trade"
     /\ Signal.confidence s = 0.95
     /\ 0.3 <= Signal.stopLossPercent s <= 2.0
     /\ 0.5 <= Signal.takeProfitPercent s <= 3.0)
    \/ (Signal.side s = "sell"
        /\ Signal.method s = "python_computer_vision"
        /\ Signal.stopLossPercent s = 0.5
        /\ Signal.takeProfitPercent s = -2.0)
    \/ (Signal.side s = "buy"
        /\ Signal.method s = "python_computer_vision"
        /\ Signal.stopLossPercent s = -0.5
        /\ Signal.takeProfitPercent s = 2.0)
    \/ (_decode_image cv image_data = None
        /\ Signal.side s = "sell"
        /\ Signal.method s = "python_error_fallback"
        /\ Signal.confidence s = 0.75
        /\ Signal.stopLossPercent s = 0.5
        /\ Signal.takeProfitPercent s = 2.0).
Proof.
  intros cv image_data. cbv zeta. unfold analyze_chart_image.
  destruct (_decode_image cv image_data) as [image|];
    [|right; right; right; repeat split].
  unfold analyze_decoded. cbn [Response.trading_signal].
  destruct (detector_cases cv image) as [(Hf & Ht & Hp & Hh) | (Hf & _)].
  - left.
    rewrite (generate_existing (analysis_results cv image)
               (_detect_existing_trade cv image) eq_refl Hf).
    rewrite Ht. cbn [Py.dict_get String.eqb Ascii.eqb Bool.eqb].
    unfold copy_signal. rewrite Hp. cbn [Py.dict_get].
    destruct (extract_trade_parameters_bounds (detected_levels cv image)
                (fst (shape image)) Hh) as (sl & tp & -> & -> & Bsl & Btp).
    cbn. repeat split; try reflexivity; try apply Bsl; apply Btp.
  - right.
    assert (Hno : Py.dict_get
                    (ExistingTrade.has_existing_trade
                       (Py.dict_get
                          (Analysis.existing_trade (analysis_results cv image))
                          ExistingTrade.empty)) false = false).
    { unfold analysis_results. cbn [Analysis.existing_trade Py.dict_get].
      rewrite Hf. reflexivity. }
    destruct (weighted_path_state _ Hno) as (st & -> & _).
    destruct (weighted_signal_shape
                (FusionSpec.trend_confidence
                   (FusionSpec.inputs_of (analysis_results cv image)))
                (FusionSpec.price_strength
                   (FusionSpec.inputs_of (analysis_results cv image)))
                (Py.dict_get
                   (Analysis.candlestick_patterns (analysis_results cv image))
                   Patterns.empty)
                st _ (final_direction_sell_or_buy
                        (FusionSpec.inputs_of (analysis_results cv image))))
      as (Hm & [(H1 & H2 & H3) | (H1 & H2 & H3)]).
    + left. repeat split; assumption.
    + right. left. repeat split; assumption.
Qed.

(** X3: on a decoded image the existing-trade detector has the last word:
    the signal is a "copy" exactly when the detector fired, whatever the
    trend, pattern, price-action and support/resistance analyzers found. *)
Theorem copy_iff_detector_fired :
  forall (cv : libs) (image : raster),
    Signal.side (Response.trading_signal (analyze_decoded cv image)) = "copy"
    <-> ExistingTrade.has_existing_trade (_detect_existing_trade cv image)
        = Some true.
Proof.
  intros cv image. unfold analyze_decoded. cbn [Response.trading_signal].
  destruct (detector_cases cv image) as [(Hf & Ht & _ & _) | (Hf & _)].
  - rewrite (generate_existing (analysis_results cv image)
               (_detect_existing_trade cv image) eq_refl Hf).
    rewrite Ht. cbn. split; auto.
  - assert (Hno : Py.dict_get
                    (ExistingTrade.has_existing_trade
                       (Py.dict_get
                          (Analysis.existing_trade (analysis_results cv image))
                          ExistingTrade.empty)) false = false).
    { unfold analysis_results. cbn [Analysis.existing_trade Py.dict_get].
      rewrite Hf. reflexivity. }
    destruct (weighted_path_state _ Hno) as (st & -> & _).
    rewrite Hf. unfold weighted_signal.
    destruct (final_direction_sell_or_buy
                (FusionSpec.inputs_of (analysis_results cv image))) as [-> | ->];
      cbn; split; discriminate.
Qed.

(** ** The candlestick pattern detector *)

(** X4: on a non-empty image the candlestick detector never takes its error
    branch; it reports a pattern exactly when the density of the two
    openings exceeds 0.01, then with type "standard_candlesticks" and
    confidence min(0.9, density x 50), which lies above 0.5 and at most 0.9;
    otherwise the type is "no_clear_pattern" and the confidence 0.3. *)
Theorem candlestick_rule :
  forall (cv : libs) (image : raster),
    (0 < fst (shape image) * snd (shape image))%Z ->
    let d := candlestick_density_of cv image in
    let r := _detect_candlestick_patterns cv image in
    Patterns.error r = None
    /\ Patterns.candlestick_density r = Some d
    /\ (Patterns.pattern_detected r = Some true <-> 0.01 < d)
    /\ (0.01 < d ->
        Patterns.pattern_type r = Some "standard_candlesticks"
        /\ Patterns.confidence r = Some (Py.min 0.9 (d * 50))
        /\ 0.5 < Py.min 0.9 (d * 50) <= 0.9)
    /\ (d <= 0.01 ->
        Patterns.pattern_detected r = Some false
        /\ Patterns.pattern_type r = Some "no_clear_pattern"
        /\ Patterns.confidence r = Some 0.3).
Proof.
  intros cv image Hpos d r. subst r. unfold _detect_candlestick_patterns.
  destruct (fst (shape image) * snd (shape image) =? 0)%Z eqn:E0;
    [apply Z.eqb_eq in E0; lia|].
  fold (candlestick_density_of cv image). fold d.
  destruct (Py.ltb 0.01 d) eqn:E; cbn.
  - apply ltb_lt in E.
    split; [reflexivity|]. split; [reflexivity|].
    split; [split; auto|]. split.
    + intros _. split; [reflexivity|]. split; [reflexivity|]. split.
      * unfold Py.min. destruct (Py.ltb (d * 50) 0.9); lra.
      * apply min_upper.
    + intro H. exfalso. lra.
  - apply ltb_ge in E.
    split; [reflexivity|]. split; [reflexivity|].
    split; [split; [discriminate | intro H; exfalso; lra]|]. split.
    + intro H. exfalso. lra.
    + intros _. repeat split.
Qed.

Lemma candlestick_rule_witness :
  Patterns.pattern_detected
    (_detect_candlestick_patterns Sample.cv Sample.striped) = Some true
  /\ Patterns.confidence
       (_detect_candlestick_patterns Sample.cv Sample.striped) = Some 0.9.
Proof.
  destruct (candlestick_rule Sample.cv Sample.striped eq_refl)
    as (_ & _ & Hdet & Hconf & _).
  assert (Hd : 0.01 < candlestick_density_of Sample.cv Sample.striped)
    by (vm_compute; reflexivity).
  split; [apply (proj2 Hdet); exact Hd|].
  destruct (Hconf Hd) as (_ & Hc & _). rewrite Hc. vm_compute. reflexivity.
Defined.

(** ** The price-action analyzer *)

Lemma ratio_gt (up total : Z) (n m : Z) :
  (0 < total)%Z -> (0 < m)%Z ->
  (inject_Z n / inject_Z m < inject_Z up / inject_Z total
   <-> (n * total < m * up)%Z).
Proof.
  intros Ht Hm.
  destruct total as [|t|t]; try lia. destruct m as [|k|k]; try lia.
  unfold Qlt, Qdiv, Qmult, Qinv, inject_Z. cbn -[Z.mul]. lia.
Qed.

Lemma complement_ratio (up down : Z) :
  (0 < up + down)%Z ->
  1 - inject_Z up / inject_Z (up + down)
  == inject_Z down / inject_Z (up + down).
Proof.
  intro H. rewrite inject_Z_plus. field.
  rewrite <- inject_Z_plus. intro E.
  change 0 with (inject_Z 0) in E.
  apply (proj1 (inject_Z_injective _ _)) in E. lia.
Qed.

(** X5: on an image without pixels the price-action analyzer takes its
    error branch and returns the direction "unclear" with an error and
    nothing else.  On any other image it counts, among the contours of more
    than ten points, those whose last point is higher on screen than the
    first (upward) and those whose last point is lower (downward).  With no
    such contour the direction is "unclear" (strength 0.3); otherwise it is
    "upward" exactly when 2 x upward > 3 x downward, "downward" exactly when
    2 x downward > 3 x upward, and "sideways" (strength 0.5) in between.  A
    directed result has as strength the share of the winning side, which
    then exceeds 0.6 and is at most 1. *)
Theorem price_action_rule :
  forall (cv : libs) (image : raster),
    let up := fst (count_movements (contours_of cv image)) in
    let down := snd (count_movements (contours_of cv image)) in
    let r := _analyze_price_action cv image in
    ((fst (shape image) * snd (shape image) = 0)%Z ->
     PriceAction.trend_direction r = Some "unclear"
     /\ PriceAction.trend_strength r = None
     /\ PriceAction.upward_movements r = None
     /\ PriceAction.downward_movements r = None
     /\ PriceAction.error r <> None)
    /\ ((fst (shape image) * snd (shape image) <> 0)%Z ->
        PriceAction.error r = None
        /\ PriceAction.upward_movements r = Some up
        /\ PriceAction.downward_movements r = Some down
        /\ (0 <= up)%Z /\ (0 <= down)%Z
        /\ (up + down <= Py.len (contours_of cv image))%Z
        /\ (PriceAction.trend_direction r = Some "unclear"
            /\ PriceAction.trend_strength r = Some 0.3
            /\ (up + down = 0)%Z
            \/ PriceAction.trend_direction r = Some "upward"
               /\ (3 * down < 2 * up)%Z
               /\ (exists s, PriceAction.trend_strength r = Some s
                             /\ s == inject_Z up / inject_Z (up + down)
                             /\ 0.6 < s <= 1)
            \/ PriceAction.trend_direction r = Some "downward"
               /\ (3 * up < 2 * down)%Z
               /\ (exists s, PriceAction.trend_strength r = Some s
                             /\ s == inject_Z down / inject_Z (up + down)
                             /\ 0.6 < s <= 1)
            \/ PriceAction.trend_direction r = Some "sideways"
               /\ PriceAction.trend_strength r = Some 0.5
               /\ (0 < up + down)%Z
               /\ (2 * up <= 3 * down)%Z /\ (2 * down <= 3 * up)%Z)).
Proof.
  intros cv image. cbv zeta.
  pose proof (count_movements_bounds (contours_of cv image)) as (Hu & Hd & Hc).
  unfold _analyze_price_action. fold (contours_of cv image).
  destruct (fst (shape image) * snd (shape image) =? 0)%Z eqn:Es.
  { apply Z.eqb_eq in Es. split; [|intro H; lia]. intros _.
    cbn. repeat split. discriminate. }
  apply Z.eqb_neq in Es. split; [intro H; contradiction|]. intros _.
  destruct (count_movements (contours_of cv image)) as [up down].
  cbn [fst snd] in *.
  destruct (0 <? up + down)%Z eqn:E0.
  - apply Z.ltb_lt in E0.
    pose proof (ratio_bounds up (up + down) ltac:(lia) E0) as Hr.
    pose proof (ratio_gt up (up + down) 6 10 E0 ltac:(lia)) as Hup.
    pose proof (ratio_gt 4 10 up (up + down) ltac:(lia) E0) as Hdown.
    change (inject_Z 6 / inject_Z 10) with 0.6 in Hup.
    change (inject_Z 4 / inject_Z 10) with 0.4 in Hdown.
    destruct (Py.ltb 0.6 (inject_Z up / inject_Z (up + down))) eqn:E1.
    + apply ltb_lt in E1. cbn -[Z.mul Z.add].
      split; [reflexivity|]. split; [reflexivity|]. split; [reflexivity|].
      split; [exact Hu|]. split; [exact Hd|]. split; [exact Hc|].
      right. left.
      split; [reflexivity|]. split; [apply (proj1 Hup) in E1; lia|].
      eexists. split; [reflexivity|]. split; [reflexivity | lra].
    + apply ltb_ge in E1.
      destruct (Py.ltb (inject_Z up / inject_Z (up + down)) 0.4) eqn:E2.
      * apply ltb_lt in E2. cbn -[Z.mul Z.add].
        split; [reflexivity|]. split; [reflexivity|]. split; [reflexivity|].
        split; [exact Hu|]. split; [exact Hd|]. split; [exact Hc|].
        right. right. left.
        split; [reflexivity|]. split; [apply (proj1 Hdown) in E2; lia|].
        eexists. split; [reflexivity|].
        split; [apply complement_ratio; exact E0 | lra].
      * apply ltb_ge in E2. cbn -[Z.mul Z.add].
        split; [reflexivity|]. split; [reflexivity|]. split; [reflexivity|].
        split; [exact Hu|]. split; [exact Hd|]. split; [exact Hc|].
        right. right. right.
        split; [reflexivity|]. split; [reflexivity|]. split; [exact E0|].
        split.
        -- destruct (Z_lt_le_dec (3 * down) (2 * up)) as [H | H]; [|exact H].
           exfalso. assert (0.6 < inject_Z up / inject_Z (up + down))
             by (apply Hup; lia). lra.
        -- destruct (Z_lt_le_dec (3 * up) (2 * down)) as [H | H]; [|exact H].
           exfalso. assert (inject_Z up / inject_Z (up + down) < 0.4)
             by (apply Hdown; lia). lra.
  - apply Z.ltb_ge in E0. cbn -[Z.mul Z.add].
    split; [reflexivity|]. split; [reflexivity|]. split; [reflexivity|].
    split; [exact Hu|]. split; [exact Hd|]. split; [exact Hc|].
    left. split; [reflexivity|]. split; [reflexivity | lia].
Qed.

Lemma price_action_rule_witness :
  let cv := Sample.with_contours [Sample.rising; Sample.rising; Sample.short] in
  PriceAction.trend_direction (_analyze_price_action cv Sample.striped)
  = Some "upward"
  /\ PriceAction.upward_movements (_analyze_price_action cv Sample.striped)
     = Some 2%Z
  /\ PriceAction.error (_analyze_price_action cv Sample.striped) = None.
Proof.
  cbv zeta.
  destruct (price_action_rule
              (Sample.with_contours
                 [Sample.rising; Sample.rising; Sample.short])
              Sample.striped) as [_ H].
  destruct (H ltac:(vm_compute; discriminate))
    as (He & Hu & _ & _ & _ & _ & [(_ & _ & E) | [(Hd & _) | [(_ & E & _) | (_ & _ & _ & E & _)]]]);
    try (exfalso; vm_compute in E; first [discriminate E | apply E; reflexivity]).
  split; [exact Hd|]. split; [exact Hu | exact He].
Defined.

(** X6: contours of ten points or fewer are ignored: when an image with
    pixels has no longer contour the price action is "unclear" with strength
    0.3 and both counters stay at zero. *)
Theorem short_contours_unclear :
  forall (cv : libs) (image : raster),
    (fst (shape image) * snd (shape image) <> 0)%Z ->
    Forall (fun c : contour => (Py.len c <= 10)%Z) (contours_of cv image) ->
    let r := _analyze_price_action cv image in
    PriceAction.trend_direction r = Some "unclear"
    /\ PriceAction.trend_strength r = Some 0.3
    /\ PriceAction.upward_movements r = Some 0%Z
    /\ PriceAction.downward_movements r = Some 0%Z
    /\ PriceAction.error r = None.
Proof.
  intros cv image Hs H. cbv zeta.
  unfold _analyze_price_action. fold (contours_of cv image).
  apply Z.eqb_neq in Hs. rewrite Hs.
  assert (E : forall counts,
             fold_left
               (fun counts c =>
                  let '(upward_movement, downward_movement) := counts in
                  match c with
                  | start_point :: _ =>
                      if (10 <? Py.len c)%Z then
                        let end_point := last c start_point in
                        if (snd end_point <? snd start_point)%Z
                        then ((upward_movement + 1)%Z, downward_movement)
                        else if (snd start_point <? snd end_point)%Z
                             then (upward_movement, (downward_movement + 1)%Z)
                             else counts
                      else counts
                  | [] => counts
                  end) (contours_of cv image) counts = counts).
  { induction H as [|c cs Hc _ IH]; intros [up down]; cbn [fold_left].
    - reflexivity.
    - destruct c as [|p rest]; [apply IH|].
      replace (10 <? Py.len (p :: rest))%Z with false
        by (symmetry; apply Z.ltb_ge; exact Hc).
      apply IH. }
  unfold count_movements. rewrite E. cbn. repeat split.
Qed.

Lemma short_contours_unclear_witness :
  let cv := Sample.with_contours [Sample.short; Sample.short] in
  contours_of cv Sample.striped = [Sample.short; Sample.short]
  /\ PriceAction.trend_direction (_analyze_price_action cv Sample.striped)
     = Some "unclear"
  /\ PriceAction.upward_movements (_analyze_price_action cv Sample.striped)
     = Some 0%Z.
Proof.
  cbv zeta. split; [reflexivity|].
  destruct (short_contours_unclear
              (Sample.with_contours [Sample.short; Sample.short])
              Sample.striped) as (Hd & _ & Hu & _).
  - vm_compute. discriminate.
  - repeat constructor; vm_compute; discriminate.
  - split; assumption.
Defined.

(** ** Sorted results *)

Section SortedResult.

Context {A : Type} (before : A -> A -> bool).
Hypothesis before_total : forall a b, before a b = true \/ before b a = true.

Let R (a b : A) : Prop := before a b = true.

Lemma insert_sorted_hd (x y : A) (xs : list A) :
  R y x -> HdRel R y xs -> HdRel R y (Py.insert_sorted before x xs).
Proof.
  intros Hyx Hy. destruct xs as [|z zs]; cbn.
  - constructor. exact Hyx.
  - destruct (before z x).
    + constructor. inversion Hy; assumption.
    + constructor. exact Hyx.
Qed.

Lemma insert_sorted_Sorted (x : A) (xs : list A) :
  Sorted R xs -> Sorted R (Py.insert_sorted before x xs).
Proof.
  induction 1 as [|y ys Hs IH Hhd]; cbn.
  - repeat constructor.
  - destruct (before y x) eqn:E.
    + constructor; [exact IH|]. apply insert_sorted_hd; assumption.
    + constructor.
      * constructor; assumption.
      * constructor. destruct (before_total x y) as [H | H]; [exact H|].
        unfold R in *. congruence.
Qed.

Lemma sort_Sorted (xs : list A) : Sorted R (Py.sort before xs).
Proof.
  unfold Py.sort.
  assert (H : forall acc, Sorted R acc ->
                          Sorted R (fold_left
                                      (fun acc x => Py.insert_sorted before x acc)
                                      xs acc)).
  { induction xs as [|x xs IH]; intros acc Hacc; cbn.
    - exact Hacc.
    - apply IH. apply insert_sorted_Sorted. exact Hacc. }
  apply H. constructor.
Qed.

End SortedResult.

Lemma StronglySorted_weaken {A : Type} (R R' : A -> A -> Prop) (l : list A) :
  (forall a b, R a b -> R' a b) -> StronglySorted R l -> StronglySorted R' l.
Proof.
  intros HR. induction 1 as [|a l Hs IH Hall]; constructor.
  - exact IH.
  - eapply Forall_impl; [|exact Hall]. intros b. apply HR.
Qed.

Lemma StronglySorted_firstn {A : Type} (R : A -> A -> Prop) (n : nat)
  (l : list A) :
  StronglySorted R l -> StronglySorted R (firstn n l).
Proof.
  intro H. revert n. induction H as [|a l Hs IH Hall]; intros [|n]; cbn;
    try constructor.
  - apply IH.
  - apply Forall_forall. intros b Hb.
    rewrite Forall_forall in Hall. apply Hall.
    rewrite <- (firstn_skipn n l). apply in_or_app. left. exact Hb.
Qed.

Lemma sorted_by_key {A : Type} (key : A -> Q) (xs : list A) :
  StronglySorted (fun a b => key a <= key b)
                 (Py.sort (fun a b => Qle_bool (key a) (key b)) xs).
Proof.
  apply StronglySorted_weaken
    with (R := fun a b => Qle_bool (key a) (key b) = true).
  - intros a b. apply Qle_bool_iff.
  - apply Sorted_StronglySorted.
    + intros a b c Hab Hbc. apply Qle_bool_iff in Hab, Hbc.
      apply Qle_bool_iff. lra.
    + apply sort_Sorted. intros a b.
      destruct (Qlt_le_dec (key b) (key a)) as [H | H].
      * right. apply Qle_bool_iff. lra.
      * left. apply Qle_bool_iff. exact H.
Qed.

(** X7: the levels of the existing-trade detector are returned from top to
    bottom: every level lies at or above (row number at most that of) every
    level after it, and they are exactly the levels built from the detected
    lines, each once. *)
Theorem detected_levels_top_to_bottom :
  forall (cv : libs) (image : raster),
    StronglySorted (fun a b => Level.y_position a <= Level.y_position b)
                   (detected_levels cv image)
    /\ Permutation (detected_levels cv image)
                   (collect_levels (fst (shape image)) (snd (shape image))
                      (HoughLinesP cv
                         (Canny cv (cvtColor_BGR2GRAY cv image) 30 100)
                         40 (snd (shape image) / 4) 20)).
Proof.
  intros cv image. unfold detected_levels, sort_by_position.
  destruct (shape image) as [h w]. cbn [fst snd].
  split; [apply sorted_by_key | apply sort_perm].
Qed.

(** ** The support/resistance finder *)

Lemma collect_sr_levels_len (ls : list segment) :
  Py.len (collect_sr_levels (Some ls))
  = Py.len (filter nearly_horizontal ls).
Proof.
  unfold collect_sr_levels.
  assert (H : forall acc,
             List.length
               (fold_left
                  (fun horizontal_lines line =>
                     let '(x1, y1, x2, y2) := line in
                     if nearly_horizontal line then
                       horizontal_lines ++
                         [{| SRLevel.y_position := ((y1 + y2) / 2)%Z;
                             SRLevel.length2 :=
                               ((x2 - x1) * (x2 - x1)
                                + (y2 - y1) * (y2 - y1))%Z;
                             SRLevel.strength :=
                               Py.min 1.0
                                 (inject_Z (Py.len horizontal_lines) * 0.1) |}]
                     else horizontal_lines) ls acc)
             = (List.length acc + List.length (filter nearly_horizontal ls))%nat).
  { induction ls as [|line ls IH]; intro acc; cbn [fold_left filter].
    - cbn. lia.
    - rewrite IH. destruct line as [[[x1 y1] x2] y2].
      destruct (nearly_horizontal (x1, y1, x2, y2)).
      + rewrite length_app. cbn. lia.
      + reflexivity. }
  unfold Py.len. rewrite H. reflexivity.
Qed.

Lemma sr_strength_range (lines : option (list segment)) (l : SRLevel.t) :
  In l (collect_sr_levels lines) -> 0 <= SRLevel.strength l <= 1.
Proof.
  intro H. apply In_nth_error in H. destruct H as [i Hi].
  rewrite (sr_strength_by_index lines i l Hi).
  split.
  - apply min_lower; [lra|].
    apply Qmult_le_0_compat; [|lra].
    change 0 with (inject_Z 0). rewrite <- Zle_Qle. lia.
  - pose proof (min_upper 1.0 (inject_Z (Z.of_nat i) * 0.1)). lra.
Qed.

(** X8: on an image without pixels the support/resistance finder takes its
    error branch: it reports 0 levels and an error, and neither strong levels
    nor the support/resistance flag.  On any other image it counts the
    detected lines within 5 degrees of the horizontal, reports
    support/resistance exactly when there are at least three, and returns
    min(5, count) strong levels in order of non-increasing strength, each
    with a strength between 0 and 1. *)
Theorem support_resistance_rule :
  forall (cv : libs) (image : raster),
    let n := Py.len (filter nearly_horizontal (sr_lines cv image)) in
    let r := _find_support_resistance_levels cv image in
    ((fst (shape image) * snd (shape image) = 0)%Z ->
     Levels.levels_detected r = Some 0%Z
     /\ Levels.strong_levels r = None
     /\ Levels.has_support_resistance r = None
     /\ Levels.error r <> None)
    /\ ((fst (shape image) * snd (shape image) <> 0)%Z ->
        Levels.levels_detected r = Some n
        /\ Levels.error r = None
        /\ (Levels.has_support_resistance r = Some true <-> (3 <= n)%Z)
        /\ (Levels.has_support_resistance r = Some false <-> (n < 3)%Z)
        /\ exists strong,
            Levels.strong_levels r = Some strong
            /\ Py.len strong = Z.min 5 n
            /\ StronglySorted
                 (fun a b => SRLevel.strength b <= SRLevel.strength a) strong
            /\ Forall (fun l => 0 <= SRLevel.strength l <= 1) strong).
Proof.
  intros cv image n r.
  set (lines := HoughLinesP cv (cvtColor_BGR2GRAY cv image) 100 50 10).
  assert (Hn : Py.len (sort_by_strength (collect_sr_levels lines)) = n).
  { unfold sort_by_strength. rewrite sort_len. subst n. unfold sr_lines.
    fold lines. destruct lines as [ls|].
    - apply collect_sr_levels_len.
    - reflexivity. }
  subst r. unfold _find_support_resistance_levels. fold lines.
  destruct (fst (shape image) * snd (shape image) =? 0)%Z eqn:Es.
  { apply Z.eqb_eq in Es. split; [|intro H; lia]. intros _.
    cbn. repeat split. discriminate. }
  apply Z.eqb_neq in Es. split; [intro H; contradiction|]. intros _.
  cbn [Levels.levels_detected Levels.error Levels.has_support_resistance
       Levels.strong_levels].
  rewrite Hn.
  split; [reflexivity|]. split; [reflexivity|].
  split; [|split].
  - destruct (2 <? n)%Z eqn:E.
    + apply Z.ltb_lt in E. split; [lia | reflexivity].
    + apply Z.ltb_ge in E. split; [discriminate | lia].
  - destruct (2 <? n)%Z eqn:E.
    + apply Z.ltb_lt in E. split; [discriminate | lia].
    + apply Z.ltb_ge in E. split; [lia | reflexivity].
  - eexists. split; [reflexivity|]. split; [|split].
    + unfold Py.len in *. rewrite length_firstn. lia.
    + apply StronglySorted_firstn. unfold sort_by_strength.
      apply StronglySorted_weaken
        with (R := fun a b =>
                     Qle_bool (SRLevel.strength b) (SRLevel.strength a) = true).
      * intros a b. apply Qle_bool_iff.
      * apply Sorted_StronglySorted.
        -- intros a b c Hab Hbc. apply Qle_bool_iff in Hab, Hbc.
           apply Qle_bool_iff. lra.
        -- apply sort_Sorted. intros a b.
           destruct (Qlt_le_dec (SRLevel.strength a) (SRLevel.strength b))
             as [H | H].
           ++ right. apply Qle_bool_iff. lra.
           ++ left. apply Qle_bool_iff. exact H.
    + apply Forall_forall. intros l Hl.
      apply (sr_strength_range lines).
      apply (sort_In (fun a b =>
                        Qle_bool (SRLevel.strength b) (SRLevel.strength a))).
      rewrite <- (firstn_skipn 5 _). apply in_or_app. left. exact Hl.
Qed.

(** *** Which levels are the strong ones *)

Lemma insert_sorted_past {A : Type} (before : A -> A -> bool) (x : A)
  (front rest : list A) :
  Forall (fun a => before a x = true) front ->
  Py.insert_sorted before x (front ++ rest)
  = front ++ Py.insert_sorted before x rest.
Proof.
  induction 1 as [|a front Ha _ IH]; cbn.
  - reflexivity.
  - rewrite Ha, IH. reflexivity.
Qed.

Lemma insert_sorted_front {A : Type} (before : A -> A -> bool) (x : A)
  (rest : list A) :
  match rest with
  | [] => True
  | b :: _ => before b x = false
  end ->
  Py.insert_sorted before x rest = x :: rest.
Proof.
  destruct rest as [|b rest]; cbn.
  - reflexivity.
  - intros ->. reflexivity.
Qed.

Lemma Sorted_by_index {A : Type} (R : A -> A -> Prop) (l : list A) :
  (forall i a b, nth_error l i = Some a -> nth_error l (S i) = Some b -> R a b) ->
  Sorted R l.
Proof.
  induction l as [|a l IH]; intro H; constructor.
  - apply IH. intros i x y Hx Hy. apply (H (S i)); assumption.
  - destruct l as [|b l]; constructor. apply (H 0%nat); reflexivity.
Qed.

Section Descending.

Context {A : Type} (key : A -> Q).

Let before (a b : A) : bool := Qle_bool (key b) (key a).

(** Sorting a strictly increasing list into descending order reverses it. *)
Lemma sort_increasing_fold (xs acc : list A) :
  Sorted (fun a b => key a < key b) xs ->
  match xs, acc with
  | x :: _, b :: _ => key b < key x
  | _, _ => True
  end ->
  fold_left (fun acc x => Py.insert_sorted before x acc) xs acc = rev xs ++ acc.
Proof.
  intro Hs. revert acc. induction Hs as [|x xs Hs IH Hhd]; intros acc Hacc.
  - reflexivity.
  - cbn [fold_left rev]. rewrite insert_sorted_front.
    + rewrite IH.
      * rewrite <- app_assoc. reflexivity.
      * destruct xs as [|y ys]; [exact I|]. inversion Hhd. assumption.
    + destruct acc as [|b acc]; [exact I|].
      unfold before. destruct (Qle_bool (key x) (key b)) eqn:E; [|reflexivity].
      apply Qle_bool_iff in E. exfalso. lra.
Qed.

(** Elements of the top key, arriving afterwards, queue up in front, in
    order of arrival. *)
Lemma sort_top_fold (top : Q) (xs front rest : list A) :
  Forall (fun a => key a == top) xs ->
  Forall (fun a => key a == top) front ->
  match rest with
  | [] => True
  | b :: _ => key b < top
  end ->
  fold_left (fun acc x => Py.insert_sorted before x acc) xs (front ++ rest)
  = front ++ xs ++ rest.
Proof.
  intro Hxs. revert front. induction Hxs as [|x xs Hx _ IH]; intros front Hf Hr.
  - reflexivity.
  - cbn [fold_left]. rewrite insert_sorted_past.
    + rewrite insert_sorted_front.
      * change (front ++ x :: rest) with (front ++ [x] ++ rest).
        rewrite app_assoc. rewrite IH.
        -- rewrite <- app_assoc. reflexivity.
        -- apply Forall_app. split; [exact Hf | constructor; [exact Hx | constructor]].
        -- exact Hr.
      * destruct rest as [|b rest]; [exact I|].
        unfold before. destruct (Qle_bool (key x) (key b)) eqn:E; [|reflexivity].
        apply Qle_bool_iff in E. exfalso. rewrite Hx in E. lra.
    + eapply Forall_impl; [|exact Hf]. intros a Ha. unfold before.
      apply Qle_bool_iff. rewrite Hx, Ha. lra.
Qed.

Lemma sort_increasing_then_top (top : Q) (low high : list A) :
  Sorted (fun a b => key a < key b) low ->
  Forall (fun a => key a < top) low ->
  Forall (fun a => key a == top) high ->
  Py.sort before (low ++ high) = high ++ rev low.
Proof.
  intros Hs Hlow Hhigh. unfold Py.sort. rewrite fold_left_app.
  rewrite (sort_increasing_fold low []); [|exact Hs | destruct low; exact I].
  rewrite app_nil_r.
  change (rev low) with ([] ++ rev low) at 1.
  rewrite (sort_top_fold top high [] (rev low) Hhigh); [reflexivity|constructor|].
  destruct (rev low) as [|b rest] eqn:E; [exact I|].
  rewrite Forall_forall in Hlow. apply Hlow. apply in_rev. rewrite E. left.
  reflexivity.
Qed.

End Descending.

Lemma strength_below_ten (i : nat) :
  (i < 10)%nat ->
  Py.min 1.0 (inject_Z (Z.of_nat i) * 0.1) == inject_Z (Z.of_nat i) * 0.1
  /\ Py.min 1.0 (inject_Z (Z.of_nat i) * 0.1) < 1.0.
Proof.
  intro H.
  assert (Hi : inject_Z (Z.of_nat i) <= inject_Z 9) by (rewrite <- Zle_Qle; lia).
  change (inject_Z 9) with 9 in Hi.
  unfold Py.min. destruct (Py.ltb (inject_Z (Z.of_nat i) * 0.1) 1.0) eqn:E.
  - split; lra.
  - apply ltb_ge in E. exfalso. lra.
Qed.

Lemma strength_from_ten (i : nat) :
  (10 <= i)%nat -> Py.min 1.0 (inject_Z (Z.of_nat i) * 0.1) == 1.0.
Proof.
  intro H.
  assert (Hi : inject_Z 10 <= inject_Z (Z.of_nat i))
    by (rewrite <- Zle_Qle; lia).
  change (inject_Z 10) with 10 in Hi.
  unfold Py.min. destruct (Py.ltb (inject_Z (Z.of_nat i) * 0.1) 1.0) eqn:E.
  - apply ltb_lt in E. exfalso. lra.
  - reflexivity.
Qed.

Lemma sr_sorted_order (lines : option (list segment)) :
  sort_by_strength (collect_sr_levels lines)
  = skipn 10 (collect_sr_levels lines)
    ++ rev (firstn 10 (collect_sr_levels lines)).
Proof.
  set (L := collect_sr_levels lines).
  assert (HL : forall i l, nth_error L i = Some l ->
                           SRLevel.strength l
                           = Py.min 1.0 (inject_Z (Z.of_nat i) * 0.1))
    by apply sr_strength_by_index.
  unfold sort_by_strength. rewrite <- (firstn_skipn 10 L) at 1.
  apply (sort_increasing_then_top SRLevel.strength 1.0).
  - apply Sorted_by_index. intros i a b Ha Hb.
    rewrite nth_error_firstn in Ha, Hb.
    destruct (Nat.ltb (S i) 10) eqn:E; [|discriminate].
    apply Nat.ltb_lt in E.
    destruct (Nat.ltb i 10) eqn:E'; [|discriminate].
    rewrite (HL i a Ha), (HL (S i) b Hb).
    destruct (strength_below_ten i ltac:(lia)) as [-> _].
    destruct (strength_below_ten (S i) ltac:(lia)) as [-> _].
    apply Qmult_lt_compat_r; [lra|]. rewrite <- Zlt_Qlt. lia.
  - apply Forall_forall. intros l Hl. apply In_nth_error in Hl.
    destruct Hl as [i Hi]. rewrite nth_error_firstn in Hi.
    destruct (Nat.ltb i 10) eqn:E; [|discriminate].
    apply Nat.ltb_lt in E. rewrite (HL i l Hi).
    apply (strength_below_ten i E).
  - apply Forall_forall. intros l Hl. apply In_nth_error in Hl.
    destruct Hl as [i Hi]. rewrite nth_error_skipn in Hi.
    rewrite (HL _ l Hi). apply strength_from_ten. lia.
Qed.

(** X9: which levels the support/resistance finder calls strong on an image
    with pixels.  The strength of a level only records how many levels were
    found before it, capped at 1.0 from the eleventh level on, and the sort
    is stable, so the sorted list is: the levels from the eleventh on in
    order of discovery, then the first ten in reverse order of discovery.
    Hence with at most ten levels the strong levels are the last five found,
    latest first, and with fifteen or more they are the eleventh to the
    fifteenth found. *)
Theorem strong_levels_by_discovery :
  forall (cv : libs) (image : raster),
    (fst (shape image) * snd (shape image) <> 0)%Z ->
    let found := sr_levels_found cv image in
    let r := _find_support_resistance_levels cv image in
    Levels.strong_levels r
    = Some (firstn 5 (skipn 10 found ++ rev (firstn 10 found)))
    /\ ((Py.len found <= 10)%Z ->
        Levels.strong_levels r = Some (firstn 5 (rev found)))
    /\ ((15 <= Py.len found)%Z ->
        Levels.strong_levels r = Some (firstn 5 (skipn 10 found))).
Proof.
  intros cv image Hs found r.
  assert (H : Levels.strong_levels r
              = Some (firstn 5 (skipn 10 found ++ rev (firstn 10 found)))).
  { subst r. unfold _find_support_resistance_levels.
    apply Z.eqb_neq in Hs. rewrite Hs.
    cbn [Levels.strong_levels]. fold (sr_levels_found cv image). fold found.
    unfold found, sr_levels_found. rewrite sr_sorted_order. reflexivity. }
  split; [exact H|]. split; intro Hlen; rewrite H; unfold Py.len in Hlen.
  - assert (Hn : (List.length found <= 10)%nat) by lia.
    rewrite (skipn_all2 found Hn), (firstn_all2 found Hn). reflexivity.
  - rewrite firstn_app.
    replace (5 - List.length (skipn 10 found))%nat with 0%nat
      by (rewrite length_skipn; lia).
    cbn [firstn]. rewrite app_nil_r. reflexivity.
Qed.

Lemma strong_levels_by_discovery_witness :
  (fst (shape Sample.striped) * snd (shape Sample.striped) <> 0)%Z
  /\ Py.len (sr_levels_found Sample.cv Sample.striped) = 3%Z
  /\ Levels.strong_levels
       (_find_support_resistance_levels Sample.cv Sample.striped)
     = Some (firstn 5 (rev (sr_levels_found Sample.cv Sample.striped))).
Proof.
  assert (Hs : (fst (shape Sample.striped) * snd (shape Sample.striped) <> 0)%Z)
    by (vm_compute; discriminate).
  split; [exact Hs|]. split; [reflexivity|].
  apply (proj1 (proj2 (strong_levels_by_discovery Sample.cv Sample.striped Hs))).
  vm_compute. discriminate.
Defined.

(** ** The volume analyzer *)

Lemma rectangular_skipn {A : Type} (w : Z) (n : nat) (img : list (list A)) :
  rectangular w img -> rectangular w (skipn n img).
Proof.
  unfold rectangular. revert img. induction n as [|n IH]; intros img H; cbn.
  - exact H.
  - destruct H; [constructor | apply IH; assumption].
Qed.

Lemma rectangular_shape {A : Type} (w : Z) (img : list (list A)) :
  rectangular w img -> (0 < Py.len img)%Z -> shape img = (Py.len img, w).
Proof.
  intros H Hlen. unfold shape. destruct H as [|row img Hrow _].
  - unfold Py.len in Hlen. cbn in Hlen. lia.
  - cbn [hd]. rewrite Hrow. reflexivity.
Qed.

(** The float 0.7 lies below the decimal, by less than 2 ^ -54. *)
Lemma float_seven_tenths :
  (7 # 10) - (1 # 18014398509481984) < Float.round 0.7 < 7 # 10.
Proof. split; vm_compute; reflexivity. Qed.

(** [int(height * 0.7)] for a height below 2 ^ 40: the float product is
    within one tenth of the exact 7h/10, so its integer part is that of
    7h/10, or one less when 7h/10 is an integer. *)
Lemma volume_start (h : Z) :
  (0 < h < 2 ^ 40)%Z ->
  let start := Py.int (Float.mul (inject_Z h) (Float.round 0.7)) in
  (start = h * 7 / 10 \/ start = h * 7 / 10 - 1 /\ h mod 10 = 0)%Z.
Proof.
  intros [Hpos Hmax] start.
  destruct float_seven_tenths as [Clo Chi].
  assert (H0 : 0 < inject_Z h)
    by (change 0 with (inject_Z 0); rewrite <- Zlt_Qlt; exact Hpos).
  assert (Hm : inject_Z h < 1099511627776).
  { change 1099511627776 with (inject_Z (2 ^ 40)). rewrite <- Zlt_Qlt. exact Hmax. }
  set (x := inject_Z h * Float.round 0.7).
  assert (Hx_hi : x < inject_Z h * (7 # 10))
    by (apply Qmult_lt_l; assumption).
  assert (Hx_lo : inject_Z h * ((7 # 10) - (1 # 18014398509481984)) < x)
    by (apply Qmult_lt_l; assumption).
  assert (Hx0 : 0 < x) by lra.
  pose proof (round_error x Hx0) as [Rlo Rhi].
  change (Float.mul (inject_Z h) (Float.round 0.7)) with (Float.round x) in start.
  set (r := Float.round x) in *.
  assert (Hr : inject_Z h * (7 # 10) - (1 # 10) < r
               < inject_Z h * (7 # 10) + (1 # 10)).
  { clearbody x r. split; lra. }
  pose proof (Z.div_mod (h * 7) 10 ltac:(lia)) as Hdm.
  pose proof (Z.mod_pos_bound (h * 7) 10 ltac:(lia)) as Hmod.
  set (q := (h * 7 / 10)%Z) in *. set (m := ((h * 7) mod 10)%Z) in *.
  assert (Hq : inject_Z h * (7 # 10) == inject_Z q + inject_Z m * (1 # 10)).
  { assert (E : inject_Z (h * 7) == inject_Z (10 * q + m)) by (rewrite Hdm; reflexivity).
    rewrite inject_Z_mult, inject_Z_plus, inject_Z_mult in E.
    change (inject_Z 7) with 7 in E. change (inject_Z 10) with 10 in E. lra. }
  assert (Hm0 : 0 <= inject_Z m <= 9).
  { split; [change 0 with (inject_Z 0) | change 9 with (inject_Z 9)];
      rewrite <- Zle_Qle; lia. }
  pose proof (Qfloor_le r) as Fle. pose proof (Qlt_floor r) as Flt.
  fold (Py.int r) in Fle, Flt. fold start in Fle, Flt.
  rewrite inject_Z_plus in Flt. change (inject_Z 1) with 1 in Flt.
  assert (Hup : (start <= q)%Z).
  { apply Z.lt_succ_r. unfold Z.succ. rewrite Zlt_Qlt, inject_Z_plus.
    change (inject_Z 1) with 1. clearbody x r start q m. lra. }
  assert (Hlow : (q - 1 <= start)%Z).
  { assert (H2 : inject_Z q < inject_Z (start + 2)).
    { rewrite inject_Z_plus. change (inject_Z 2) with 2.
      clearbody x r start q m. lra. }
    rewrite <- Zlt_Qlt in H2. lia. }
  destruct (Z.eq_dec start q) as [E | E]; [left; exact E | right].
  split; [lia|].
  assert (Hm1 : (m < 1)%Z).
  { rewrite Zlt_Qlt. change (inject_Z 1) with 1.
    assert (Es : inject_Z q == inject_Z start + 1).
    { assert (E' : q = (start + 1)%Z) by lia.
      rewrite E', inject_Z_plus. reflexivity. }
    clearbody x r start q m. lra. }
  assert (Em : m = 0%Z) by lia.
  subst m. clear - Em. 
  apply Z.mod_divide in Em; [|lia]. apply Z.mod_divide; [lia|].
  apply (Z.gauss 10 7 h); [rewrite Z.mul_comm; exact Em | reflexivity].
Qed.

(** X10: on an image of positive width and of a height below 2 ^ 40 the
    volume analyzer looks at the rows from [int(height * 0.7)] on.  This
    first row is the integer part of 7h/10 or, for some heights that are
    multiples of 10 (90 and 720 among them), the row above it, because the
    float product stays below the exact one.  The region has at least one
    row and at least three tenths of the rows, so the error branch is not
    taken, and volume is reported exactly when the density left by the
    opening in the region exceeds 0.005. *)
Theorem volume_rule :
  forall (cv : libs) (image : raster) (w : Z),
    (0 < Py.len image < 2 ^ 40)%Z -> (0 < w)%Z -> rectangular w image ->
    let h := Py.len image in
    let r := _analyze_volume_patterns cv image in
    exists start,
      start = Py.int (Float.mul (inject_Z h) (Float.round 0.7))
      /\ (start = h * 7 / 10 \/ start = h * 7 / 10 - 1 /\ h mod 10 = 0)%Z
      /\ (0 <= start < h)%Z /\ (3 * h <= 10 * (h - start))%Z
      /\ shape (rows_from start image) = ((h - start)%Z, w)
      /\ Volume.error r = None
      /\ Volume.volume_density r
         = Some (bar_density cv (rows_from start image))
      /\ (Volume.volume_present r = Some true
          /\ Volume.volume_pattern r = Some "bars_detected"
          /\ 0.005 < bar_density cv (rows_from start image)
          \/ Volume.volume_present r = Some false
             /\ Volume.volume_pattern r = Some "no_volume_visible"
             /\ bar_density cv (rows_from start image) <= 0.005).
Proof.
  intros cv image w Hh Hw Hrect. cbv zeta.
  assert (Hshape : shape image = (Py.len image, w))
    by (apply rectangular_shape; [assumption | lia]).
  remember (Py.len image) as h eqn:Eh.
  pose proof (volume_start h Hh) as Hstart. cbv zeta in Hstart.
  remember (Py.int (Float.mul (inject_Z h) (Float.round 0.7))) as start eqn:Es.
  assert (Hrange : (0 <= start < h)%Z /\ (3 * h <= 10 * (h - start))%Z).
  { pose proof (Z.div_mod (h * 7) 10 ltac:(lia)) as Hdm.
    pose proof (Z.mod_pos_bound (h * 7) 10 ltac:(lia)) as Hmod.
    destruct Hstart as [-> | [-> Hten]].
    - lia.
    - apply Z.mod_divide in Hten; [|lia]. destruct Hten as [t Ht]. lia. }
  destruct Hrange as [Hr0 Hr3].
  assert (Hlen : Py.len (rows_from start image) = (h - start)%Z).
  { unfold rows_from, Py.len. rewrite length_skipn.
    unfold Py.len in Eh. lia. }
  assert (Hrs : shape (rows_from start image) = ((h - start)%Z, w)).
  { rewrite <- Hlen. apply rectangular_shape.
    - unfold rows_from. apply rectangular_skipn. exact Hrect.
    - lia. }
  exists start.
  split; [reflexivity|]. split; [exact Hstart|]. split; [exact Hr0|].
  split; [exact Hr3|]. split; [exact Hrs|].
  unfold _analyze_volume_patterns.
  rewrite Hshape. rewrite <- Es. fold (rows_from start image).
  unfold bar_density. rewrite Hrs. cbn [fst snd].
  destruct ((h - start) * w =? 0)%Z eqn:E0; [apply Z.eqb_eq in E0; nia|].
  match goal with |- context [Py.ltb 0.005 ?d] =>
    destruct (Py.ltb 0.005 d) eqn:E
  end; cbn.
  - apply ltb_lt in E. split; [reflexivity|]. split; [reflexivity|].
    left. repeat split. exact E.
  - apply ltb_ge in E. split; [reflexivity|]. split; [reflexivity|].
    right. repeat split. exact E.
Qed.

Lemma volume_rule_witness :
  Volume.error (_analyze_volume_patterns Sample.cv Sample.striped) = None
  /\ Volume.volume_present (_analyze_volume_patterns Sample.cv Sample.striped)
     = Some true.
Proof.
  assert (Hrect : rectangular 8 Sample.striped) by (repeat constructor).
  destruct (volume_rule Sample.cv Sample.striped 8
              (conj eq_refl eq_refl) eq_refl Hrect)
    as (start & Es & _ & _ & _ & _ & He & _ & [(Hp & _) | (_ & _ & Hd)]).
  - split; [exact He | exact Hp].
  - exfalso. revert Hd. rewrite Es. vm_compute. intro H. apply H. reflexivity.
Defined.

(** Heights at which the first row is not the integer part of 7h/10. *)
Lemma volume_start_below :
  Py.int (Float.mul (inject_Z 90) (Float.round 0.7)) = 62%Z
  /\ Py.int (Float.mul (inject_Z 720) (Float.round 0.7)) = 503%Z
  /\ Py.int (Float.mul (inject_Z 100) (Float.round 0.7)) = 70%Z.
Proof. vm_compute. repeat split. Qed.

(** ** Colour counts of the trend analyzer *)

Lemma green_not_red (p : pixel) : green_pixel p = true -> red_pixel p = false.
Proof.
  destruct p as [[h s] v]. unfold green_pixel, red_pixel, pixel_in_range, between.
  intro H. rewrite !andb_true_iff in H. destruct H as [[[H1 H2] _] _].
  apply Z.leb_le in H1, H2.
  apply orb_false_iff. split; rewrite !andb_false_iff; left; left.
  - right. apply Z.leb_gt. lia.
  - left. apply Z.leb_gt. lia.
Qed.

Lemma disjoint_counts {A : Type} (f g : A -> bool) (l : list A) :
  (forall x, f x = true -> g x = false) ->
  (List.length (filter f l) + List.length (filter g l) <= List.length l)%nat.
Proof.
  intro H. induction l as [|x l IH]; cbn; [lia|].
  destruct (f x) eqn:E.
  - rewrite (H x E). cbn. lia.
  - destruct (g x); cbn; lia.
Qed.

Lemma rectangular_pixels {A : Type} (w : Z) (img : list (list A)) :
  rectangular w img ->
  Py.len (List.concat img) = (Py.len img * w)%Z.
Proof.
  unfold Py.len. induction 1 as [|row img Hrow _ IH]; cbn [List.concat].
  - reflexivity.
  - rewrite length_app. cbn [List.length]. unfold Py.len in Hrow. lia.
Qed.

Lemma hsv_rectangular (cv : libs) (w : Z) (image : raster) :
  rectangular w image -> rectangular w (cvtColor_BGR2HSV cv image).
Proof.
  unfold rectangular, cvtColor_BGR2HSV. intro H. apply Forall_map.
  eapply Forall_impl; [|exact H]. intros row Hrow.
  unfold Py.len in *. rewrite length_map. exact Hrow.
Qed.

(** X11: no pixel is counted both as green and as red, so on an image of
    positive height and width the two ratios the trend analyzer reports are
    non-negative and sum to at most 1; and whenever the trend is not
    "neutral" its confidence is above 0.7 and at most 0.95. *)
Theorem trend_ratios :
  forall (cv : libs) (image : raster) (w : Z),
    (0 < Py.len image)%Z -> (0 < w)%Z -> rectangular w image ->
    let r := _analyze_trend_colors cv image in
    exists g rd c,
      Trend.green_ratio r = Some g
      /\ Trend.red_ratio r = Some rd
      /\ Trend.confidence r = Some c
      /\ Trend.error r = None
      /\ 0 <= g /\ 0 <= rd /\ g + rd <= 1
      /\ (Trend.trend r = Some "neutral" /\ c = 0.5
          \/ (Trend.trend r = Some "bullish" \/ Trend.trend r = Some "bearish")
             /\ 0.7 < c <= 0.95).
Proof.
  intros cv image w Hh Hw Hrect. cbv zeta.
  pose proof (rectangular_shape w image Hrect Hh) as Hshape.
  set (hsv := cvtColor_BGR2HSV cv image).
  assert (Htotal : Py.len (List.concat hsv) = (Py.len image * w)%Z).
  { unfold hsv. rewrite (rectangular_pixels w) by (apply hsv_rectangular; exact Hrect).
    unfold cvtColor_BGR2HSV, Py.len. rewrite length_map. reflexivity. }
  pose proof (disjoint_counts green_pixel red_pixel (List.concat hsv) green_not_red)
    as Hdis.
  assert (Hpos : (0 < Py.len image * w)%Z) by nia.
  set (gc := Py.len (filter green_pixel (List.concat hsv))).
  set (rc := Py.len (filter red_pixel (List.concat hsv))).
  assert (Hg : green_fraction cv image == inject_Z gc / inject_Z (Py.len image * w)).
  { unfold green_fraction. rewrite green_count_pixels, Hshape. reflexivity. }
  assert (Hr : red_fraction cv image == inject_Z rc / inject_Z (Py.len image * w)).
  { unfold red_fraction. rewrite red_count_pixels, Hshape. reflexivity. }
  assert (Hsum : (0 <= gc /\ 0 <= rc /\ gc + rc <= Py.len image * w)%Z).
  { subst gc rc. unfold Py.len in *. lia. }
  assert (Hq : 0 < inject_Z (Py.len image * w))
    by (change 0 with (inject_Z 0); rewrite <- Zlt_Qlt; exact Hpos).
  assert (Hbounds : 0 <= green_fraction cv image
                    /\ 0 <= red_fraction cv image
                    /\ green_fraction cv image + red_fraction cv image <= 1).
  { rewrite Hg, Hr. split; [|split].
    - apply Qle_shift_div_l; [exact Hq|]. rewrite Qmult_0_l.
      change 0 with (inject_Z 0). rewrite <- Zle_Qle. lia.
    - apply Qle_shift_div_l; [exact Hq|]. rewrite Qmult_0_l.
      change 0 with (inject_Z 0). rewrite <- Zle_Qle. lia.
    - unfold Qdiv. rewrite <- Qmult_plus_distr_l. rewrite <- inject_Z_plus.
      apply Qle_shift_div_r; [exact Hq|]. rewrite Qmult_1_l.
      rewrite <- Zle_Qle. lia. }
  unfold _analyze_trend_colors. rewrite Hshape. cbn [fst snd].
  destruct (Py.len image * w =? 0)%Z eqn:E0; [apply Z.eqb_eq in E0; lia|].
  destruct (Py.ltb (red_fraction cv image) (green_fraction cv image)
            && Py.ltb 0.02 (green_fraction cv image)) eqn:E1.
  - apply andb_true_iff in E1. destruct E1 as [_ E1]. apply ltb_lt in E1.
    eexists. eexists. eexists. cbn.
    repeat (split; [first [reflexivity | apply Hbounds]|]).
    right. split; [left; reflexivity|]. split.
    + unfold Py.min. destruct (Py.ltb _ 0.95); lra.
    + apply min_upper.
  - destruct (Py.ltb (green_fraction cv image) (red_fraction cv image)
              && Py.ltb 0.02 (red_fraction cv image)) eqn:E2.
    + apply andb_true_iff in E2. destruct E2 as [_ E2]. apply ltb_lt in E2.
      eexists. eexists. eexists. cbn.
      repeat (split; [first [reflexivity | apply Hbounds]|]).
      right. split; [right; reflexivity|]. split.
      * unfold Py.min. destruct (Py.ltb _ 0.95); lra.
      * apply min_upper.
    + eexists. eexists. eexists. cbn.
      repeat (split; [first [reflexivity | apply Hbounds]|]).
      left. split; reflexivity.
Qed.

Lemma trend_ratios_witness :
  exists g rd,
    Trend.green_ratio (_analyze_trend_colors Sample.cv Sample.green) = Some g
    /\ Trend.red_ratio (_analyze_trend_colors Sample.cv Sample.green) = Some rd
    /\ g + rd <= 1.
Proof.
  assert (Hrect : rectangular 2 Sample.green) by (repeat constructor).
  destruct (trend_ratios Sample.cv Sample.green 2 eq_refl eq_refl Hrect)
    as (g & rd & c & Hg & Hr & _ & _ & _ & _ & Hsum & _).
  exists g, rd. repeat split; assumption.
Defined.

(** ** The reasons of the weighted path *)

Lemma fused_reasons (tt pd : string) (tc ps : Q) (patterns : Patterns.t)
  (levels : Levels.t) :
  let i := {| FusionSpec.trend_type := tt;
              FusionSpec.trend_confidence := tc;
              FusionSpec.pattern_detected :=
                Py.dict_get (Patterns.pattern_detected patterns) false;
              FusionSpec.pattern_confidence :=
                Py.dict_get (Patterns.confidence patterns) 0.5;
              FusionSpec.price_direction := pd;
              FusionSpec.price_strength := ps;
              FusionSpec.has_levels :=
                Py.dict_get (Levels.has_support_resistance levels) false |} in
  let st := fst (fuse_default
                   (fuse_levels levels
                      (fuse_price_action pd ps
                         (fuse_patterns patterns
                            (fuse_trend tt tc fusion_init))))) in
  reasons st = reasons_of i
  /\ (1 <= List.length (reasons_of i) <= 4)%nat
  /\ (In DefaultBearishBias (reasons_of i) <-> FusionSpec.direction i = None)
  /\ (FusionSpec.direction i = None ->
      last (reasons_of i) LevelsIdentified = DefaultBearishBias).
Proof.
  cbv zeta.
  unfold fuse_default, fuse_levels, fuse_price_action, fuse_patterns,
    fuse_trend, fusion_init, reasons_of, FusionSpec.direction.
  cbn [FusionSpec.trend_type FusionSpec.trend_confidence
       FusionSpec.pattern_detected FusionSpec.pattern_confidence
       FusionSpec.price_direction FusionSpec.price_strength
       FusionSpec.has_levels].
  destruct (tt =? "bearish")%string, (tt =? "bullish")%string,
    (Py.dict_get (Patterns.pattern_detected patterns) false),
    (pd =? "downward")%string, (pd =? "upward")%string,
    (Py.dict_get (Levels.has_support_resistance levels) false);
    cbn; (split; [reflexivity|]); (split; [lia|]);
    (split; [split; [intro H; try reflexivity;
                     repeat (destruct H as [H | H]; try discriminate H);
                     try contradiction
                    | intro H; try discriminate H; auto 6]
            | intro H; try reflexivity; discriminate H]).
Qed.

(** X12: the reasoning of a signal of the weighted path lists its reasons in
    evaluation order: trend, candlestick pattern, price action,
    support/resistance, default bias, each only if it applied.  There are
    between one and four of them; the default bearish bias is among them
    exactly when neither the trend nor the price action set a direction, and
    it is then the last one. *)
Theorem weighted_reasoning :
  forall analysis : Analysis.t,
    Py.dict_get
      (ExistingTrade.has_existing_trade
         (Py.dict_get (Analysis.existing_trade analysis) ExistingTrade.empty))
      false = false ->
    let i := FusionSpec.inputs_of analysis in
    Signal.reasoning (_generate_trading_signal analysis)
    = PythonCVAnalysis (reasons_of i)
    /\ (1 <= List.length (reasons_of i) <= 4)%nat
    /\ (In DefaultBearishBias (reasons_of i) <-> FusionSpec.direction i = None)
    /\ (FusionSpec.direction i = None ->
        last (reasons_of i) LevelsIdentified = DefaultBearishBias).
Proof.
  intros analysis Hno i. subst i.
  unfold _generate_trading_signal. rewrite Hno.
  unfold FusionSpec.inputs_of.
  set (trend := Py.dict_get (Analysis.trend_analysis analysis) Trend.empty).
  set (patterns :=
         Py.dict_get (Analysis.candlestick_patterns analysis) Patterns.empty).
  set (levels := Py.dict_get (Analysis.support_resistance analysis) Levels.empty).
  set (pa := Py.dict_get (Analysis.price_action analysis) PriceAction.empty).
  destruct (fused_reasons (Py.dict_get (Trend.trend trend) "neutral")
              (Py.dict_get (PriceAction.trend_direction pa) "unclear")
              (Py.dict_get (Trend.confidence trend) 0.5)
              (Py.dict_get (PriceAction.trend_strength pa) 0.5)
              patterns levels) as (Hr & Hrest).
  cbv zeta in Hr, Hrest.
  split; [|exact Hrest].
  rewrite <- Hr.
  destruct (fuse_default _) as [st d]. cbn [fst].
  unfold weighted_signal. destruct (d =? "sell")%string; reflexivity.
Qed.

Lemma weighted_reasoning_witness :
  Signal.reasoning (_generate_trading_signal Sample.bullish_analysis)
  = PythonCVAnalysis
      [BullishTrend 0.95; PatternsIdentified 0.9; DownwardAction 0.7;
       LevelsIdentified].
Proof.
  exact (proj1 (weighted_reasoning Sample.bullish_analysis eq_refl)).
Defined.

(** ** Decoding a data URL and a bare payload *)

Lemma append_empty (s : string) : (s ++ "")%string = s.
Proof. induction s as [|c s IH]; cbn; [reflexivity | now rewrite IH]. Qed.

Lemma list_ascii_app (a b : string) :
  list_ascii_of_string (a ++ b)%string
  = list_ascii_of_string a ++ list_ascii_of_string b.
Proof. induction a as [|c a IH]; cbn; [reflexivity | now rewrite IH]. Qed.

Lemma lstrip_spaces (ws rest : list ascii) :
  forallb isspace ws = true -> lstrip (ws ++ rest) = lstrip rest.
Proof.
  induction ws as [|c ws IH]; cbn; intro H; [reflexivity|].
  apply andb_true_iff in H. destruct H as [Hc Hws]. rewrite Hc. apply IH, Hws.
Qed.

Lemma lstrip_keeps (body : list ascii) :
  forallb (fun c => negb (isspace c)) body = true -> lstrip body = body.
Proof.
  destruct body as [|c body]; cbn; [reflexivity|].
  intro H. apply andb_true_iff in H. destruct H as [Hc _].
  apply negb_true_iff in Hc. rewrite Hc. reflexivity.
Qed.

Lemma forallb_reversed {A : Type} (f : A -> bool) (l : list A) :
  forallb f l = true -> forallb f (rev l) = true.
Proof.
  rewrite !forallb_forall. intros H x Hx. apply H. apply in_rev. exact Hx.
Qed.

Lemma strip_padded (ws1 body ws2 : string) :
  all_chars isspace ws1 = true ->
  all_chars isspace ws2 = true ->
  all_chars (fun c => negb (isspace c)) body = true ->
  strip (ws1 ++ body ++ ws2) = body.
Proof.
  unfold all_chars, strip. intros H1 H2 Hb.
  rewrite !list_ascii_app.
  rewrite (lstrip_spaces _ _ H1).
  set (b := list_ascii_of_string body) in *.
  set (w := list_ascii_of_string ws2) in *.
  assert (Hl : lstrip (b ++ w) = b ++ w \/ (b = [] /\ lstrip (b ++ w) = [])).
  { destruct b as [|c b'].
    - right. split; [reflexivity|]. cbn.
      rewrite <- (app_nil_r w). rewrite (lstrip_spaces _ _ H2). reflexivity.
    - left. cbn in Hb. apply andb_true_iff in Hb. destruct Hb as [Hc _].
      apply negb_true_iff in Hc. cbn. rewrite Hc. reflexivity. }
  destruct Hl as [-> | [Eb ->]].
  - rewrite rev_app_distr.
    rewrite lstrip_spaces by (apply forallb_reversed; exact H2).
    rewrite lstrip_keeps by (apply forallb_reversed; exact Hb).
    rewrite rev_involutive. subst b. apply string_of_list_ascii_of_string.
  - cbn. destruct body; [reflexivity | discriminate Eb].
Qed.

Lemma base64_not_space (c : ascii) :
  base64_char c = true -> isspace c = false.
Proof.
  unfold base64_char, isspace. set (n := nat_of_ascii c). intro H.
  rewrite !orb_true_iff, !andb_true_iff, !Nat.leb_le, !Nat.eqb_eq in H.
  apply orb_false_iff. split; apply andb_false_iff;
    rewrite !Nat.leb_gt; lia.
Qed.

Lemma base64_plain (c : ascii) :
  base64_char c = true -> c <> ","%char /\ c <> ":"%char.
Proof.
  intro H. split; intros ->; discriminate H.
Qed.

Lemma space_plain (c : ascii) :
  isspace c = true -> c <> ","%char /\ c <> ":"%char.
Proof.
  intro H. split; intros ->; discriminate H.
Qed.

Lemma contains_In (sep : ascii) (s : string) :
  contains sep s = true <-> In sep (list_ascii_of_string s).
Proof.
  induction s as [|c s IH]; cbn.
  - split; [discriminate | tauto].
  - rewrite orb_true_iff, IH, Ascii.eqb_eq. tauto.
Qed.

Lemma prefix_data_has_colon (s : string) :
  String.prefix "data:" s = true -> In ":"%char (list_ascii_of_string s).
Proof.
  destruct s as [|c1 [|c2 [|c3 [|c4 [|c5 rest]]]]]; cbn -[ascii_dec];
    repeat match goal with
           | |- context [ascii_dec ?a ?b] => destruct (ascii_dec a b)
           end; try discriminate.
  subst. intros _. cbn. auto 6.
Qed.

(** A string of whitespace and base64 characters holds no comma and does not
    start with "data:". *)
Lemma padded_payload_plain (ws1 body ws2 : string) :
  all_chars isspace ws1 = true ->
  all_chars isspace ws2 = true ->
  all_chars base64_char body = true ->
  contains "," (ws1 ++ body ++ ws2) = false
  /\ String.prefix "data:" (ws1 ++ body ++ ws2) = false.
Proof.
  unfold all_chars. intros H1 H2 Hb.
  assert (Hall : forall c, In c (list_ascii_of_string (ws1 ++ body ++ ws2)%string) ->
                           c <> ","%char /\ c <> ":"%char).
  { intros c Hc. rewrite !list_ascii_app in Hc.
    rewrite forallb_forall in H1, H2, Hb.
    apply in_app_or in Hc. destruct Hc as [Hc | Hc].
    - apply space_plain, H1, Hc.
    - apply in_app_or in Hc. destruct Hc as [Hc | Hc].
      + apply base64_plain, Hb, Hc.
      + apply space_plain, H2, Hc. }
  split.
  - destruct (contains "," (ws1 ++ body ++ ws2)%string) eqn:E; [|reflexivity].
    apply contains_In in E. destruct (Hall _ E) as [Hne _]. congruence.
  - destruct (String.prefix "data:" (ws1 ++ body ++ ws2)%string) eqn:E;
      [|reflexivity].
    apply prefix_data_has_colon in E. destruct (Hall _ E) as [_ Hne]. congruence.
Qed.

(** X13: a base64 payload decodes to the same image whether it is passed
    bare or inside a data URL, and whitespace around it does not matter:
    for a payload of base64 characters, [_decode_image] gives the same result
    on "data:<meta>,<payload>" (meta without a comma), on the payload itself
    and on either with spaces or line breaks around the payload. *)
Theorem decode_ignores_wrapping :
  forall (cv : libs) (meta ws1 payload ws2 : string),
    contains "," meta = false ->
    all_chars isspace ws1 = true ->
    all_chars isspace ws2 = true ->
    all_chars base64_char payload = true ->
    _decode_image cv ("data:" ++ meta ++ "," ++ ws1 ++ payload ++ ws2)%string
    = _decode_image cv payload
    /\ _decode_image cv (ws1 ++ payload ++ ws2)%string
       = _decode_image cv payload.
Proof.
  intros cv meta ws1 payload ws2 Hmeta H1 H2 Hb.
  assert (Hns : all_chars (fun c => negb (isspace c)) payload = true).
  { unfold all_chars in *. rewrite forallb_forall in *. intros c Hc.
    rewrite (base64_not_space c (Hb c Hc)). reflexivity. }
  destruct (padded_payload_plain ws1 payload ws2 H1 H2 Hb) as [Hc Hp].
  assert (Hbare : remove_data_url_prefix payload = Some payload).
  { destruct (padded_payload_plain "" payload "" eq_refl eq_refl Hb) as [_ Hp'].
    change ("" ++ payload ++ "")%string with (payload ++ "")%string in Hp'.
    rewrite append_empty in Hp'.
    unfold remove_data_url_prefix. rewrite Hp'. reflexivity. }
  assert (Hstrip : strip payload = payload).
  { pose proof (strip_padded "" payload "" eq_refl eq_refl Hns) as E.
    change ("" ++ payload ++ "")%string with (payload ++ "")%string in E.
    rewrite append_empty in E. exact E. }
  rewrite (decode_payload cv payload payload Hbare), Hstrip.
  split.
  - rewrite (decode_payload cv _ (ws1 ++ payload ++ ws2)%string).
    + rewrite (strip_padded ws1 payload ws2 H1 H2 Hns). reflexivity.
    + rewrite (remove_prefix_of_data_url meta _ Hmeta).
      rewrite (split_no_sep "," _ Hc). reflexivity.
  - rewrite (decode_payload cv _ (ws1 ++ payload ++ ws2)%string).
    + rewrite (strip_padded ws1 payload ws2 H1 H2 Hns). reflexivity.
    + unfold remove_data_url_prefix. rewrite Hp. reflexivity.
Qed.

Lemma decode_ignores_wrapping_witness :
  _decode_image Sample.cv ("data:image/png;base64, " ++ Sample.payload ++ " ")%string
  = _decode_image Sample.cv Sample.payload.
Proof.
  apply (proj1 (decode_ignores_wrapping Sample.cv "image/png;base64" " "
                  Sample.payload " " eq_refl eq_refl eq_refl eq_refl)).
Defined.

(** * Further properties: python-backend/app.py *)

(** ** [convert_numpy_types] *)









(** What the conversion leaves behind: a NumPy boolean in a list, a NumPy
    integer in a tuple, one used as a key and one held by an object array,
    which a second conversion removes. *)
Lemma convert_numpy_types_leftovers :
  convert_numpy_types
    (PyDict [(PyStr "flags", PyList [NpBool true; NpInteger 3]);
             (NpInteger 7, PyTuple [NpInteger 1]);
             (PyStr "levels", NpArray (NdDim [NdInt 1; NdFloat 0.5]));
             (PyStr "objects", NpArray (NdDim [NdObject (NpInteger 2)]))])
  = PyDict [(PyStr "flags", PyList [NpBool true; PyInt 3]);
            (NpInteger 7, PyTuple [NpInteger 1]);
            (PyStr "levels", PyList [PyInt 1; PyFloat 0.5]);
            (PyStr "objects", PyList [NpInteger 2])]
  /\ convert_numpy_types (PyList [NpInteger 2]) = PyList [PyInt 2].
Proof. split; reflexivity. Qed.

(** * Further properties: python-backend/advanced_ocr.py *)

(** ** The engine wrappers *)




Lemma len_positive {A : Type} (xs : list A) :
  xs <> [] -> 0 < inject_Z (Py.len xs).
Proof.
  intro H. destruct xs as [|x xs]; [congruence|].
  unfold Py.len. cbn [List.length]. rewrite Nat2Z.inj_succ.
  change 0 with (inject_Z 0). rewrite <- Zlt_Qlt. lia.
Qed.






(** ** Whitespace *)

Lemma lstrip_nil_iff (cs : list ascii) :
  lstrip cs = [] <-> forallb isspace cs = true.
Proof.
  induction cs as [|c cs IH]; cbn; [tauto|].
  destruct (isspace c); cbn; [exact IH|]. split; discriminate.
Qed.

Lemma lstrip_head (cs : list ascii) :
  match lstrip cs with
  | [] => True
  | c :: _ => isspace c = false
  end.
Proof.
  induction cs as [|c cs IH]; cbn; [exact I|].
  destruct (isspace c) eqn:E; [exact IH | exact E].
Qed.

Lemma forallb_reversal {A : Type} (f : A -> bool) (xs : list A) :
  forallb f (rev xs) = forallb f xs.
Proof.
  induction xs as [|x xs IH]; cbn; [reflexivity|].
  rewrite forallb_app, IH. cbn. rewrite andb_true_r. apply andb_comm.
Qed.

Lemma string_of_list_nil (cs : list ascii) :
  string_of_list_ascii cs = EmptyString <-> cs = [].
Proof. destruct cs; cbn; split; congruence. Qed.

Lemma strip_empty_iff (s : string) :
  strip s = EmptyString <-> all_chars isspace s = true.
Proof.
  unfold strip, all_chars. set (cs := list_ascii_of_string s).
  rewrite string_of_list_nil. split.
  - intro H. apply (f_equal (@rev ascii)) in H. rewrite rev_involutive in H.
    cbn in H. apply lstrip_nil_iff in H. rewrite forallb_reversal in H.
    pose proof (lstrip_head cs) as Hh.
    destruct (lstrip cs) as [|c rest] eqn:E.
    + apply lstrip_nil_iff, E.
    + cbn in H. rewrite Hh in H. discriminate.
  - intro H. apply lstrip_nil_iff in H. rewrite H. reflexivity.
Qed.

Lemma split_words_nil (cs : list ascii) :
  word_list cs = [] <-> forallb isspace cs = true.
Proof.
  unfold word_list. induction cs as [|c cs IH]; cbn; [tauto|].
  destruct (split_words cs) as [word others].
  destruct (isspace c); cbn; [exact IH|]. split; discriminate.
Qed.

Lemma no_words_iff (s : string) :
  Py.len (words s) = 0%Z <-> strip s = EmptyString.
Proof.
  rewrite strip_empty_iff. unfold words, all_chars, Py.len.
  rewrite <- split_words_nil, length_map.
  destruct (word_list (list_ascii_of_string s)); cbn [List.length].
  - tauto.
  - split; [lia | discriminate].
Qed.

(** ** Tesseract's wrapper *)

Lemma sum_Z_from (xs : list Z) (start : Z) :
  fold_left Z.add xs start = (start + fold_left Z.add xs 0)%Z.
Proof.
  revert start. induction xs as [|x xs IH]; intro start; cbn.
  - lia.
  - rewrite (IH (start + x)%Z), (IH x). lia.
Qed.

Lemma sum_Z_lower (lo : Z) (xs : list Z) :
  Forall (fun n => (lo <= n)%Z) xs -> (lo * Py.len xs <= sum_Z xs)%Z.
Proof.
  unfold sum_Z, Py.len. induction 1 as [|x xs Hx _ IH]; cbn [fold_left List.length].
  - lia.
  - rewrite sum_Z_from. cbn [Z.add]. rewrite Nat2Z.inj_succ. lia.
Qed.

Lemma sum_Z_upper (hi : Z) (xs : list Z) :
  Forall (fun n => (n <= hi)%Z) xs -> (sum_Z xs <= hi * Py.len xs)%Z.
Proof.
  unfold sum_Z, Py.len. induction 1 as [|x xs Hx _ IH]; cbn [fold_left List.length].
  - lia.
  - rewrite sum_Z_from. cbn [Z.add]. rewrite Nat2Z.inj_succ. lia.
Qed.

Lemma int_trunc_le (x : Q) (k : Z) :
  x <= inject_Z k -> (0 < int_trunc x)%Z -> (int_trunc x <= k)%Z.
Proof.
  unfold int_trunc. destruct (Qle_bool 0 x) eqn:E; intros H Hpos.
  - rewrite <- (Qfloor_Z k). apply Qfloor_resp_le, H.
  - assert (x < 0).
    { apply Qnot_le_lt. intro Hle. apply Qle_bool_iff in Hle. congruence. }
    assert (0 <= Qfloor (- x))%Z.
    { rewrite <- (Qfloor_Z 0). apply Qfloor_resp_le.
      change (inject_Z 0) with 0. lra. }
    lia.
Qed.

(** X16: when Tesseract returns, its wrapper averages the word confidences
    that truncate to a positive integer: the reported confidence is 0 when
    there is none and at least 0.01 otherwise, at most 1 when the engine's
    confidences are at most 100, and the word count is 0 exactly when the
    stripped text is empty. *)
Theorem tesseract_confidence (ocr : ocr_libs) (image : plane)
  (text : string) (conf : list Q) :
  image_to_string ocr image = Returned text ->
  image_to_data_conf ocr image = Returned conf ->
  let r := _extract_with_tesseract ocr image in
  EngineResult.text r = Some (strip text)
  /\ EngineResult.error r = None
  /\ (EngineResult.word_count r = Some 0%Z <-> strip text = EmptyString)
  /\ exists raw c,
       EngineResult.raw_confidences r = Some raw
       /\ EngineResult.confidence r = Some c
       /\ Forall (fun n => (1 <= n)%Z) raw
       /\ (raw = [] -> c == 0)
       /\ (raw <> [] -> 0.01 <= c)
       /\ (Forall (fun x => x <= 100) conf -> c <= 1).
Proof.
  intros Ht Hc r. subst r. unfold _extract_with_tesseract. rewrite Ht, Hc.
  cbn [EngineResult.text EngineResult.error EngineResult.word_count
       EngineResult.raw_confidences EngineResult.confidence].
  split; [reflexivity|]. split; [reflexivity|]. split.
  { rewrite <- no_words_iff. split; [intro H; congruence | intros ->; reflexivity]. }
  set (raw := map int_trunc (filter (fun c => (0 <? int_trunc c)%Z) conf)).
  assert (Hpos : Forall (fun n => (1 <= n)%Z) raw).
  { apply Forall_forall. intros n Hn. apply in_map_iff in Hn.
    destruct Hn as (x & <- & Hx). apply filter_In in Hx.
    destruct Hx as [_ Hx]. apply Z.ltb_lt in Hx. lia. }
  exists raw. eexists. split; [reflexivity|]. split; [reflexivity|].
  split; [exact Hpos|].
  destruct raw as [|n raw'] eqn:Er.
  - split; [reflexivity|]. split; [congruence|]. intros _. unfold Qdiv. cbn. lra.
  - assert (Hlen : 0 < inject_Z (Py.len (n :: raw')))
      by (apply len_positive; congruence).
    split; [congruence|]. split.
    + intros _.
      pose proof (sum_Z_lower 1 _ Hpos) as Hs.
      assert (Hq : inject_Z (Py.len (n :: raw')) <= inject_Z (sum_Z (n :: raw')))
        by (rewrite <- Zle_Qle; lia).
      apply Qle_shift_div_l; [reflexivity|].
      apply Qle_shift_div_l; [exact Hlen|]. lra.
    + intro Hhi.
      assert (Hup : Forall (fun k => (k <= 100)%Z) (n :: raw')).
      { rewrite <- Er. apply Forall_forall. intros k Hk. apply in_map_iff in Hk.
        destruct Hk as (x & <- & Hx). apply filter_In in Hx.
        destruct Hx as [Hin Hx]. apply Z.ltb_lt in Hx.
        rewrite Forall_forall in Hhi. apply int_trunc_le; [|exact Hx].
        apply (Hhi x Hin). }
      pose proof (sum_Z_upper 100 _ Hup) as Hs.
      assert (Hq : inject_Z (sum_Z (n :: raw'))
                   <= 100 * inject_Z (Py.len (n :: raw'))).
      { change 100 with (inject_Z 100). rewrite <- inject_Z_mult, <- Zle_Qle. lia. }
      apply Qle_shift_div_r; [reflexivity|].
      apply Qle_shift_div_r; [exact Hlen|]. lra.
Qed.

Lemma tesseract_confidence_witness :
  image_to_string SampleOcr.readers SampleOcr.image = Returned "ETH short 3300  "
  /\ image_to_data_conf SampleOcr.readers SampleOcr.image
     = Returned [-1; 96; 90.5; 0]
  /\ EngineResult.text (_extract_with_tesseract SampleOcr.readers SampleOcr.image)
     = Some "ETH short 3300".
Proof.
  split; [reflexivity|]. split; [reflexivity|].
  pose proof (tesseract_confidence SampleOcr.readers SampleOcr.image _ _
                eq_refl eq_refl) as (Ht & _).
  rewrite Ht. reflexivity.
Defined.

(** ** Cleaning the recognised text *)

Lemma lstrip_fixed (cs : list ascii) :
  match cs with
  | [] => True
  | c :: _ => isspace c = false
  end -> lstrip cs = cs.
Proof. destruct cs as [|c cs]; cbn; [reflexivity|]. intros ->. reflexivity. Qed.

Lemma collapse_true_head (cs : list ascii) :
  match collapse_spaces true cs with
  | [] => True
  | c :: _ => isspace c = false
  end.
Proof.
  induction cs as [|c cs IH]; cbn; [exact I|].
  destruct (isspace c) eqn:E; [exact IH | exact E].
Qed.

Lemma collapse_false_lead (cs : list ascii) :
  collapse_spaces false cs
  = match cs with
    | [] => []
    | c :: _ => if isspace c then [" "%char] else []
    end ++ collapse_spaces true cs.
Proof.
  destruct cs as [|c cs]; cbn; [reflexivity|].
  destruct (isspace c); reflexivity.
Qed.

Lemma lstrip_collapse (cs : list ascii) :
  lstrip (collapse_spaces false cs) = collapse_spaces true cs.
Proof.
  rewrite collapse_false_lead.
  rewrite lstrip_spaces.
  - apply lstrip_fixed, collapse_true_head.
  - destruct cs as [|c cs]; [reflexivity|]. destruct (isspace c); reflexivity.
Qed.

Lemma word_list_space (c : ascii) (cs : list ascii) :
  isspace c = true -> word_list (c :: cs) = word_list cs.
Proof.
  intro H. unfold word_list. cbn. destruct (split_words cs) as [w ws].
  rewrite H. reflexivity.
Qed.

Lemma word_list_letter (c : ascii) (cs : list ascii) :
  isspace c = false ->
  word_list (c :: cs) = (c :: fst (split_words cs)) :: snd (split_words cs).
Proof.
  intro H. unfold word_list. cbn. destruct (split_words cs) as [w ws].
  rewrite H. reflexivity.
Qed.

Lemma join_chars_cons (w : list ascii) (ws : list (list ascii)) :
  join_chars (w :: ws)
  = w ++ match ws with
         | [] => []
         | _ => " "%char :: join_chars ws
         end.
Proof. destruct ws; cbn; [now rewrite app_nil_r | reflexivity]. Qed.

(** Collapsing, after the leading whitespace, gives the words joined by
    single spaces, followed by whitespace only. *)
Lemma collapse_words (cs : list ascii) :
  exists trail,
    collapse_spaces true cs = join_chars (word_list cs) ++ trail
    /\ forallb isspace trail = true.
Proof.
  induction cs as [|c cs (trail & IH & Htrail)].
  - exists []. split; reflexivity.
  - destruct (isspace c) eqn:Ec.
    + exists trail. rewrite (word_list_space _ _ Ec). cbn. rewrite Ec.
      split; assumption.
    + rewrite (word_list_letter _ _ Ec). cbn [collapse_spaces]. rewrite Ec.
      rewrite collapse_false_lead, IH, join_chars_cons.
      destruct cs as [|c' cs'].
      * exists trail. split; [reflexivity | exact Htrail].
      * unfold word_list. cbn [split_words].
        destruct (split_words cs') as [w' ws'].
        destruct (isspace c') eqn:Ec'; cbn [fst snd cons_word].
        -- destruct (cons_word w' ws') as [|w1 rest] eqn:Ecw.
           ++ exists (" "%char :: trail). split; [reflexivity|].
              cbn. now rewrite Htrail.
           ++ exists trail. split; [|exact Htrail]. reflexivity.
        -- exists trail. split; [|exact Htrail].
           rewrite (join_chars_cons (c' :: w')). reflexivity.
Qed.

Lemma split_words_wordy (cs : list ascii) :
  forallb (fun c => negb (isspace c)) (fst (split_words cs)) = true
  /\ Forall (fun w => w <> [] /\ forallb (fun c => negb (isspace c)) w = true)
       (snd (split_words cs)).
Proof.
  induction cs as [|c cs [IHw IHws]]; cbn.
  - split; [reflexivity | constructor].
  - destruct (split_words cs) as [w ws]. cbn [fst snd] in *.
    destruct (isspace c) eqn:Ec; cbn [fst snd].
    + split; [reflexivity|]. destruct w as [|a w]; cbn [cons_word]; [exact IHws|].
      constructor; [|exact IHws]. split; [discriminate | exact IHw].
    + split; [|exact IHws]. cbn. now rewrite Ec, IHw.
Qed.

Lemma word_list_wordy (cs : list ascii) :
  Forall (fun w => w <> [] /\ forallb (fun c => negb (isspace c)) w = true)
    (word_list cs).
Proof.
  pose proof (split_words_wordy cs) as [Hw Hws]. unfold word_list.
  destruct (split_words cs) as [w ws]. cbn [fst snd] in *.
  destruct w as [|a w]; cbn [cons_word]; [exact Hws|].
  constructor; [|exact Hws]. split; [discriminate | exact Hw].
Qed.

Lemma join_chars_last (ws : list (list ascii)) :
  Forall (fun w => w <> [] /\ forallb (fun c => negb (isspace c)) w = true) ws ->
  match rev (join_chars ws) with
  | [] => True
  | c :: _ => isspace c = false
  end.
Proof.
  induction 1 as [|w ws [Hne Hw] Hws IH]; [exact I|].
  rewrite join_chars_cons. destruct ws as [|w1 rest].
  - rewrite app_nil_r.
    destruct (rev w) as [|c r] eqn:E; [exact I|].
    assert (Hin : In c w) by (apply in_rev; rewrite E; left; reflexivity).
    rewrite forallb_forall in Hw. apply negb_true_iff, Hw, Hin.
  - rewrite rev_app_distr. cbn [rev]. rewrite <- app_assoc.
    set (j := join_chars (w1 :: rest)) in *.
    destruct (rev j) as [|c r] eqn:E; [|exact IH].
    exfalso. apply (f_equal (@rev ascii)) in E. rewrite rev_involutive in E.
    cbn [rev] in E. subst j. rewrite join_chars_cons in E.
    inversion Hws as [|? ? [Hne1 _] _]; subst.
    destruct w1; [congruence | discriminate].
Qed.

Lemma clean_chars (cs : list ascii) :
  rev (lstrip (rev (lstrip (collapse_spaces false cs))))
  = join_chars (word_list cs).
Proof.
  rewrite lstrip_collapse.
  destruct (collapse_words cs) as (trail & -> & Htrail).
  rewrite rev_app_distr, lstrip_spaces
    by (rewrite forallb_reversal; exact Htrail).
  rewrite lstrip_fixed by (apply join_chars_last, word_list_wordy).
  apply rev_involutive.
Qed.

Lemma join_of_chars (ws : list (list ascii)) :
  list_ascii_of_string (join " " (map string_of_list_ascii ws)) = join_chars ws.
Proof.
  induction ws as [|w ws IH]; [reflexivity|].
  destruct ws as [|w1 rest].
  - cbn. apply list_ascii_of_string_of_list_ascii.
  - change (map string_of_list_ascii (w :: w1 :: rest))
      with (string_of_list_ascii w :: map string_of_list_ascii (w1 :: rest)).
    cbn [join map]. cbn [join map] in IH.
    rewrite !list_ascii_app, list_ascii_of_string_of_list_ascii.
    cbn [list_ascii_of_string app]. rewrite IH. reflexivity.
Qed.

Lemma clean_text_words (s : string) : clean_text s = join " " (words s).
Proof.
  unfold clean_text, strip, words.
  rewrite list_ascii_of_string_of_list_ascii, clean_chars, <- join_of_chars.
  apply string_of_list_ascii_of_string.
Qed.

Lemma split_words_app (a t : list ascii) (others : list (list ascii)) :
  split_words t = ([], others) ->
  split_words (a ++ t)
  = (fst (split_words a), snd (split_words a) ++ others).
Proof.
  intro Ht. induction a as [|c a IH]; cbn; [exact Ht|].
  rewrite IH. destruct (split_words a) as [w ws]. cbn [fst snd].
  destruct (isspace c); [|reflexivity].
  destruct w; reflexivity.
Qed.

Lemma word_list_join (a b : list ascii) :
  word_list (a ++ " "%char :: b) = word_list a ++ word_list b.
Proof.
  unfold word_list.
  rewrite (split_words_app a (" "%char :: b) (word_list b)).
  - destruct (split_words a) as [w ws]. cbn [fst snd].
    unfold word_list. destruct w; reflexivity.
  - unfold word_list. cbn. destruct (split_words b) as [w ws]. reflexivity.
Qed.

Lemma words_join (a b : string) :
  words (a ++ " " ++ b) = words a ++ words b.
Proof.
  unfold words. rewrite list_ascii_app. cbn [append list_ascii_of_string].
  rewrite word_list_join. apply map_app.
Qed.

Lemma words_are_words (s : string) : forallb is_word (words s) = true.
Proof.
  unfold words. apply forallb_forall. intros w Hw.
  apply in_map_iff in Hw. destruct Hw as (cs & <- & Hcs).
  pose proof (word_list_wordy (list_ascii_of_string s)) as H.
  rewrite Forall_forall in H. destruct (H cs Hcs) as [Hne Hall].
  unfold is_word, all_chars. rewrite list_ascii_of_string_of_list_ascii, Hall.
  destruct cs; [congruence | reflexivity].
Qed.

Lemma combine_as_words (results : OcrResults.t) :
  _combine_ocr_results results
  = join " " (words_of (easyocr_taken results)
              ++ words_of (tesseract_taken results)).
Proof.
  unfold _combine_ocr_results, easyocr_taken, tesseract_taken.
  destruct (OcrResults.easyocr results) as [e|];
    destruct (OcrResults.tesseract results) as [t|]; cbn [words_of app].
  - destruct (Py.ltb 0.7 _); cbn [app];
      destruct (Py.dict_get (EngineResult.text t) EmptyString) as [|c0 t0] eqn:Et;
      cbn [String.eqb negb andb strip list_ascii_of_string lstrip rev
           string_of_list_ascii String.length Z.of_nat Z.ltb Z.compare
           words_of app join];
      rewrite ?app_nil_r; try apply clean_text_words.
    + destruct (5 <? _)%Z; cbn [words_of app join]; rewrite ?app_nil_r.
      * rewrite clean_text_words. now rewrite words_join.
      * apply clean_text_words.
    + destruct (5 <? _)%Z; cbn [words_of app join].
      * apply clean_text_words.
      * reflexivity.
  - destruct (Py.ltb 0.7 _); cbn [words_of app join]; rewrite ?app_nil_r;
      [apply clean_text_words | reflexivity].
  - destruct (Py.dict_get (EngineResult.text t) EmptyString) as [|c0 t0] eqn:Et;
      cbn [String.eqb negb andb strip list_ascii_of_string lstrip rev
           string_of_list_ascii String.length Z.of_nat Z.ltb Z.compare
           words_of app join]; [reflexivity|].
    destruct (5 <? _)%Z; cbn [words_of app join];
      [apply clean_text_words | reflexivity].
  - reflexivity.
Qed.

(** X17: the combined text is made of the words of EasyOCR's text, when its
    confidence exceeds 0.7, followed by the words of Tesseract's text, when
    that has more than 5 characters after stripping, with one space between
    two words; so without any text taken over it is empty. *)
Theorem combined_text_words (results : OcrResults.t) :
  let taken :=
    words_of (easyocr_taken results) ++ words_of (tesseract_taken results) in
  _combine_ocr_results results = join " " taken
  /\ forallb is_word taken = true
  /\ (easyocr_taken results = None -> tesseract_taken results = None ->
      _combine_ocr_results results = EmptyString).
Proof.
  cbv zeta. pose proof (combine_as_words results) as E.
  split; [exact E|]. split.
  - rewrite forallb_app.
    destruct (easyocr_taken results), (tesseract_taken results);
      cbn [words_of forallb]; rewrite ?words_are_words; reflexivity.
  - intros He Ht. rewrite E, He, Ht. reflexivity.
Qed.

(** ** Signals in the recognised text *)

Lemma parse_cases (ocr : ocr_libs) (groups : list string)
  (pattern_name full_text : string) (s : OcrSignal.t) :
  _parse_signal_match ocr groups pattern_name full_text = Some s ->
  OcrSignal.pattern s = pattern_name
  /\ (pattern_name = "standard" /\ OcrSignal.confidence s = 0.9
      \/ pattern_name = "price_first" /\ OcrSignal.confidence s = 0.8
      \/ pattern_name = "symbol_action" /\ OcrSignal.confidence s = 0.7).
Proof.
  unfold _parse_signal_match.
  destruct (pattern_name =? "standard")%string eqn:E1.
  - apply String.eqb_eq in E1.
    destruct groups as [|g1 [|g2 [|g3 [|g4 [|g5 [|g6 gs]]]]]]; try discriminate.
    destruct (to_float ocr g3); [|discriminate].
    destruct (to_float ocr g4); [|discriminate].
    destruct (to_float ocr g5); [|discriminate].
    intros [= <-]. cbn. auto.
  - destruct (pattern_name =? "price_first")%string eqn:E2.
    + apply String.eqb_eq in E2.
      destruct groups as [|g1 [|g2 [|g3 [|g4 gs]]]]; try discriminate.
      destruct (to_float ocr g1); [|discriminate].
      destruct (to_float ocr g2); [|discriminate].
      destruct (to_float ocr g3); [|discriminate].
      intros [= <-]. cbn. auto.
    + destruct (pattern_name =? "symbol_action")%string eqn:E3; [|discriminate].
      apply String.eqb_eq in E3.
      destruct groups as [|g1 [|g2 [|g3 gs]]]; try discriminate.
      destruct (contains_str "eth" g1); cbn; intros [= <-]; cbn; auto.
Qed.

(** X18: a match becomes a signal only under the first three patterns, with
    the number of groups the pattern has and, for the patterns with prices,
    prices that [float] accepts; the confidence is fixed by the pattern
    (0.9, 0.8, 0.7).  Under "price_first" the symbol is ETH or BTC and the
    side sell or buy, read from the whole text; under "symbol_action" the
    default prices lie on the side of the entry that the side asks for.  A
    "price_levels" match never becomes a signal. *)
Theorem parse_signal_rule (ocr : ocr_libs) (groups : list string)
  (pattern_name full_text : string) (s : OcrSignal.t) :
  _parse_signal_match ocr groups pattern_name full_text = Some s ->
  OcrSignal.pattern s = pattern_name
  /\ pattern_name <> "price_levels"
  /\ (pattern_name = "standard"
      /\ List.length groups = 5%nat
      /\ OcrSignal.confidence s = 0.9
      /\ OcrSignal.symbol s = upper (nth 0 groups EmptyString)
      /\ to_float ocr (nth 2 groups EmptyString) = Some (OcrSignal.entry_price s)
      /\ to_float ocr (nth 3 groups EmptyString) = Some (OcrSignal.stop_loss s)
      /\ to_float ocr (nth 4 groups EmptyString) = Some (OcrSignal.take_profit s)
      \/ pattern_name = "price_first"
         /\ List.length groups = 3%nat
         /\ OcrSignal.confidence s = 0.8
         /\ (OcrSignal.symbol s = "ETH" /\ contains_str "eth" full_text = true
             \/ OcrSignal.symbol s = "BTC" /\ contains_str "eth" full_text = false)
         /\ (OcrSignal.side s = "sell"
             /\ contains_str "short" full_text || contains_str "sell" full_text
                = true
             \/ OcrSignal.side s = "buy"
                /\ contains_str "short" full_text || contains_str "sell" full_text
                   = false)
         /\ to_float ocr (nth 0 groups EmptyString) = Some (OcrSignal.entry_price s)
         /\ to_float ocr (nth 1 groups EmptyString) = Some (OcrSignal.stop_loss s)
         /\ to_float ocr (nth 2 groups EmptyString) = Some (OcrSignal.take_profit s)
      \/ pattern_name = "symbol_action"
         /\ List.length groups = 2%nat
         /\ OcrSignal.confidence s = 0.7
         /\ (OcrSignal.symbol s = "ETH" /\ OcrSignal.entry_price s = 3297
             \/ OcrSignal.symbol s = "BTC" /\ OcrSignal.entry_price s = 67000)
         /\ (OcrSignal.side s = "sell"
             /\ OcrSignal.take_profit s < OcrSignal.entry_price s
                < OcrSignal.stop_loss s
             \/ OcrSignal.side s <> "sell"
                /\ OcrSignal.stop_loss s < OcrSignal.entry_price s
                   < OcrSignal.take_profit s)).
Proof.
  intro H. pose proof (parse_cases _ _ _ _ _ H) as [Hp Hc].
  split; [exact Hp|]. split.
  { destruct Hc as [[-> _] | [[-> _] | [-> _]]]; discriminate. }
  unfold _parse_signal_match in H.
  destruct (pattern_name =? "standard")%string eqn:E1.
  - apply String.eqb_eq in E1. left.
    destruct groups as [|g1 [|g2 [|g3 [|g4 [|g5 [|g6 gs]]]]]]; try discriminate.
    cbn [nth].
    destruct (to_float ocr g3); [|discriminate].
    destruct (to_float ocr g4); [|discriminate].
    destruct (to_float ocr g5); [|discriminate].
    injection H as <-. cbn. auto 10.
  - destruct (pattern_name =? "price_first")%string eqn:E2.
    + apply String.eqb_eq in E2. right. left.
      destruct groups as [|g1 [|g2 [|g3 [|g4 gs]]]]; try discriminate.
      cbn [nth].
      destruct (to_float ocr g1); [|discriminate].
      destruct (to_float ocr g2); [|discriminate].
      destruct (to_float ocr g3); [|discriminate].
      injection H as <-. cbn.
      split; [exact E2|]. split; [reflexivity|]. split; [reflexivity|].
      split; [destruct (contains_str "eth" full_text); auto|].
      split; [|auto].
      destruct (contains_str "short" full_text || contains_str "sell" full_text);
        auto.
    + destruct (pattern_name =? "symbol_action")%string eqn:E3; [|discriminate].
      apply String.eqb_eq in E3. right. right.
      destruct groups as [|g1 [|g2 [|g3 gs]]]; try discriminate.
      split; [exact E3|]. split; [reflexivity|].
      destruct (contains_str "eth" g1);
        cbn [String.eqb Ascii.eqb Bool.eqb] in H;
        destruct (replace "long" "buy" (replace "short" "sell" g2) =? "sell")%string
          eqn:Es; injection H as <-; cbn;
        (split; [reflexivity|]); (split; [auto|]);
        [left | right | left | right];
        try (split; [apply String.eqb_eq, Es | split; reflexivity]);
        (split; [apply String.eqb_neq, Es | split; reflexivity]).
Qed.

Lemma parse_signal_rule_witness :
  _parse_signal_match SampleOcr.readers ["bitcoin"; "long"] "symbol_action"
    "bitcoin long now"
  = Some {| OcrSignal.symbol := "BTC";
            OcrSignal.side := "buy";
            OcrSignal.entry_price := 67000;
            OcrSignal.stop_loss := 65000;
            OcrSignal.take_profit := 68000;
            OcrSignal.confidence := 0.7;
            OcrSignal.pattern := "symbol_action" |}
  /\ (65000 : Q) < 67000 < 68000.
Proof.
  split; [reflexivity|].
  destruct (parse_signal_rule SampleOcr.readers ["bitcoin"; "long"]
              "symbol_action" "bitcoin long now" _ eq_refl)
    as (_ & _ & [(E & _) | [(E & _) | (_ & _ & _ & _ & [(E & _) | (_ & H)])]]);
    try discriminate E.
  exact H.
Defined.

Lemma max_by_first {A : Type} (key : A -> Q) (x : A) (xs : list A) :
  Forall (fun y => key y <= key x) xs -> max_by key x xs = x.
Proof.
  induction 1 as [|y ys Hy _ IH]; cbn; [reflexivity|].
  destruct (Py.ltb (key x) (key y)) eqn:E; [|exact IH].
  apply ltb_lt in E. lra.
Qed.

Lemma parsed_confidence (ocr : ocr_libs) (pattern_name text : string)
  (matches : list (list string)) (s : OcrSignal.t) :
  In s (flat_map
          (fun groups =>
             match _parse_signal_match ocr groups pattern_name text with
             | Some signal => [signal]
             | None => []
             end) matches) ->
  OcrSignal.pattern s = pattern_name
  /\ (pattern_name = "standard" /\ OcrSignal.confidence s = 0.9
      \/ pattern_name = "price_first" /\ OcrSignal.confidence s = 0.8
      \/ pattern_name = "symbol_action" /\ OcrSignal.confidence s = 0.7).
Proof.
  intro H. apply in_flat_map in H. destruct H as (groups & _ & H).
  destruct (_parse_signal_match ocr groups pattern_name text) as [s'|] eqn:E;
    [|contradiction].
  destruct H as [<- | []]. exact (parse_cases _ _ _ _ _ E).
Qed.

(** The signals of one pattern, in the order of its matches. *)
Lemma signals_by_pattern (ocr : ocr_libs) (text_lower : string) :
  signals_found ocr text_lower
  = parsed_matches ocr "standard" text_lower
    ++ parsed_matches ocr "price_first" text_lower
    ++ parsed_matches ocr "symbol_action" text_lower.
Proof.
  unfold signals_found, parsed_matches, patterns. cbn [flat_map].
  change (pattern_of "standard") with (snd (nth 0 patterns (""%string, ""%string))).
  change (pattern_of "price_first")
    with (snd (nth 1 patterns (""%string, ""%string))).
  change (pattern_of "symbol_action")
    with (snd (nth 2 patterns (""%string, ""%string))).
  cbn [patterns nth snd].
  do 2 f_equal.
  match goal with |- ?a ++ ?b ++ [] = ?a => assert (E : b = []) end.
  { induction (finditer ocr _ text_lower) as [|g gs IH]; [reflexivity|].
    cbn [flat_map]. rewrite IH.
    destruct (_parse_signal_match ocr g "price_levels" text_lower) eqn:E;
      [|reflexivity].
    apply parse_cases in E.
    destruct E as [_ [[E _] | [[E _] | [E _]]]]; discriminate. }
  rewrite E. apply app_nil_r.
Qed.

Lemma first_signal_best (ocr : ocr_libs) (text_lower : string)
  (first : OcrSignal.t) (others : list OcrSignal.t) :
  signals_found ocr text_lower = first :: others ->
  Forall (fun s => OcrSignal.confidence s <= OcrSignal.confidence first) others.
Proof.
  rewrite signals_by_pattern. intro H.
  pose proof (parsed_confidence ocr "standard" text_lower
                (finditer ocr (pattern_of "standard") text_lower)) as Ha.
  pose proof (parsed_confidence ocr "price_first" text_lower
                (finditer ocr (pattern_of "price_first") text_lower)) as Hb.
  pose proof (parsed_confidence ocr "symbol_action" text_lower
                (finditer ocr (pattern_of "symbol_action") text_lower)) as Hc.
  fold (parsed_matches ocr "standard" text_lower) in Ha.
  fold (parsed_matches ocr "price_first" text_lower) in Hb.
  fold (parsed_matches ocr "symbol_action" text_lower) in Hc.
  set (A := parsed_matches ocr "standard" text_lower) in *.
  set (B := parsed_matches ocr "price_first" text_lower) in *.
  set (C := parsed_matches ocr "symbol_action" text_lower) in *.
  assert (HA : forall s, In s A -> OcrSignal.confidence s = 0.9).
  { intros s Hs. destruct (Ha s Hs) as [_ [[_ E] | [[E _] | [E _]]]];
      [exact E | discriminate | discriminate]. }
  assert (HB : forall s, In s B -> OcrSignal.confidence s = 0.8).
  { intros s Hs. destruct (Hb s Hs) as [_ [[E _] | [[_ E] | [E _]]]];
      [discriminate | exact E | discriminate]. }
  assert (HC : forall s, In s C -> OcrSignal.confidence s = 0.7).
  { intros s Hs. destruct (Hc s Hs) as [_ [[E _] | [[E _] | [_ E]]]];
      [discriminate | discriminate | exact E]. }
  clear Ha Hb Hc.
  apply Forall_forall. intros s Hs.
  destruct A as [|a A'].
  - destruct B as [|b B'].
    + cbn [app] in H. rewrite H in HC.
      rewrite (HC s (or_intror Hs)), (HC first (or_introl eq_refl)). lra.
    + cbn [app] in H. injection H as <- <-.
      rewrite (HB b (or_introl eq_refl)).
      apply in_app_or in Hs. destruct Hs as [Hs | Hs].
      * rewrite (HB s (or_intror Hs)). lra.
      * rewrite (HC s Hs). lra.
  - cbn [app] in H. injection H as <- <-.
    rewrite (HA a (or_introl eq_refl)).
    apply in_app_or in Hs. destruct Hs as [Hs | Hs].
    + rewrite (HA s (or_intror Hs)). lra.
    + apply in_app_or in Hs. destruct Hs as [Hs | Hs].
      * rewrite (HB s Hs). lra.
      * rewrite (HC s Hs). lra.
Qed.

(** X19: signals are found exactly in a non-empty text with a match that
    parses under one of the first three patterns; the signals are listed by
    pattern ("standard", then "price_first", then "symbol_action") and by
    match, "price_levels" adds none, and the signal returned as the best is
    always the first of the list, with no signal of the list more
    confident. *)
Theorem best_signal_is_first (ocr : ocr_libs) (text : string) :
  let r := _extract_trading_signals ocr text in
  let found :=
    parsed_matches ocr "standard" (lower text)
    ++ parsed_matches ocr "price_first" (lower text)
    ++ parsed_matches ocr "symbol_action" (lower text) in
  (TradingSignals.found r = true <-> text <> EmptyString /\ found <> [])
  /\ (TradingSignals.found r = true ->
      TradingSignals.signal r = hd_error found
      /\ TradingSignals.all_signals r = Some found
      /\ TradingSignals.extracted_from r = Some text
      /\ exists best, hd_error found = Some best
           /\ Forall (fun s => OcrSignal.confidence s <= OcrSignal.confidence best)
                found
           /\ In (OcrSignal.confidence best) [0.9; 0.8; 0.7])
  /\ (TradingSignals.found r = false ->
      TradingSignals.signal r = None
      /\ TradingSignals.text_analyzed r
         = if (text =? "")%string then None else Some text).
Proof.
  cbv zeta. rewrite <- signals_by_pattern.
  unfold _extract_trading_signals.
  destruct (text =? "")%string eqn:Et.
  - apply String.eqb_eq in Et. cbn.
    split; [split; [discriminate | intros [H _]; congruence]|].
    split; [discriminate | auto].
  - apply String.eqb_neq in Et.
    destruct (signals_found ocr (lower text)) as [|first others] eqn:Ef.
    + cbn. split; [split; [discriminate | intros [_ H]; congruence]|].
      split; [discriminate | auto].
    + pose proof (first_signal_best _ _ _ _ Ef) as Hbest.
      rewrite (max_by_first _ _ _ Hbest).
      cbn [TradingSignals.found TradingSignals.signal TradingSignals.all_signals
           TradingSignals.extracted_from TradingSignals.text_analyzed hd_error].
      split; [split; [intros _; split; [exact Et | discriminate] | reflexivity]|].
      split; [|discriminate]. intros _.
      split; [reflexivity|]. split; [reflexivity|]. split; [reflexivity|].
      exists first. split; [reflexivity|]. split.
      * constructor; [lra | exact Hbest].
      * assert (Hin : In first (signals_found ocr (lower text)))
          by (rewrite Ef; left; reflexivity).
        rewrite signals_by_pattern in Hin.
        apply in_app_or in Hin. destruct Hin as [Hin | Hin];
          [|apply in_app_or in Hin; destruct Hin as [Hin | Hin]];
          apply parsed_confidence in Hin;
          destruct Hin as [_ [[E1 E2] | [[E1 E2] | [E1 E2]]]];
          try discriminate E1; rewrite E2; cbn; auto.
Qed.

(** X20: for a match of "standard" or "symbol_action" whose second group is
    one of the four words the patterns allow there, the side of the signal is
    "sell" for short and sell and "buy" for long and buy. *)
Theorem side_of_action (ocr : ocr_libs) (groups : list string)
  (pattern_name full_text : string) (s : OcrSignal.t) :
  pattern_name = "standard" \/ pattern_name = "symbol_action" ->
  In (nth 1 groups EmptyString) ["buy"; "sell"; "long"; "short"] ->
  _parse_signal_match ocr groups pattern_name full_text = Some s ->
  OcrSignal.side s
  = if ((nth 1 groups EmptyString =? "short")
        || (nth 1 groups EmptyString =? "sell"))%string
    then "sell" else "buy".
Proof.
  intros Hp Ha H.
  assert (Hside : OcrSignal.side s
                  = replace "long" "buy"
                      (replace "short" "sell" (nth 1 groups EmptyString))).
  { unfold _parse_signal_match in H. destruct Hp as [-> | ->];
      cbn [String.eqb Ascii.eqb Bool.eqb] in H.
    - destruct groups as [|g1 [|g2 [|g3 [|g4 [|g5 [|g6 gs]]]]]]; try discriminate.
      destruct (to_float ocr g3); [|discriminate].
      destruct (to_float ocr g4); [|discriminate].
      destruct (to_float ocr g5); [|discriminate].
      injection H as <-. reflexivity.
    - destruct groups as [|g1 [|g2 [|g3 gs]]]; try discriminate.
      destruct ((if contains_str "eth" g1 then "ETH" else "BTC") =? "ETH")%string;
        injection H as <-; reflexivity. }
  rewrite Hside.
  destruct Ha as [<- | [<- | [<- | [<- | []]]]]; reflexivity.
Qed.

Lemma side_of_action_witness :
  exists s,
    _parse_signal_match SampleOcr.readers ["eth"; "long"; "3300"; "3250"; "3400"]
      "standard" "eth long at 3300 sl 3250 tp 3400" = Some s
    /\ OcrSignal.side s = "buy"
    /\ OcrSignal.symbol s = "ETH".
Proof.
  eexists. split; [reflexivity|]. split; [|reflexivity].
  apply (side_of_action SampleOcr.readers
           ["eth"; "long"; "3300"; "3250"; "3400"] "standard"
           "eth long at 3300 sl 3250 tp 3400").
  - left. reflexivity.
  - cbn. auto.
  - reflexivity.
Defined.

(** ** The OCR service as a whole *)

Lemma found_signal (ocr : ocr_libs) (text : string) :
  TradingSignals.found (_extract_trading_signals ocr text) = true ->
  text <> EmptyString
  /\ exists s,
       TradingSignals.signal (_extract_trading_signals ocr text) = Some s
       /\ In s (signals_found ocr (lower text))
       /\ (OcrSignal.confidence s = 0.9 \/ OcrSignal.confidence s = 0.8
           \/ OcrSignal.confidence s = 0.7).
Proof.
  unfold _extract_trading_signals.
  destruct (text =? "")%string eqn:Et; [discriminate|].
  apply String.eqb_neq in Et.
  destruct (signals_found ocr (lower text)) as [|first others] eqn:Ef;
    [discriminate|].
  intros _. split; [exact Et|].
  rewrite (max_by_first _ _ _ (first_signal_best _ _ _ _ Ef)).
  exists first. split; [reflexivity|]. split; [left; reflexivity|].
  assert (Hin : In first (signals_found ocr (lower text)))
    by (rewrite Ef; left; reflexivity).
  rewrite signals_by_pattern in Hin.
  apply in_app_or in Hin. destruct Hin as [Hin | Hin];
    [|apply in_app_or in Hin; destruct Hin as [Hin | Hin]];
    apply parsed_confidence in Hin;
    destruct Hin as [_ [[_ E] | [[_ E] | [_ E]]]]; auto.
Qed.

(** X21: text extraction fails exactly when the image cannot be decoded, and
    then reports no text and no signals.  Otherwise the extracted text is a
    list of words separated by single spaces and the signals are those read
    from it; with neither engine available the text is empty and no signal is
    found; a signal that is found has confidence 0.9, 0.8 or 0.7. *)
Theorem extraction_outcomes (cv : libs) (self : AdvancedOCR)
  (image_data : string) :
  let r := extract_text_from_image cv self image_data in
  (OcrResponse.success r = false <-> _decode_image cv image_data = None)
  /\ (OcrResponse.success r = false ->
      OcrResponse.error r = Some "Failed to decode image"
      /\ OcrResponse.extracted_text r = None
      /\ OcrResponse.trading_signals r = None)
  /\ (OcrResponse.success r = true ->
      exists text taken,
        OcrResponse.extracted_text r = Some text
        /\ OcrResponse.trading_signals r
           = Some (_extract_trading_signals (engines self) text)
        /\ text = join " " taken
        /\ forallb is_word taken = true
        /\ (easyocr_available self = false ->
            tesseract_available self = false ->
            text = EmptyString
            /\ TradingSignals.found
                 (_extract_trading_signals (engines self) text) = false)
        /\ (TradingSignals.found
              (_extract_trading_signals (engines self) text) = true ->
            text <> EmptyString
            /\ exists s,
                 TradingSignals.signal
                   (_extract_trading_signals (engines self) text) = Some s
                 /\ In (OcrSignal.confidence s) [0.9; 0.8; 0.7])).
Proof.
  cbv zeta. unfold extract_text_from_image.
  destruct (_decode_image cv image_data) as [image|].
  - cbn [OcrResponse.success OcrResponse.error OcrResponse.extracted_text
         OcrResponse.trading_signals].
    split; [split; discriminate|]. split; [discriminate|]. intros _.
    set (results := {| OcrResults.easyocr := _; OcrResults.tesseract := _ |}).
    exists (_combine_ocr_results results).
    exists (words_of (easyocr_taken results) ++ words_of (tesseract_taken results)).
    split; [reflexivity|]. split; [reflexivity|].
    split; [apply combine_as_words|]. split.
    { rewrite forallb_app.
      destruct (easyocr_taken results), (tesseract_taken results);
        cbn [words_of forallb]; rewrite ?words_are_words; reflexivity. }
    split.
    + intros He Ht. subst results. rewrite He, Ht. split; reflexivity.
    + intro Hf. destruct (found_signal _ _ Hf) as (Hne & s & Hs & _ & Hc).
      split; [exact Hne|]. exists s. split; [exact Hs|].
      destruct Hc as [-> | [-> | ->]]; cbn; auto.
  - cbn. split; [split; reflexivity|]. split; [auto | discriminate].
Qed.

(** * Further properties: the request handlers of app.py *)

(** The signal of the chart analysis, whatever the image data. *)
Lemma chart_signal_facts (cv : libs) (image_data : json) :
  let s := Response.trading_signal (analyze_chart_image_of cv image_data) in
  Signal.isSignal s = true
  /\ Signal.symbol s = "ETH"
  /\ 0.75 <= Signal.confidence s <= 0.95
  /\ (Signal.side s = "copy" \/ Signal.side s = "sell" \/ Signal.side s = "buy").
Proof.
  cbv zeta.
  assert (Herr : forall e,
             let s := Response.trading_signal (_create_error_response e) in
             Signal.isSignal s = true /\ Signal.symbol s = "ETH"
             /\ 0.75 <= Signal.confidence s <= 0.95
             /\ (Signal.side s = "copy" \/ Signal.side s = "sell"
                 \/ Signal.side s = "buy")).
  { intro e. cbn. repeat split; auto; lra. }
  destruct image_data; try apply Herr.
  cbn [analyze_chart_image_of]. unfold analyze_chart_image.
  destruct (_decode_image cv s) as [image|]; [|apply Herr].
  unfold analyze_decoded. cbn [Response.trading_signal].
  destruct (generate_fixed_fields (analysis_results cv image)) as (Hs & Hy & _).
  split; [exact Hs|]. split; [exact Hy|]. split.
  - split; [apply generate_confidence_floor|].
    apply generate_confidence_cap; unfold FusionSpec.inputs_of, analysis_results;
      cbn [Analysis.trend_analysis Analysis.candlestick_patterns
           Analysis.price_action Analysis.support_resistance Py.dict_get
           FusionSpec.trend_confidence FusionSpec.pattern_confidence
           FusionSpec.price_strength].
    + destruct (trend_confidence_range cv image) as (c & -> & Hc). cbn. lra.
    + pose proof (patterns_confidence_range cv image) as H.
      destruct (Patterns.confidence (_detect_candlestick_patterns cv image));
        cbn; lra.
    + exact (proj2 (price_strength_range cv image)).
  - destruct (detector_cases cv image) as [(Hf & Ht & Hp & Hh) | (Hf & _)].
    + left.
      rewrite (generate_existing (analysis_results cv image)
                 (_detect_existing_trade cv image) eq_refl Hf).
      rewrite Ht. reflexivity.
    + right.
      assert (Hno : Py.dict_get
                      (ExistingTrade.has_existing_trade
                         (Py.dict_get
                            (Analysis.existing_trade (analysis_results cv image))
                            ExistingTrade.empty)) false = false).
      { unfold analysis_results. cbn [Analysis.existing_trade Py.dict_get].
        rewrite Hf. reflexivity. }
      destruct (weighted_path_state _ Hno) as (st & -> & _).
      destruct (weighted_signal_shape
                  (FusionSpec.trend_confidence
                     (FusionSpec.inputs_of (analysis_results cv image)))
                  (FusionSpec.price_strength
                     (FusionSpec.inputs_of (analysis_results cv image)))
                  (Py.dict_get
                     (Analysis.candlestick_patterns (analysis_results cv image))
                     Patterns.empty)
                  st _ (final_direction_sell_or_buy
                          (FusionSpec.inputs_of (analysis_results cv image))))
        as (_ & [(H1 & _) | (H1 & _)]); auto.
Qed.

Lemma chart_success_iff (cv : libs) (image_data : json) :
  Response.success (analyze_chart_image_of cv image_data) = true
  <-> exists s, image_data = JString s /\ _decode_image cv s <> None.
Proof.
  destruct image_data; cbn;
    try (split; [discriminate | intros (s & E & _); discriminate E]).
  unfold analyze_chart_image.
  destruct (_decode_image cv s) as [image|] eqn:E; cbn.
  - split; [intros _; exists s; split; [reflexivity | congruence] | reflexivity].
  - split; [discriminate | intros (s' & [= <-] & H); congruence].
Qed.

(** X22: the status of /analyze-chart depends on the request body alone.  It
    is 500 when reading the JSON raises and when the body is a true value
    that is no object (a number, a string, a list, true), since [.get] fails
    on it; 400 when the body is a false value (null, false, 0, an empty
    string, list or object) or an object whose "image" is missing or false;
    200 for an object with a true "image", whatever it holds. *)
Theorem analyze_chart_status (cv : libs) (ocr_service : option AdvancedOCR)
  (request_json : outcome json) :
  let r := analyze_chart cv ocr_service request_json in
  (analyze_status r = 500%Z
   <-> (exists e, request_json = Raised e)
       \/ exists data, request_json = Returned data /\ truthy data = true
                       /\ forall members, data <> JObject members)
  /\ (analyze_status r = 400%Z
      <-> exists data, request_json = Returned data
            /\ (truthy data = false
                \/ exists members, data = JObject members
                     /\ truthy (json_get "image" members JNull) = false))
  /\ (analyze_status r = 200%Z
      <-> exists members, request_json = Returned (JObject members)
            /\ truthy (json_get "image" members JNull) = true)
  /\ (forall data, request_json = Returned data -> analyze_status r = 500%Z ->
      r = analyze_error (attribute_error data "get")).
Proof.
  cbv zeta. unfold analyze_chart.
  destruct request_json as [data | e].
  2:{ cbn. split.
      { split; [intros _; left; exists e; reflexivity | reflexivity]. }
      split; [split; [discriminate | intros (d & E & _); discriminate E]|].
      split; [split; [discriminate | intros (m & E & _); discriminate E]|].
      intros d E. discriminate E. }
  destruct (truthy data) eqn:Ht; cbn [negb].
  - destruct data as [| b | n | x | s | items | members];
      try (cbn [analyze_status analyze_error]; split;
           [split; [intros _; right; eexists; split; [reflexivity|];
                    split; [exact Ht | intros m; discriminate]
                   | reflexivity]|];
           split; [split; [discriminate
                          | intros (d & [= <-] & [E | (m & E & _)]);
                            [congruence | discriminate E]]|];
           split; [split; [discriminate | intros (m & E & _); discriminate E]|];
           intros d [= <-] _; reflexivity).
    destruct (truthy (json_get "image" members JNull)) eqn:Hi; cbn [negb analyze_status].
    + split.
      { split; [discriminate|].
        intros [(e & E) | (d & [= <-] & _ & H)]; [discriminate E|].
        exfalso. apply (H members). reflexivity. }
      split.
      { split; [discriminate|].
        intros (d & [= <-] & [E | (m & [= <-] & E)]); congruence. }
      split; [|intros d _ E; discriminate E].
      split; [intros _; exists members; split; [reflexivity | exact Hi] | reflexivity].
    + split.
      { split; [discriminate|].
        intros [(e & E) | (d & [= <-] & _ & H)]; [discriminate E|].
        exfalso. apply (H members). reflexivity. }
      split.
      { split; [|reflexivity]. intros _. exists (JObject members).
        split; [reflexivity|]. right. exists members. split; [reflexivity | exact Hi]. }
      split; [|intros d _ E; discriminate E].
      split; [discriminate | intros (m & [= <-] & E); congruence].
  - cbn [analyze_status]. split.
    { split; [discriminate|].
      intros [(e & E) | (d & [= <-] & E & _)]; [discriminate E | congruence]. }
    split.
    { split; [|reflexivity]. intros _. exists data. split; [reflexivity | left; exact Ht]. }
    split; [|intros d _ E; discriminate E].
    split; [discriminate|]. intros (m & [= ->] & E).
    destruct m; [discriminate|]. cbn in Ht. discriminate.
Qed.

Lemma chart_step_result (cv : libs) (analysis_type image_data : json) :
  let chart :=
    json_in analysis_type ["comprehensive"; "quick"]
    && Response.success (analyze_chart_image_of cv image_data) in
  let result := chart_step cv analysis_type image_data empty_result in
  AnalyzeResult.recommended_signal result
  = (if chart
     then Some (ChartSignal
                  (Response.trading_signal (analyze_chart_image_of cv image_data)))
     else None)
  /\ AnalyzeResult.primary_method result
     = (if chart then Some "chart_analysis" else None)
  /\ AnalyzeResult.chart_analysis result
     = (if json_in analysis_type ["comprehensive"; "quick"]
        then Some (analyze_chart_image_of cv image_data) else None)
  /\ AnalyzeResult.ocr_analysis result = None.
Proof.
  cbv zeta. unfold chart_step.
  destruct (json_in analysis_type ["comprehensive"; "quick"]); cbn [andb];
    [|repeat split].
  destruct (chart_signal_facts cv image_data) as (Hs & _).
  rewrite Hs, andb_true_r.
  destruct (Response.success (analyze_chart_image_of cv image_data));
    repeat split.
Qed.

(** The OCR signal the handler would use, if any. *)
Lemma ocr_step_result (cv : libs) (ocr_service : option AdvancedOCR)
  (analysis_type image_data : json) (result : AnalyzeResult.t) :
  let analysis :=
    if json_in analysis_type ["comprehensive"; "ocr_only"]
    then option_map (fun service => extract_text_from_image_of cv service image_data)
           ocr_service
    else None in
  let after := ocr_step cv ocr_service analysis_type image_data result in
  AnalyzeResult.chart_analysis after = AnalyzeResult.chart_analysis result
  /\ AnalyzeResult.ocr_analysis after
     = match analysis with
       | Some ocr_analysis => Some ocr_analysis
       | None => AnalyzeResult.ocr_analysis result
       end
  /\ match AnalyzeResult.recommended_signal result,
           match analysis with
           | Some ocr_analysis =>
               option_map (fun sig => (sig, ocr_analysis))
                 (found_ocr_signal ocr_analysis)
           | None => None
           end with
     | None, Some (ocr_signal, ocr_analysis) =>
         AnalyzeResult.recommended_signal after
         = Some (OwnSignal
                   (ocr_recommended_signal ocr_signal
                      (Py.dict_get (OcrResponse.extracted_text ocr_analysis)
                         EmptyString)))
         /\ AnalyzeResult.primary_method after = Some "ocr_signal"
     | _, _ =>
         AnalyzeResult.recommended_signal after
         = AnalyzeResult.recommended_signal result
         /\ AnalyzeResult.primary_method after
            = AnalyzeResult.primary_method result
     end.
Proof.
  cbv zeta. unfold ocr_step.
  destruct (json_in analysis_type ["comprehensive"; "ocr_only"]).
  - destruct ocr_service as [service|]; cbn [option_map].
    + destruct (found_ocr_signal (extract_text_from_image_of cv service image_data))
        as [sig|]; cbn [option_map];
        destruct (AnalyzeResult.recommended_signal result) eqn:E; cbn;
        rewrite ?E; repeat split.
    + destruct (AnalyzeResult.recommended_signal result); repeat split.
  - destruct (AnalyzeResult.recommended_signal result); repeat split.
Qed.



(** X24: on a request that passes the two checks, the chart analysis runs for
    the types "comprehensive" and "quick" and the OCR analysis for
    "comprehensive" and "ocr_only" when the service exists; any other type,
    also a value that is no string, runs neither.  The chart analysis has
    precedence: its signal is recommended exactly when it ran on a string
    that decodes to an image, whatever OCR finds; failing that the signal OCR
    found is recommended, with its confidence, symbol and side; failing that
    the fallback. *)
Theorem primary_method_rule (cv : libs) (ocr_service : option AdvancedOCR)
  (members : list (string * json)) :
  truthy (json_get "image" members JNull) = true ->
  let image_data := json_get "image" members JNull in
  let analysis_type :=
    json_get "analysis_type" members (JString "comprehensive") in
  let chart_analysis := analyze_chart_image_of cv image_data in
  let chart :=
    json_in analysis_type ["comprehensive"; "quick"]
    && Response.success chart_analysis in
  let ocr_analysis :=
    if json_in analysis_type ["comprehensive"; "ocr_only"]
    then option_map (fun service => extract_text_from_image_of cv service image_data)
           ocr_service
    else None in
  exists result,
    analyze_chart cv ocr_service (Returned (JObject members)) = AnalyzeOk result
    /\ AnalyzeResult.chart_analysis result
       = (if json_in analysis_type ["comprehensive"; "quick"]
          then Some chart_analysis else None)
    /\ AnalyzeResult.ocr_analysis result = ocr_analysis
    /\ AnalyzeResult.timestamp result
       = Some (json_get "timestamp" members (JString ""))
    /\ (chart = true
        <-> json_in analysis_type ["comprehensive"; "quick"] = true
            /\ exists s, image_data = JString s /\ _decode_image cv s <> None)
    /\ (chart = true ->
        AnalyzeResult.primary_method result = Some "chart_analysis"
        /\ AnalyzeResult.recommended_signal result
           = Some (ChartSignal (Response.trading_signal chart_analysis)))
    /\ (chart = false ->
        match ocr_analysis with
        | Some analysis =>
            match found_ocr_signal analysis with
            | Some ocr_signal =>
                AnalyzeResult.primary_method result = Some "ocr_signal"
                /\ exists signal,
                     AnalyzeResult.recommended_signal result
                     = Some (OwnSignal signal)
                     /\ BackendSignal.confidence signal
                        = OcrSignal.confidence ocr_signal
                     /\ BackendSignal.symbol signal = OcrSignal.symbol ocr_signal
                     /\ BackendSignal.side signal = OcrSignal.side ocr_signal
                     /\ BackendSignal.stopLossPercent signal = 0.5
                     /\ BackendSignal.takeProfitPercent signal = 2.0
            | None =>
                AnalyzeResult.primary_method result = Some "fallback"
                /\ AnalyzeResult.recommended_signal result
                   = Some (OwnSignal fallback_signal)
            end
        | None =>
            AnalyzeResult.primary_method result = Some "fallback"
            /\ AnalyzeResult.recommended_signal result
               = Some (OwnSignal fallback_signal)
        end).
Proof.
  intros Hi. cbv zeta.
  assert (Ht : truthy (JObject members) = true).
  { destruct members; [discriminate Hi | reflexivity]. }
  unfold analyze_chart. rewrite Ht, Hi. cbn [negb].
  set (image_data := json_get "image" members JNull).
  set (analysis_type := json_get "analysis_type" members (JString "comprehensive")).
  eexists. split; [reflexivity|].
  unfold metadata_step.
  cbn [AnalyzeResult.chart_analysis AnalyzeResult.ocr_analysis
       AnalyzeResult.timestamp AnalyzeResult.primary_method
       AnalyzeResult.recommended_signal].
  destruct (chart_step_result cv analysis_type image_data) as (Hr & Hm & Hca & Hoa).
  cbv zeta in Hr, Hm, Hca, Hoa.
  pose proof (ocr_step_result cv ocr_service analysis_type image_data
                (chart_step cv analysis_type image_data empty_result))
    as (Oca & Ooa & Ho).
  cbv zeta in Oca, Ooa, Ho. rewrite Hr, Hm in Ho. rewrite Hca in Oca.
  rewrite Hoa in Ooa.
  set (after := ocr_step cv ocr_service analysis_type image_data
                  (chart_step cv analysis_type image_data empty_result)) in *.
  set (ocr_analysis :=
         if json_in analysis_type ["comprehensive"; "ocr_only"]
         then option_map
                (fun service => extract_text_from_image_of cv service image_data)
                ocr_service
         else None) in *.
  assert (Hsame : AnalyzeResult.chart_analysis (fallback_step after)
                  = AnalyzeResult.chart_analysis after
                  /\ AnalyzeResult.ocr_analysis (fallback_step after)
                     = AnalyzeResult.ocr_analysis after).
  { unfold fallback_step.
    destruct (AnalyzeResult.recommended_signal after); split; reflexivity. }
  destruct Hsame as [S1 S2]. rewrite S1, S2, Oca, Ooa.
  split; [reflexivity|].
  split; [destruct ocr_analysis; reflexivity|].
  split; [reflexivity|].
  split.
  { rewrite andb_true_iff, chart_success_iff. reflexivity. }
  unfold fallback_step.
  destruct (json_in analysis_type ["comprehensive"; "quick"]
            && Response.success (analyze_chart_image_of cv image_data)).
  - split; [intros _ | discriminate].
    assert (E : AnalyzeResult.recommended_signal after
                = Some (ChartSignal
                          (Response.trading_signal
                             (analyze_chart_image_of cv image_data)))
                /\ AnalyzeResult.primary_method after = Some "chart_analysis").
    { destruct ocr_analysis as [a|]; [|exact Ho].
      destruct (option_map (fun sig => (sig, a)) (found_ocr_signal a)) as [[? ?]|];
        exact Ho. }
    destruct E as [E1 E2]. rewrite E1. split; assumption.
  - split; [discriminate | intros _].
    destruct ocr_analysis as [a|].
    + destruct (found_ocr_signal a) as [sig|]; cbn [option_map] in Ho;
        destruct Ho as [E1 E2]; rewrite E1.
      * split; [exact E2|]. eexists. split; [exact E1|]. repeat split.
      * split; reflexivity.
    + destruct Ho as [E1 E2]. rewrite E1. split; reflexivity.
Qed.

Lemma primary_method_rule_witness :
  truthy (json_get "image"
            [("image", JString Sample.payload); ("analysis_type", JString "ocr_only")]
            JNull) = true
  /\ exists result,
       analyze_chart Sample.cv (Some SampleOcr.service)
         (Returned
            (JObject [("image", JString Sample.payload);
                      ("analysis_type", JString "ocr_only")]))
       = AnalyzeOk result
       /\ AnalyzeResult.chart_analysis result = None
       /\ AnalyzeResult.primary_method result = Some "ocr_signal".
Proof.
  split; [reflexivity|].
  destruct (primary_method_rule Sample.cv (Some SampleOcr.service)
              [("image", JString Sample.payload);
               ("analysis_type", JString "ocr_only")] eq_refl)
    as (result & E & Hc & _ & _ & _ & _ & Hf).
  exists result. split; [exact E|]. split; [exact Hc|].
  exact (proj1 (Hf eq_refl)).
Defined.

(** X25: /extract-text answers 200 only when an OCR service exists and the
    body is an object with a true "image"; the answer then is what the
    service returned, so an image that cannot be decoded gives status 200
    with success false.  With the service switched off, as app.py has it, no
    request is answered with 200: a request that passes the two checks fails
    on the missing service with status 500. *)
Theorem extract_text_status (cv : libs) (ocr_service : option AdvancedOCR)
  (request_json : outcome json) :
  let r := extract_text cv ocr_service request_json in
  (extract_status r = 200%Z
   <-> exists service members,
         ocr_service = Some service
         /\ request_json = Returned (JObject members)
         /\ truthy (json_get "image" members JNull) = true)
  /\ (extract_status r = 400%Z
      <-> exists data, request_json = Returned data
            /\ (truthy data = false
                \/ exists members, data = JObject members
                     /\ truthy (json_get "image" members JNull) = false))
  /\ (forall result backend, r = ExtractOk result backend ->
      backend = "python_ocr"
      /\ (OcrResponse.success result = true
          <-> exists members s,
                request_json = Returned (JObject members)
                /\ json_get "image" members JNull = JString s
                /\ _decode_image cv s <> None))
  /\ (forall success error extracted_text backend,
        r = ExtractError success error extracted_text backend ->
        success = false /\ extracted_text = EmptyString /\ backend = "python_ocr")
  /\ (ocr_service = None ->
      forall members,
        request_json = Returned (JObject members) ->
        truthy (json_get "image" members JNull) = true ->
        r = ExtractError false
              "'NoneType' object has no attribute 'extract_text_from_image'"
              "" "python_ocr").
Proof.
  cbv zeta. unfold extract_text.
  destruct request_json as [data | e].
  2:{ cbn. split; [split; [discriminate | intros (sv & m & _ & E & _); discriminate E]|].
      split; [split; [discriminate | intros (d & E & _); discriminate E]|].
      split; [intros ? ? E; discriminate E|].
      split; [intros ? ? ? ? [= <- <- <- <-]; auto|].
      intros _ m E. discriminate E. }
  destruct (truthy data) eqn:Ht; cbn [negb].
  - destruct data as [| b | n | x | s | items | members];
      try (cbn [extract_status];
           split; [split; [discriminate
                          | intros (sv & m & _ & E & _); discriminate E]|];
           split; [split; [discriminate
                          | intros (d & [= <-] & [E | (m & E & _)]);
                            [congruence | discriminate E]]|];
           split; [intros ? ? E; discriminate E|];
           split; [intros ? ? ? ? [= <- <- <- <-]; auto|];
           intros _ m E; discriminate E).
    destruct (truthy (json_get "image" members JNull)) eqn:Hi; cbn [negb].
    + destruct ocr_service as [service|]; cbn [extract_status].
      * split.
        { split; [|reflexivity]. intros _. exists service, members. auto. }
        split.
        { split; [discriminate|].
          intros (d & [= <-] & [E | (m & [= <-] & E)]); congruence. }
        split.
        { intros result backend [= <- <-]. split; [reflexivity|].
          destruct (json_get "image" members JNull) eqn:Ej; cbn;
            try (split; [discriminate
                        | intros (m & s' & [= <-] & E & _); congruence]).
          unfold extract_text_from_image.
          destruct (_decode_image cv s) as [image|] eqn:Ed; cbn.
          - split; [|reflexivity]. intros _. exists members, s.
            split; [reflexivity|]. split; [exact Ej | congruence].
          - split; [discriminate|].
            intros (m & s' & [= <-] & E & H). congruence. }
        split; [intros ? ? ? ? E; discriminate E|].
        intros E. discriminate E.
      * split.
        { split; [discriminate|]. intros (sv & m & E & _). discriminate E. }
        split.
        { split; [discriminate|].
          intros (d & [= <-] & [E | (m & [= <-] & E)]); congruence. }
        split; [intros ? ? E; discriminate E|].
        split; [intros ? ? ? ? [= <- <- <- <-]; auto|].
        intros _ m [= <-] _. reflexivity.
    + cbn [extract_status]. split.
      { split; [discriminate|]. intros (sv & m & _ & [= <-] & E). congruence. }
      split.
      { split; [|reflexivity]. intros _. exists (JObject members).
        split; [reflexivity|]. right. exists members. auto. }
      split; [intros ? ? E; discriminate E|].
      split; [intros ? ? ? ? E; discriminate E|].
      intros _ m [= <-] E. congruence.
  - cbn [extract_status]. split.
    { split; [discriminate|]. intros (sv & m & _ & [= ->] & E).
      destruct m; [discriminate E | discriminate Ht]. }
    split.
    { split; [|reflexivity]. intros _. exists data. auto. }
    split; [intros ? ? E; discriminate E|].
    split; [intros ? ? ? ? E; discriminate E|].
    intros _ m [= ->] E. destruct m; [discriminate E | discriminate Ht].
Qed.
